(** * asyncio_http_server: the logging layer, the exception helpers and the
    demo server, embedded in Rocq.

    Sources embedded here:
    - [src/lib/utils.py]           (module [Utils])
    - [src/lib/log_handling.py]    (modules [Logging] for the standard-library
                                    collaborator, [LogHandling] for [LogManager])
    - [src/asyncio_server_test.py] (module [Server])

    Python objects with identity (LogManager instances, handlers) live in an
    explicit store; every method is a computation in a state-and-exception
    monad whose state survives a raised exception, as it does in Python. *)

From stdpp Require Import base option list gmap strings pretty sorting.
From Stdlib Require Import ZArith Lia Ascii.

Local Open Scope Z_scope.
Local Open Scope string_scope.
Local Open Scope list_scope.

(** ** Python basics: exceptions, results, the state-and-exception monad *)

Module Py.

(** The exception classes the program and its collaborators can raise. *)
Inductive exc_class : Type :=
| BaseException
| Exception
| KeyboardInterrupt
| SystemExit
| GeneratorExit
| InputValidationException   (* lib/utils.py:6 *)
| FatalRuntimeException      (* lib/utils.py:10 *)
| AttributeError
| TypeError
| ValueError
| LookupError
| KeyError
| IndexError
| OSError
| FileNotFoundError
| NotADirectoryError
| IsADirectoryError
| PermissionError
| ReferenceError.

#[global] Instance exc_class_eq_dec : EqDecision exc_class.
Proof. solve_decision. Defined.

(** Method resolution order of each class: the class followed by its bases. *)
Definition mro (c : exc_class) : list exc_class :=
  match c with
  | BaseException => [BaseException]
  | Exception => [Exception; BaseException]
  | KeyboardInterrupt => [KeyboardInterrupt; BaseException]
  | SystemExit => [SystemExit; BaseException]
  | GeneratorExit => [GeneratorExit; BaseException]
  | InputValidationException => [InputValidationException; Exception; BaseException]
  | FatalRuntimeException => [FatalRuntimeException; Exception; BaseException]
  | AttributeError => [AttributeError; Exception; BaseException]
  | TypeError => [TypeError; Exception; BaseException]
  | ValueError => [ValueError; Exception; BaseException]
  | LookupError => [LookupError; Exception; BaseException]
  | KeyError => [KeyError; LookupError; Exception; BaseException]
  | IndexError => [IndexError; LookupError; Exception; BaseException]
  | OSError => [OSError; Exception; BaseException]
  | FileNotFoundError => [FileNotFoundError; OSError; Exception; BaseException]
  | NotADirectoryError => [NotADirectoryError; OSError; Exception; BaseException]
  | IsADirectoryError => [IsADirectoryError; OSError; Exception; BaseException]
  | PermissionError => [PermissionError; OSError; Exception; BaseException]
  | ReferenceError => [ReferenceError; Exception; BaseException]
  end.

Definition issubclass (c d : exc_class) : bool := bool_decide (d ∈ mro c).

(** A raised exception: its class and its message. *)
Record exn : Type := Raise { exc_type : exc_class; exc_msg : string }.

(** [isinstance(e, classes)] for a tuple of classes; also the test an
    [except classes:] clause performs. *)
Definition isinstance (e : exn) (classes : list exc_class) : bool :=
  existsb (issubclass (exc_type e)) classes.

Inductive result (A : Type) : Type :=
| Ok (a : A)
| Err (e : exn).
Arguments Ok {A} a.
Arguments Err {A} e.

(** Computations over a state [S] that may raise; the state reached when the
    exception is raised is kept. *)
Definition M (S A : Type) : Type := S → result A * S.

Definition ret {S A} (a : A) : M S A := λ s, (Ok a, s).
Definition bind {S A B} (m : M S A) (k : A → M S B) : M S B :=
  λ s, match m s with
       | (Ok a, s') => k a s'
       | (Err e, s') => (Err e, s')
       end.
Definition raise {S A} (e : exn) : M S A := λ s, (Err e, s).
Definition get {S} : M S S := λ s, (Ok s, s).
Definition gets {S A} (f : S → A) : M S A := λ s, (Ok (f s), s).
Definition modify {S} (f : S → S) : M S unit := λ s, (Ok tt, f s).

(** [try: m except classes: h] *)
Definition try_except {S A} (m : M S A) (classes : list exc_class)
    (h : exn → M S A) : M S A :=
  λ s, match m s with
       | (Ok a, s') => (Ok a, s')
       | (Err e, s') => if isinstance e classes then h e s' else (Err e, s')
       end.

(** [try: m except classes: h else: els] *)
Definition try_except_else {S A B} (m : M S A) (classes : list exc_class)
    (h : exn → M S B) (els : A → M S B) : M S B :=
  λ s, match m s with
       | (Ok a, s') => els a s'
       | (Err e, s') => if isinstance e classes then h e s' else (Err e, s')
       end.

(** [str.replace(old, new)] for a non-empty [old]: occurrences are found left
    to right and do not overlap.  [skip] counts the characters of a match
    that are still to be dropped. *)
Fixpoint replace_from (old new : string) (skip : nat) (s : string) : string :=
  match s with
  | EmptyString => EmptyString
  | String c s' =>
      match skip with
      | S k => replace_from old new k s'
      | O => if String.prefix old s
             then new +:+ replace_from old new (String.length old - 1) s'
             else String c (replace_from old new O s')
      end
  end.

Definition replace (old new s : string) : string := replace_from old new 0 s.

End Py.

Export Py.

#[global] Instance M_ret {S} : MRet (M S) := λ A a, Py.ret a.
#[global] Instance M_bind {S} : MBind (M S) := λ A B k m, Py.bind m k.

(** ** [src/lib/utils.py] *)

Module Utils.

(** A context manager made by [@contextmanager] from a generator with one
    [yield] inside a [try]: what the generator does with an exception
    thrown in at the [yield].  [None]: the generator returns, so [__exit__]
    reports the exception handled; [Some e']: the generator raises [e'],
    which leaves the [with] statement. *)
Definition context_manager : Type := exn → option exn.

(** [with cm: body] *)
Definition with_ {S A} (cm : context_manager) (body : M S A) : M S unit :=
  λ s, match body s with
       | (Ok _, s') => (Ok tt, s')
       | (Err e, s') =>
           match cm e with
           | None => (Ok tt, s')
           | Some e' => (Err e', s')
           end
       end.

(** utils.py:14-19
<<
    try: yield
    except exception_classes: pass
>> *)
Definition ignore_exceptions (exception_classes : list exc_class)
  : context_manager :=
  λ e, if isinstance e exception_classes then None else Some e.

(** utils.py:22-28
<<
    try: yield
    except Exception as e:
        if isinstance(e, exception_classes): raise e
>> *)
Definition ignore_exceptions_except (exception_classes : list exc_class)
  : context_manager :=
  λ e, if isinstance e [Exception]
       then (if isinstance e exception_classes then Some e else None)
       else Some e.

End Utils.

(** ** The objects of the program *)

Module Model.

(** A value that is an [int] or a [str]: what [logging.getLevelName] takes
    and returns, and what [Handler.setLevel] accepts. *)
Inductive pyval : Type :=
| PInt (z : Z)
| PStr (s : string).

(** [sys.stdout], [sys.stderr], or another object with a [write] method. *)
Inductive stream : Type :=
| Stdout
| Stderr
| OtherStream (n : nat).

(** A [logging.LogRecord], as far as filters and formatters look at it:
    the level number, the message, and the truth value of each attribute
    passed through [extra=]. *)
Record log_record : Type := LogRecord {
  levelno : Z;
  message : string;
  extra : gmap string bool
}.

(** log_handling.py:106-108, the class made by [create_filter]; [flt_id] is
    the identity of the object. *)
Record log_filter : Type := CustomLogFilter {
  flt_id : nat;
  filter_fn : Z → bool
}.

(** [logging.Formatter], or the class made by [create_formatter]
    (log_handling.py:121-128) closed over its three functions. *)
Inductive formatter_class : Type :=
| Formatter
| CustomLogFormatter (should_format_fn : log_record → bool)
                     (cond_fmt_fn : string → string)
                     (always_fmt_fn : option (string → string)).

(** An instantiated formatter: [formatter(entry_fmt, date_fmt)]. *)
Record formatter : Type := MkFormatter {
  fmt_class : formatter_class;
  fmt_entry : string;
  fmt_date : string
}.

Inductive handler_kind : Type :=
| StreamHandler (s : stream)
| TimedRotatingFileHandler (filename : string) (when : string) (backupCount : Z)
| FileHandler (filename : string).

(** A [logging.Handler]; [h_id] is the identity of the object. *)
Record handler : Type := MkHandler {
  h_id : nat;
  h_kind : handler_kind;
  h_level : Z;
  h_formatter : option formatter;
  h_filters : list log_filter
}.

Record logger : Type := MkLogger {
  lg_level : Z;
  lg_handlers : list handler
}.

(** A reference to a logger: the root logger, or a named one of
    [Logger.manager.loggerDict]. *)
Inductive logger_ref : Type :=
| RootLogger
| NamedLogger (n : string).

#[global] Instance logger_ref_eq_dec : EqDecision logger_ref.
Proof. solve_decision. Defined.

(** Values stored as attributes of a LogManager by [setattr], or found by
    [getattr]. *)
Inductive pyobj : Type :=
| BoundLoggerMethod (lg : logger_ref) (meth : string)  (* getattr(self.logger, fn) *)
| LogClosure (self : nat) (level_number : Z)           (* _log, log_handling.py:172 *)
| DataAttr (field : string)                            (* the value of a data attribute *)
| ClassAttr (attr : string).                           (* a method or class attribute *)

(** A LogManager instance.  The data attributes assigned in [__init__] are
    fields; the attributes written with [setattr] are in [fn_attrs]. *)
Record LogManager : Type := MkLogManager {
  lm_name : option string;
  tz_aliases : gmap string string;
  lm_logger : logger_ref;
  entry_format : string;             (* defaults["entry_format"] *)
  date_format : string;              (* defaults["date_format"] *)
  log_funcs : gmap string pyobj;
  stdout_lvl : Z;
  fn_attrs : gmap string pyobj
}.

Inductive fskind : Type := File | Dir.

(** What the program reads from its surroundings and cannot change. *)
Record environment : Type := MkEnv {
  tzname : string;                    (* time.strftime("%Z", time.localtime()) *)
  user : string;                      (* getpass.getuser() *)
  now : Z;                            (* int(time.time()) *)
  stack : list (option string);       (* per frame of inspect.stack(): the module
                                         name of its source file, [None] when
                                         inspect.getsourcefile gives no file *)
  colors : bool                       (* whether termcolor colours its output: its
                                         checks of the environment
                                         (ANSI_COLORS_DISABLED and the like) *)
}.

(** The state of the process. *)
Record world : Type := World {
  (* module logging *)
  _nameToLevel : gmap string Z;
  _levelToName : gmap Z string;
  _handlerList : list nat;            (* identities of the handlers made so far,
                                         [lastResort] first; the model collects
                                         no object, and the program only asks
                                         whether the list is empty *)
  root : logger;
  loggerDict : gmap string logger;
  next_id : nat;                      (* identity of the next handler or filter *)
  (* class LogManager, log_handling.py:18-19 *)
  _default_instance : option nat;
  _instances : gmap string nat;
  heap : list LogManager;             (* the LogManager objects, by reference *)
  (* surroundings *)
  fs : gmap string fskind;
  env : environment
}.

Definition set_nameToLevel (f : gmap string Z → gmap string Z) (w : world) : world :=
  World (f (_nameToLevel w)) (_levelToName w) (_handlerList w) (root w) (loggerDict w)
        (next_id w) (_default_instance w) (_instances w) (heap w) (fs w) (env w).
Definition set_levelToName (f : gmap Z string → gmap Z string) (w : world) : world :=
  World (_nameToLevel w) (f (_levelToName w)) (_handlerList w) (root w) (loggerDict w)
        (next_id w) (_default_instance w) (_instances w) (heap w) (fs w) (env w).
Definition set_handlerList (f : list nat → list nat) (w : world) : world :=
  World (_nameToLevel w) (_levelToName w) (f (_handlerList w)) (root w) (loggerDict w)
        (next_id w) (_default_instance w) (_instances w) (heap w) (fs w) (env w).
Definition set_root (f : logger → logger) (w : world) : world :=
  World (_nameToLevel w) (_levelToName w) (_handlerList w) (f (root w)) (loggerDict w)
        (next_id w) (_default_instance w) (_instances w) (heap w) (fs w) (env w).
Definition set_loggerDict (f : gmap string logger → gmap string logger) (w : world) : world :=
  World (_nameToLevel w) (_levelToName w) (_handlerList w) (root w) (f (loggerDict w))
        (next_id w) (_default_instance w) (_instances w) (heap w) (fs w) (env w).
Definition set_next_id (f : nat → nat) (w : world) : world :=
  World (_nameToLevel w) (_levelToName w) (_handlerList w) (root w) (loggerDict w)
        (f (next_id w)) (_default_instance w) (_instances w) (heap w) (fs w) (env w).
Definition set_default_instance (f : option nat → option nat) (w : world) : world :=
  World (_nameToLevel w) (_levelToName w) (_handlerList w) (root w) (loggerDict w)
        (next_id w) (f (_default_instance w)) (_instances w) (heap w) (fs w) (env w).
Definition set_instances (f : gmap string nat → gmap string nat) (w : world) : world :=
  World (_nameToLevel w) (_levelToName w) (_handlerList w) (root w) (loggerDict w)
        (next_id w) (_default_instance w) (f (_instances w)) (heap w) (fs w) (env w).
Definition set_heap (f : list LogManager → list LogManager) (w : world) : world :=
  World (_nameToLevel w) (_levelToName w) (_handlerList w) (root w) (loggerDict w)
        (next_id w) (_default_instance w) (_instances w) (f (heap w)) (fs w) (env w).
Definition set_fs (f : gmap string fskind → gmap string fskind) (w : world) : world :=
  World (_nameToLevel w) (_levelToName w) (_handlerList w) (root w) (loggerDict w)
        (next_id w) (_default_instance w) (_instances w) (heap w) (f (fs w)) (env w).

(** Computations of the program. *)
Abbreviation Prog := (M world).

End Model.

Export Model.

(** ** The operating system, as far as [LogManager] touches it

    Collaborators from the Python standard library ([os], [os.path], [open]);
    the model keeps a map from path names to what exists there.  A path name
    is a key as it is written: [.] and [..], doubled or trailing slashes and
    links are not resolved, and permissions are not represented, so the
    model says of fewer calls than the system that they fail. *)

Module Os.

Definition slash : ascii := "/"%char.

Fixpoint drop_until_slash (l : list ascii) : list ascii :=
  match l with
  | [] => []
  | c :: l' => if bool_decide (c = slash) then l else drop_until_slash l'
  end.

Fixpoint strip_slashes (l : list ascii) : list ascii :=
  match l with
  | [] => []
  | c :: l' => if bool_decide (c = slash) then strip_slashes l' else l
  end.

(** [posixpath.dirname]:
<<
    i = p.rfind('/') + 1
    head = p[:i]
    if head and head != '/'*len(head): head = head.rstrip('/')
    return head
>>
    computed on the reversed path. *)
Definition dirname (p : string) : string :=
  let head := drop_until_slash (reverse (String.list_ascii_of_string p)) in
  if forallb (λ c, bool_decide (c = slash)) head
  then String.string_of_list_ascii (reverse head)
  else String.string_of_list_ascii (reverse (strip_slashes head)).

(** A path of slashes only names the root directory. *)
Definition is_root (p : string) : bool :=
  negb (bool_decide (p = EmptyString))
  && forallb (λ c, bool_decide (c = slash)) (String.list_ascii_of_string p).

(** What is at a path; nothing is at the empty path, and the root is a
    directory. *)
Definition stat (w : world) (p : string) : option fskind :=
  if bool_decide (p = EmptyString) then None
  else if is_root p then Some Dir
  else fs w !! p.

(** The directories above [p], the nearest first: the directory of [p],
    the directory of that, and so on up to the root or, for a relative
    path, to its first component. *)
Fixpoint ancestors_from (n : nat) (p : string) : list string :=
  match n with
  | O => []
  | S n' =>
      let d := dirname p in
      if bool_decide (d = EmptyString) || bool_decide (d = p) then []
      else d :: ancestors_from n' d
  end.

Definition ancestors (p : string) : list string :=
  ancestors_from (String.length p) p.

(** What [os.makedirs] finds above a directory it is to make: [l] are the
    directories above [child], the nearest first.  It climbs while nothing
    is there; the result is the directories to make on the way down, or the
    path at which [mkdir] fails because a file is above it. *)
Fixpoint dirs_to_make (w : world) (child : string) (l : list string)
  : list string + string :=
  match l with
  | [] => inl []
  | a :: l' =>
      match stat w a with
      | Some Dir => inl []
      | Some File => inr child
      | None =>
          match dirs_to_make w a l' with
          | inl ds => inl (a :: ds)
          | inr q => inr q
          end
      end
  end.

Definition ends_with_slash (p : string) : bool :=
  match reverse (String.list_ascii_of_string p) with
  | c :: _ => bool_decide (c = slash)
  | [] => false
  end.

(** [p] without the slashes at its end, unless it is the root. *)
Definition rstrip_slashes (p : string) : string :=
  if is_root p then p
  else String.string_of_list_ascii
         (reverse (strip_slashes (reverse (String.list_ascii_of_string p)))).

Definition exists_ (p : string) : Prog bool :=
  gets (λ w, match stat w p with Some _ => true | None => false end).

Definition isdir (p : string) : Prog bool :=
  gets (λ w, match stat w p with Some Dir => true | _ => false end).

(** [os.makedirs]: the directory and the directories above it that are
    missing are made.  The empty path names nothing to create; nothing can
    be made where something is, or below a file. *)
Definition makedirs (p : string) : Prog unit :=
  if bool_decide (p = EmptyString)
  then raise (Raise FileNotFoundError "[Errno 2] No such file or directory")
  else
    w ← get;
    match stat w p with
    | Some _ => raise (Raise OSError ("[Errno 17] File exists: " +:+ p))
    | None =>
        match dirs_to_make w p (ancestors p) with
        | inr q =>
            raise (Raise NotADirectoryError ("[Errno 20] Not a directory: '" +:+ q +:+ "'"))
        | inl ds => modify (set_fs (λ m, foldr (λ a m, <[a := Dir]> m) m (p :: ds)))
        end
    end.

(** [os.chmod]; modes are not represented. *)
Definition chmod (p : string) (mode : Z) : Prog unit := mret tt.

(** [open(path, 'a')], as the file handlers do when they are created: the
    file is made when it is missing and its directory is there.  A path
    that ends with a slash names a directory. *)
Definition open_append (p : string) : Prog unit :=
  w ← get;
  if bool_decide (p = EmptyString)
  then raise (Raise FileNotFoundError "[Errno 2] No such file or directory")
  else if ends_with_slash p
  then raise (Raise IsADirectoryError
                ("[Errno 21] Is a directory: '" +:+ rstrip_slashes p +:+ "'"))
  else
  match stat w p with
  | Some Dir =>
      raise (Raise IsADirectoryError ("[Errno 21] Is a directory: '" +:+ p +:+ "'"))
  | Some File => mret tt
  | None =>
      let d := dirname p in
      if bool_decide (d = EmptyString) then modify (set_fs <[p := File]>)
      else
        match stat w d with
        | Some Dir => modify (set_fs <[p := File]>)
        | Some File =>
            raise (Raise NotADirectoryError ("[Errno 20] Not a directory: '" +:+ p +:+ "'"))
        | None =>
            raise (Raise FileNotFoundError "[Errno 2] No such file or directory")
        end
  end.

End Os.

(** ** The standard [logging] module, as far as [LogManager] uses it

    Collaborator code (CPython's [logging/__init__.py], before 3.9), quoted
    where a definition follows it. *)

Module Logging.

Definition CRITICAL : Z := 50.
Definition ERROR : Z := 40.
Definition WARNING : Z := 30.
Definition INFO : Z := 20.
Definition DEBUG : Z := 10.
Definition NOTSET : Z := 0.

(** The level registry when the module is loaded. *)
Definition initial_levelToName : gmap Z string :=
  list_to_map [(CRITICAL, "CRITICAL"); (ERROR, "ERROR"); (WARNING, "WARNING");
               (INFO, "INFO"); (DEBUG, "DEBUG"); (NOTSET, "NOTSET")].

Definition initial_nameToLevel : gmap string Z :=
  list_to_map [("CRITICAL", CRITICAL); ("FATAL", CRITICAL); ("ERROR", ERROR);
               ("WARN", WARNING); ("WARNING", WARNING); ("INFO", INFO);
               ("DEBUG", DEBUG); ("NOTSET", NOTSET)].

(** [key in logging._nameToLevel]: the keys of that dictionary are strings,
    so an [int] is never one of them. *)
Definition in_nameToLevel (key : pyval) (w : world) : bool :=
  match key with
  | PStr s => bool_decide (is_Some (_nameToLevel w !! s))
  | PInt _ => false
  end.

(** [_levelToName[level] = levelName; _nameToLevel[levelName] = level] *)
Definition addLevelName (level : Z) (levelName : string) : Prog unit :=
  modify (set_levelToName <[level := levelName]>);;
  modify (set_nameToLevel <[levelName := level]>).

(**
<<
    result = _levelToName.get(level)
    if result is not None: return result
    result = _nameToLevel.get(level)
    if result is not None: return result
    return "Level %s" % level
>> *)
Definition getLevelName (level : pyval) : Prog pyval :=
  w ← get;
  match level with
  | PInt z =>
      match _levelToName w !! z with
      | Some n => mret (PStr n)
      | None => mret (PStr ("Level " +:+ pretty z))
      end
  | PStr s =>
      match _nameToLevel w !! s with
      | Some z => mret (PInt z)
      | None => mret (PStr ("Level " +:+ s))
      end
  end.

(**
<<
    if isinstance(level, int): rv = level
    elif str(level) == level:
        if level not in _nameToLevel: raise ValueError("Unknown level: %r" % level)
        rv = _nameToLevel[level]
>> *)
Definition _checkLevel (level : pyval) : Prog Z :=
  match level with
  | PInt z => mret z
  | PStr s =>
      w ← get;
      match _nameToLevel w !! s with
      | Some z => mret z
      | None => raise (Raise ValueError ("Unknown level: " +:+ s))
      end
  end.

Definition new_logger : logger := MkLogger NOTSET [].

(** The logger a reference denotes. *)
Definition logger_at (w : world) (r : logger_ref) : logger :=
  match r with
  | RootLogger => root w
  | NamedLogger n => default new_logger (loggerDict w !! n)
  end.

Definition update_logger (r : logger_ref) (f : logger → logger) : Prog unit :=
  match r with
  | RootLogger => modify (set_root f)
  | NamedLogger n =>
      w ← get; modify (set_loggerDict <[n := f (logger_at w r)]>)
  end.

(**
<<
    if name: return Logger.manager.getLogger(name)
    else: return root
>>
    [Manager.getLogger] returns the logger of that name and makes it first
    when there is none. *)
Definition getLogger (name : option string) : Prog logger_ref :=
  match name with
  | None => mret RootLogger
  | Some n =>
      if bool_decide (n = EmptyString) then mret RootLogger
      else
        w ← get;
        match loggerDict w !! n with
        | Some _ => mret (NamedLogger n)
        | None => modify (set_loggerDict <[n := new_logger]>);; mret (NamedLogger n)
        end
  end.

(** [Logger.setLevel]: [self.level = _checkLevel(level)] *)
Definition Logger_setLevel (r : logger_ref) (level : pyval) : Prog unit :=
  lv ← _checkLevel level;
  update_logger r (λ lg, MkLogger lv (lg_handlers lg)).

(** [logger.handlers = hs] *)
Definition Logger_set_handlers (r : logger_ref) (hs : list handler) : Prog unit :=
  update_logger r (λ lg, MkLogger (lg_level lg) hs).

(** [hdlr in self.handlers], by identity. *)
Definition handler_in (h : handler) (hs : list handler) : bool :=
  existsb (λ h', bool_decide (h_id h' = h_id h)) hs.

(** [Logger.addHandler]:
<<
    if not (hdlr in self.handlers): self.handlers.append(hdlr)
>> *)
Definition Logger_addHandler (r : logger_ref) (hdlr : handler) : Prog unit :=
  update_logger r (λ lg,
    if handler_in hdlr (lg_handlers lg) then lg
    else MkLogger (lg_level lg) (lg_handlers lg ++ [hdlr])).

(** [Handler.__init__]: a new object with level [NOTSET], no formatter and
    no filter, entered in [_handlerList]. *)
Definition Handler_init (kind : handler_kind) : Prog handler :=
  w ← get;
  let i := next_id w in
  modify (set_next_id S);;
  modify (set_handlerList (λ l, l ++ [i]));;
  mret (MkHandler i kind NOTSET None []).

(** [logging.StreamHandler(stream)] *)
Definition new_StreamHandler (s : stream) : Prog handler :=
  Handler_init (StreamHandler s).

(** [logging.FileHandler(filename)]: the file is opened, then the handler
    is initialised. *)
Definition new_FileHandler (filename : string) : Prog handler :=
  Os.open_append filename;;
  Handler_init (FileHandler filename).

(** [handlers.TimedRotatingFileHandler(filename, when, backupCount=n)] *)
Definition new_TimedRotatingFileHandler (filename when : string) (backupCount : Z)
  : Prog handler :=
  Os.open_append filename;;
  Handler_init (TimedRotatingFileHandler filename when backupCount).

(** [Handler.setLevel]: [self.level = _checkLevel(level)] *)
Definition Handler_setLevel (h : handler) (level : pyval) : Prog handler :=
  lv ← _checkLevel level;
  mret (MkHandler (h_id h) (h_kind h) lv (h_formatter h) (h_filters h)).

(** [Handler.setFormatter]: [self.formatter = fmt] *)
Definition Handler_setFormatter (h : handler) (f : formatter) : handler :=
  MkHandler (h_id h) (h_kind h) (h_level h) (Some f) (h_filters h).

(** [Filterer.addFilter]:
<<
    if not (filter in self.filters): self.filters.append(filter)
>> *)
Definition Handler_addFilter (h : handler) (flt : log_filter) : handler :=
  if existsb (λ f, bool_decide (flt_id f = flt_id flt)) (h_filters h) then h
  else MkHandler (h_id h) (h_kind h) (h_level h) (h_formatter h) (h_filters h ++ [flt]).


End Logging.

(** ** [src/lib/log_handling.py]: class [LogManager] *)

Module LogHandling.
Import Logging Utils.

(** The names bound in the body of [class LogManager]. *)
Definition class_attrs : list string :=
  ["_default_instance"; "_instances"; "get_instance"; "__init__"; "_set_instance";
   "get_log_funcs"; "create_default_stream_logger"; "create_default_logger";
   "set_timezone_alias"; "create_filter"; "create_formatter"; "_prep_log_dir";
   "add_level"; "_add_log_function"; "add_handler"; "init_default_stream_logger";
   "init_default_logger"; "__module__"; "__dict__"; "__weakref__"; "__doc__"].

(** The attributes every instance inherits from [object]. *)
Definition object_attrs : list string :=
  ["__class__"; "__delattr__"; "__dir__"; "__eq__"; "__format__"; "__ge__";
   "__getattribute__"; "__gt__"; "__hash__"; "__init_subclass__"; "__le__"; "__lt__";
   "__ne__"; "__new__"; "__reduce__"; "__reduce_ex__"; "__repr__"; "__setattr__";
   "__sizeof__"; "__str__"; "__subclasshook__"].

(** The data attributes [__init__] assigns (log_handling.py:36-48). *)
Definition data_attrs : list string :=
  ["name"; "tz_aliases"; "logger"; "defaults"; "log_funcs"; "stdout_lvl"].

Definition with_fn_attrs (f : gmap string pyobj → gmap string pyobj) (lm : LogManager)
  : LogManager :=
  MkLogManager (lm_name lm) (tz_aliases lm) (lm_logger lm) (entry_format lm)
               (date_format lm) (log_funcs lm) (stdout_lvl lm) (f (fn_attrs lm)).
Definition with_log_funcs (f : gmap string pyobj → gmap string pyobj) (lm : LogManager)
  : LogManager :=
  MkLogManager (lm_name lm) (tz_aliases lm) (lm_logger lm) (entry_format lm)
               (date_format lm) (f (log_funcs lm)) (stdout_lvl lm) (fn_attrs lm).
Definition with_tz_aliases (f : gmap string string → gmap string string) (lm : LogManager)
  : LogManager :=
  MkLogManager (lm_name lm) (f (tz_aliases lm)) (lm_logger lm) (entry_format lm)
               (date_format lm) (log_funcs lm) (stdout_lvl lm) (fn_attrs lm).

(** The object behind a reference.  Python never holds a reference to
    nothing; the model answers one with [ReferenceError]. *)
Definition deref (self : nat) : Prog LogManager :=
  w ← get;
  match heap w !! self with
  | Some lm => mret lm
  | None => raise (Raise ReferenceError "no such object")
  end.

Definition update_self (self : nat) (f : LogManager → LogManager) : Prog unit :=
  lm ← deref self;
  modify (set_heap <[self := f lm]>).

(** A new object: the next free reference. *)
Definition alloc (lm : LogManager) : Prog nat :=
  w ← get;
  modify (set_heap (λ h, h ++ [lm]));;
  mret (length (heap w)).

(** [getattr(self, n)]: the instance dictionary, then the class, then
    [object]; [AttributeError] when the name is nowhere. *)
Definition getattr (self : nat) (n : string) : Prog pyobj :=
  lm ← deref self;
  match fn_attrs lm !! n with
  | Some v => mret v
  | None =>
      if bool_decide (n ∈ data_attrs) then mret (DataAttr n)
      else if bool_decide (n ∈ class_attrs ++ object_attrs) then mret (ClassAttr n)
      else raise (Raise AttributeError n)
  end.

(** [setattr(self, n, v)] for the function-valued attributes the class adds
    to its instances: an entry of the instance dictionary.  The names are
    those that [add_level] and the constructor pass on, which are no
    attribute of the instance yet; an instance whose data attribute or
    method has been overwritten is not represented. *)
Definition setattr (self : nat) (n : string) (v : pyobj) : Prog unit :=
  update_self self (with_fn_attrs <[n := v]>).

(** [for x in l: body] *)
Fixpoint for_ {A} (l : list A) (body : A → Prog unit) : Prog unit :=
  match l with
  | [] => mret tt
  | x :: l' => body x;; for_ l' body
  end.

(** log_handling.py:56-61 *)
Definition _set_instance (name : option string) (instance : nat) : Prog unit :=
  match name with
  | None => modify (set_default_instance (λ _, Some instance))
  | Some n => modify (set_instances <[n := instance]>)
  end.

(** log_handling.py:167-175 *)
Definition _add_log_function (self : nat) (level_number : Z) (fn_name : string)
  : Prog unit :=
  let _log := LogClosure self level_number in
  setattr self fn_name _log;;
  v ← getattr self fn_name;
  update_self self (with_log_funcs <[fn_name := v]>).

(** log_handling.py:150-165 *)
Definition add_level (self : nat) (level_number : Z) (level_name : string)
    (fn_name : option string) : Prog unit :=
  let fn_name := default level_name fn_name in
  try_except_else (getattr self fn_name) [AttributeError]
    (λ _,
       w ← get;
       (if negb (in_nameToLevel (PStr level_name) w)
           && negb (in_nameToLevel (PInt level_number) w)
        then addLevelName level_number level_name
        else mret tt);;
       _add_log_function self level_number fn_name)
    (λ _,
       raise (Raise InputValidationException
                ("This LogManager already has a method called '" +:+ fn_name +:+ "'"))).

(** log_handling.py:35-54; the result is the reference to the new object. *)
Definition __init__ (name entry_fmt date_fmt : option string) (replace_handlers : bool)
  : Prog nat :=
  let entry_fmt := default "%(message)s" entry_fmt in
  let date_fmt := default "%Y-%m-%d %H:%M:%S %Z" date_fmt in
  let tz : gmap string string :=
    <["Eastern Standard Time" := "EST"]> (<["Eastern Daylight Time" := "EDT"]> ∅) in
  w ← get;
  (if bool_decide (name ≠ None) && (length (_handlerList w) <? 1)%nat
   then Logger_setLevel RootLogger (PInt NOTSET)
   else mret tt);;
  lg ← getLogger name;
  (if replace_handlers then Logger_set_handlers lg [] else mret tt);;
  Logger_setLevel lg (PInt NOTSET);;
  self ← alloc (MkLogManager name tz lg entry_fmt date_fmt ∅ INFO ∅);
  for_ ["debug"; "info"; "warning"; "error"; "critical"; "exception"; "log"]
    (λ fn, setattr self fn (BoundLoggerMethod lg fn);;
           v ← getattr self fn;
           update_self self (with_log_funcs <[fn := v]>));;
  with_ (ignore_exceptions [InputValidationException])
    (add_level self 19 "VERBOSE" (Some "verbose"));;
  _set_instance name self;;
  mret self.

(** log_handling.py:63-64 *)
Definition get_log_funcs (self : nat) : Prog (gmap string pyobj) :=
  lm ← deref self; mret (log_funcs lm).

(** log_handling.py:91-96 *)
Definition set_timezone_alias (self : nat) (original alias : string) : Prog unit :=
  update_self self (with_tz_aliases <[original := alias]>).

(** log_handling.py:98-109: a new filter object around [filter_fn]. *)
Definition create_filter (filter_fn : Z → bool) : Prog log_filter :=
  w ← get;
  modify (set_next_id S);;
  mret (CustomLogFilter (next_id w) filter_fn).

(** [CustomLogFilter.filter], log_handling.py:107-108 *)
Definition filter (flt : log_filter) (record : log_record) : bool :=
  filter_fn flt (levelno record).

(** log_handling.py:111-129 *)
Definition create_formatter (should_format_fn : log_record → bool)
    (cond_fmt_fn : string → string) (always_fmt_fn : option (string → string))
  : formatter_class :=
  CustomLogFormatter should_format_fn cond_fmt_fn always_fmt_fn.

(** [CustomLogFormatter.format], log_handling.py:122-128, applied to what
    [logging.Formatter.format] produced for the record. *)
Definition format (cls : formatter_class) (super_format : string) (record : log_record)
  : string :=
  match cls with
  | Formatter => super_format
  | CustomLogFormatter should_format_fn cond_fmt_fn always_fmt_fn =>
      let formatted := super_format in
      let formatted := match always_fmt_fn with
                       | Some f => f formatted
                       | None => formatted
                       end in
      if should_format_fn record then cond_fmt_fn formatted else formatted
  end.

(** log_handling.py:131-148 *)
Definition _prep_log_dir (log_path : string) (new_dir_permissions : Z) : Prog unit :=
  let log_dir := Os.dirname log_path in
  ex ← Os.exists_ log_dir;
  if ex : bool then
    d ← Os.isdir log_dir;
    if negb d then
      raise (Raise InputValidationException
               ("Invalid log file dir - not a directory: " +:+ log_dir))
    else mret tt
  else
    Os.makedirs log_dir;;
    if String.prefix "/var/tmp/" log_dir then
      try_except (Os.chmod log_dir new_dir_permissions) [OSError] (λ _, mret tt)
    else mret tt.

(** [0o1777], the default of [new_dir_permissions]. *)
Definition default_dir_permissions : Z := 1023.

(** The first argument of [add_handler]: an object with a [write] method,
    or a path. *)
Inductive destination : Type :=
| ToStream (s : stream)
| ToPath (p : string).

(** [hasattr(destination, "write")] *)
Definition has_write (d : destination) : bool :=
  match d with
  | ToStream _ => true
  | ToPath _ => false
  end.

(** log_handling.py:177-208 *)
Definition add_handler (self : nat) (dest : destination) (level : pyval)
    (fmt date_fmt : option string) (filter : option log_filter) (rotate : bool)
    (formatter : option formatter_class) : Prog unit :=
  lm ← deref self;
  let entry_fmt := default (entry_format lm) fmt in
  let date_fmt := default (date_format lm) date_fmt in
  let formatter := default Formatter formatter in
  handler ← match dest with
            | ToStream s => new_StreamHandler s
            | ToPath p =>
                if rotate then
                  _prep_log_dir p default_dir_permissions;;
                  new_TimedRotatingFileHandler p "midnight" 7
                else
                  _prep_log_dir p default_dir_permissions;;
                  new_FileHandler p
            end;
  tz ← gets (λ w, tzname (env w));
  let date_fmt := match tz_aliases lm !! tz with
                  | Some alias => replace "%Z" alias date_fmt
                  | None => date_fmt
                  end in
  handler ← Handler_setLevel handler level;
  let handler := Handler_setFormatter handler (MkFormatter formatter entry_fmt date_fmt) in
  let handler := match filter with
                 | Some f => Handler_addFilter handler f
                 | None => handler
                 end in
  Logger_addHandler (lm_logger lm) handler.

(** [termcolor.colored(msg, "red")]: the message between the escape
    sequences that switch red on and all attributes off, or the message as
    it is when the environment has colours switched off. *)
Definition colored_red (enabled : bool) (msg : string) : string :=
  if enabled
  then String (ascii_of_nat 27) "[31m" +:+ msg +:+ String (ascii_of_nat 27) "[0m"
  else msg.

(** log_handling.py:210-223.  The red formatter asks [termcolor] whenever
    it formats a record; the surroundings do not change, so they are read
    where the formatter is made. *)
Definition init_default_stream_logger (self : nat) (debug verbose : bool) : Prog unit :=
  stderr_filter ← create_filter (λ lvl, (lvl >=? WARNING)%Z);
  stdout_filter ← create_filter (λ lvl, (lvl <? WARNING)%Z);
  let stdout_lvl := if debug then PInt DEBUG else PInt INFO in
  stdout_lvl ← (if verbose then getLevelName (PStr "VERBOSE") else mret stdout_lvl);
  enabled ← gets (λ w, colors (env w));
  let red_formatter :=
    create_formatter (λ rec, default false (extra rec !! "red")) (colored_red enabled)
                     None in
  add_handler self (ToStream Stdout) stdout_lvl None None (Some stdout_filter) true None;;
  add_handler self (ToStream Stderr) (PInt INFO) (Some "%(levelname)s %(message)s") None
              (Some stderr_filter) true (Some red_formatter).

(** [os.path.splitext(os.path.basename(__file__))[0]] *)
Definition this_file : string := "log_handling".

(** The loop of log_handling.py:240-247 over the frames from index 1 on:
    a frame without a source file ends it with the interactive name, a
    frame of another module ends it with that module, and running out of
    frames ([IndexError]) leaves the name as it was. *)
Fixpoint find_calling_module (frames : list (option string)) : string :=
  match frames with
  | [] => this_file
  | None :: _ => this_file +:+ "_interactive"
  | Some m :: frames' =>
      if bool_decide (m = this_file) then find_calling_module frames' else m
  end.

(** The carriage return. *)
Definition cr : string := String (ascii_of_nat 13) EmptyString.

(** log_handling.py:225-253 *)
Definition init_default_logger (self : nat) (debug verbose : bool)
    (log_path : option string) : Prog string :=
  init_default_stream_logger self debug verbose;;
  log_path ← match log_path with
             | Some p => mret p
             | None =>
                 e ← gets env;
                 let calling_module := find_calling_module (drop 1 (stack e)) in
                 mret ("/var/tmp/" +:+ calling_module +:+ "_" +:+ user e +:+ "_"
                         +:+ pretty (now e) +:+ ".log")
             end;
  let file_fmt := "%(asctime)s %(levelname)s %(funcName)s:%(lineno)d %(message)s" in
  let cr_stripper := create_formatter (λ rec, true) (replace cr EmptyString) None in
  add_handler self (ToPath log_path) (PInt DEBUG) (Some file_fmt) None None true
              (Some cr_stripper);;
  mret log_path.

(** The arguments a caller forwards as positional and keyword arguments to the
    constructor.  [pos_name] is the constructor's [name] passed by
    position, [kw_name] the same passed by keyword; passing both is the
    [TypeError] of a parameter bound twice. *)
Record ctor_args : Type := CtorArgs {
  pos_name : option (option string);
  kw_name : option (option string);
  arg_entry_fmt : option string;
  arg_date_fmt : option string;
  arg_replace_handlers : bool
}.

(** [LogManager] called with forwarded arguments *)
Definition LogManager_call (a : ctor_args) : Prog nat :=
  match pos_name a, kw_name a with
  | Some _, Some _ =>
      raise (Raise TypeError "__init__() got multiple values for argument 'name'")
  | Some n, None | None, Some n =>
      __init__ n (arg_entry_fmt a) (arg_date_fmt a) (arg_replace_handlers a)
  | None, None =>
      __init__ None (arg_entry_fmt a) (arg_date_fmt a) (arg_replace_handlers a)
  end.

(** log_handling.py:66-76 *)
Definition create_default_stream_logger (debug verbose : bool) (a : ctor_args)
  : Prog nat :=
  lm ← LogManager_call a;
  init_default_stream_logger lm debug verbose;;
  mret lm.

(** log_handling.py:78-89 *)
Definition create_default_logger (debug verbose : bool) (log_path : option string)
    (a : ctor_args) : Prog (nat * string) :=
  lm ← LogManager_call a;
  actual_path ← init_default_logger lm debug verbose log_path;
  mret (lm, actual_path).

(** What [get_instance] receives after [name]: [debug] and [verbose] for
    [create_default_stream_logger], and the rest for the constructor, of
    which only [name] by position can reach it ([name] by keyword is
    [get_instance]'s own parameter). *)
Record extra_args : Type := ExtraArgs {
  x_debug : bool;
  x_verbose : bool;
  x_pos_name : option (option string);
  x_entry_fmt : option string;
  x_date_fmt : option string;
  x_replace_handlers : bool
}.

(** [get_instance(name)]: nothing after [name]. *)
Definition no_extra : extra_args := ExtraArgs false false None None None true.

(** log_handling.py:21-30; the result is [None] or a reference. *)
Definition get_instance (name : option string) (x : extra_args) : Prog (option nat) :=
  match name with
  | None =>
      w ← get;
      (match _default_instance w with
       | None =>
           create_default_stream_logger (x_debug x) (x_verbose x)
             (CtorArgs (x_pos_name x) None (x_entry_fmt x) (x_date_fmt x)
                       (x_replace_handlers x));;
           mret tt
       | Some _ => mret tt
       end);;
      gets _default_instance
  | Some n =>
      w ← get;
      (match _instances w !! n with
       | None =>
           create_default_stream_logger (x_debug x) (x_verbose x)
             (CtorArgs (x_pos_name x) (Some (Some n)) (x_entry_fmt x) (x_date_fmt x)
                       (x_replace_handlers x));;
           mret tt
       | Some _ => mret tt
       end);;
      w ← get;
      match _instances w !! n with
      | Some r => mret (Some r)
      | None => raise (Raise KeyError n)
      end
  end.

(** A call from outside on the class or on one of its instances. *)
Inductive op : Type :=
| Construct (name entry_fmt date_fmt : option string) (replace_handlers : bool)
| GetInstance (name : option string) (x : extra_args)
| CreateDefaultStreamLogger (debug verbose : bool) (a : ctor_args)
| CreateDefaultLogger (debug verbose : bool) (log_path : option string) (a : ctor_args)
| GetLogFuncs (self : nat)
| SetTimezoneAlias (self : nat) (original alias : string)
| AddLevel (self : nat) (level_number : Z) (level_name : string) (fn_name : option string)
| AddHandler (self : nat) (dest : destination) (level : pyval)
             (fmt date_fmt : option string) (filter : option log_filter) (rotate : bool)
             (formatter : option formatter_class)
| InitDefaultStreamLogger (self : nat) (debug verbose : bool)
| InitDefaultLogger (self : nat) (debug verbose : bool) (log_path : option string).

(** The state after a call, whether it returned or raised. *)
Definition run_op (o : op) (w : world) : world :=
  match o with
  | Construct n e d r => (__init__ n e d r w).2
  | GetInstance n x => (get_instance n x w).2
  | CreateDefaultStreamLogger d v a => (create_default_stream_logger d v a w).2
  | CreateDefaultLogger d v p a => (create_default_logger d v p a w).2
  | GetLogFuncs self => (get_log_funcs self w).2
  | SetTimezoneAlias self o a => (set_timezone_alias self o a w).2
  | AddLevel self n l f => (add_level self n l f w).2
  | AddHandler self d l f df flt r fm => (add_handler self d l f df flt r fm w).2
  | InitDefaultStreamLogger self d v => (init_default_stream_logger self d v w).2
  | InitDefaultLogger self d v p => (init_default_logger self d v p w).2
  end.

Definition run_ops (os : list op) (w : world) : world :=
  foldl (λ w o, run_op o w) w os.

(** The registry entry for a name: the default slot for [None], the named
    mapping otherwise. *)
Definition registry (w : world) (name : option string) : option nat :=
  match name with
  | None => _default_instance w
  | Some n => _instances w !! n
  end.

(** The process when [log_handling] has just been imported: [logging]
    has made its [lastResort] handler, which is on no logger and, held by
    the module, on [_handlerList] for good. *)
Definition initial_world (e : environment) : world :=
  World initial_nameToLevel initial_levelToName [0%nat] (MkLogger WARNING []) ∅ 1
        None ∅ [] ∅ e.

End LogHandling.

(** ** [src/asyncio_server_test.py] *)

Module Server.

Definition nl : string := String (ascii_of_nat 10) EmptyString.
Definition dq : string := String (ascii_of_nat 34) EmptyString.

(** A format string cut at its replacement fields; the doubled braces of
    the source are the literal braces they stand for. *)
Inductive segment : Type :=
| Lit (s : string)
| Field (name : string).

(** asyncio_server_test.py:11-27 *)
Definition html_template : list segment :=
  [Lit (nl +:+ "<!DOCTYPE html>" +:+ nl
        +:+ "<html lang=" +:+ dq +:+ "en" +:+ dq +:+ ">" +:+ nl
        +:+ "<head>" +:+ nl
        +:+ "    <meta charset=" +:+ dq +:+ "utf-8" +:+ dq +:+ ">" +:+ nl
        +:+ "    <title>");
   Field "title";
   Lit ("</title>" +:+ nl
        +:+ "    <style type=" +:+ dq +:+ "text/css" +:+ dq +:+ ">" +:+ nl
        +:+ "    table, tr, td {" +:+ nl
        +:+ "        border: 1px solid black;" +:+ nl
        +:+ "    }" +:+ nl
        +:+ "    </style>" +:+ nl
        +:+ "</head>" +:+ nl
        +:+ "<body>" +:+ nl);
   Field "body";
   Lit (nl +:+ "</body>" +:+ nl +:+ "</html>" +:+ nl)].

(** [template.format( **content)] *)
Definition format (template : list segment) (content : gmap string string) : string :=
  String.concat EmptyString
    ((λ seg, match seg with
             | Lit s => s
             | Field name => content !!! name
             end) <$> template).

(** A dictionary that keeps the order in which its keys were first set
    ([dict], [defaultdict], [OrderedDict]). *)
Definition odict (V : Type) : Type := list (string * V).

Fixpoint od_set {V} (k : string) (v : V) (d : odict V) : odict V :=
  match d with
  | [] => [(k, v)]
  | (k', v') :: d' =>
      if bool_decide (k' = k) then (k', v) :: d' else (k', v') :: od_set k v d'
  end.

Fixpoint od_get {V} (k : string) (d : odict V) : option V :=
  match d with
  | [] => None
  | (k', v') :: d' => if bool_decide (k' = k) then Some v' else od_get k d'
  end.

(** asyncio_server_test.py:30-43: [Registry(dict)], a [defaultdict] from a
    URI to the dictionary from HTTP method to method name. *)
Definition Registry : Type := odict (odict string).

(** [route_registry(method)]: an empty registry; the decorated function is
    not used. *)
Definition route_registry : Registry := [].

(** [registry[uri][method] = func.__name__] *)
Definition register (method uri func_name : string) (registry : Registry) : Registry :=
  od_set uri (od_set method func_name (default [] (od_get uri registry))) registry.

(** asyncio_server_test.py:65-70: the class attribute after the body of
    [TestServer] has run. *)
Definition web_routes : Registry :=
  register "GET" "/" "get_root" route_registry.

Record route : Type := Route {
  http_method : string;
  uri : string;
  server_method : string
}.

Record TestServer : Type := MkTestServer {
  counter : Z;
  address : string;
  port : Z;
  router : list route                 (* self.app.router *)
}.

(** asyncio_server_test.py:47-58 *)
Definition TestServer_init (address : string) (port : Z) : TestServer :=
  MkTestServer 0 address port
    (uri_actions ← web_routes;
     method_name ← uri_actions.2;
     [Route method_name.1 uri_actions.1 method_name.2]).

(** [html.escape(s)], with [quote=True]. *)
Definition escape_char (c : ascii) : string :=
  if bool_decide (c = "&"%char) then "&amp;"
  else if bool_decide (c = "<"%char) then "&lt;"
  else if bool_decide (c = ">"%char) then "&gt;"
  else if bool_decide (c = ascii_of_nat 34) then "&quot;"
  else if bool_decide (c = "'"%char) then "&#x27;"
  else String c EmptyString.

Fixpoint html_escape (s : string) : string :=
  match s with
  | EmptyString => EmptyString
  | String c s' => escape_char c +:+ html_escape s'
  end.

(** [sorted(keys)] on strings. *)
Definition sorted (keys : list string) : list string := merge_sort String.le keys.

(** What [get_root] reads of a request: [req.__dict__], with each value as
    [str] renders it. *)
Definition request : Type := gmap string string.

Record Response : Type := MkResponse {
  content_type : string;
  text : string
}.

(** asyncio_server_test.py:74-76 *)
Definition row_content (req : request) : odict string :=
  foldl (λ rc k, od_set (html_escape k) (html_escape (req !!! k)) rc) []
        (sorted (map_to_list req).*1).

(** asyncio_server_test.py:77 *)
Definition rows (req : request) : list string :=
  (λ kv, "<tr><td>" +:+ kv.1 +:+ "</td><td>" +:+ kv.2 +:+ "</td></tr>")
    <$> row_content req.

(** asyncio_server_test.py:69-80; printing the request line is left out. *)
Definition get_root (self : TestServer) (req : request) : TestServer * Response :=
  let self := MkTestServer (counter self + 1) (address self) (port self) (router self) in
  let content : gmap string string :=
    <["title" := "Request Info"]>
      (<["body" := "Information about your request:<br/>"]> ∅) in
  let content :=
    <["body" := (content !!! "body") +:+ "<table>" +:+ String.concat nl (rows req)
                +:+ "</table>"]> content in
  let html := format html_template content in
  (self, MkResponse "text/html" html).

End Server.

(** ** Invariants and proof rules *)

Module Reasoning.
Import Logging LogHandling.

(** No handler occurs twice in the handler list of the logger. *)
Definition logger_no_double (lg : logger) : Prop :=
  NoDup (h_id <$> lg_handlers lg).

(** No logger of the process has a handler registered twice. *)
Definition no_double_registration (w : world) : Prop :=
  logger_no_double (root w)
  ∧ map_Forall (λ _ lg, logger_no_double lg) (loggerDict w).

(** Every registered handler is an object that has been created: its
    identity is below the next one to be given out. *)
Definition logger_ids_below (n : nat) (lg : logger) : Prop :=
  Forall (λ h, (h_id h < n)%nat) (lg_handlers lg).

Definition ids_allocated (w : world) : Prop :=
  logger_ids_below (next_id w) (root w)
  ∧ map_Forall (λ _ lg, logger_ids_below (next_id w) lg) (loggerDict w).

#[global] Instance no_double_registration_dec w : Decision (no_double_registration w).
Proof. unfold no_double_registration, logger_no_double. apply _. Defined.

#[global] Instance ids_allocated_dec w : Decision (ids_allocated w).
Proof. unfold ids_allocated, logger_ids_below. apply _. Defined.

(** The registry holds an instance for the name. *)
Definition registered (name : option string) (w : world) : Prop :=
  is_Some (registry w name).

(** [hasattr(self, n)] for the object [lm]: whether [getattr] finds [n]. *)
Definition hasattr (lm : LogManager) (n : string) : bool :=
  bool_decide (is_Some (fn_attrs lm !! n))
  || bool_decide (n ∈ data_attrs)
  || bool_decide (n ∈ class_attrs ++ object_attrs).

(** The object after [setattr(self, fn, v)] and [self.log_funcs[fn] = v]. *)
Definition add_fn (fn : string) (v : pyobj) (lm : LogManager) : LogManager :=
  with_log_funcs <[fn := v]> (with_fn_attrs <[fn := v]> lm).

(** The level registry after [add_level] found no attribute of the name:
    what log_handling.py:161-162 does to it. *)
Definition register_level (level_number : Z) (level_name : string) (w : world) : world :=
  if in_nameToLevel (PStr level_name) w then w
  else set_nameToLevel <[level_name := level_number]>
         (set_levelToName <[level_number := level_name]> w).

(** The state [w] with other loggers. *)
Definition with_loggers (rt : logger) (d : gmap string logger) (w : world) : world :=
  set_loggerDict (λ _, d) (set_root (λ _, rt) w).

(** [w'] differs from [w] at most in the file system. *)
Definition fs_frame (w w' : world) : Prop :=
  w' = set_fs (λ _, fs w') w.

(** [w'] differs from [w] at most in the file system, the next identity
    and the list of live handlers: what making a handler may change. *)
Definition creation_frame (w w' : world) : Prop :=
  w' = set_handlerList (λ _, _handlerList w')
         (set_next_id (λ _, next_id w') (set_fs (λ _, fs w') w)).

(** The kind of handler [add_handler] makes for a destination. *)
Definition handler_kind_for (dest : destination) (rotate : bool) : handler_kind :=
  match dest with
  | ToStream s => StreamHandler s
  | ToPath p => if rotate then TimedRotatingFileHandler p "midnight" 7
                else FileHandler p
  end.

(** The date format [add_handler] gives the formatter: [%Z] replaced by
    the alias of the local time zone when the instance has one. *)
Definition handler_date_fmt (lm : LogManager) (w : world) (date_fmt : string) : string :=
  match tz_aliases lm !! tzname (env w) with
  | Some alias => replace "%Z" alias date_fmt
  | None => date_fmt
  end.

(** The handler [add_handler] attaches, for the checked level [lv]. *)
Definition handler_for (lm : LogManager) (w : world) (dest : destination) (lv : Z)
    (fmt date_fmt : option string) (filter : option log_filter) (rotate : bool)
    (formatter : option formatter_class) : handler :=
  MkHandler (next_id w) (handler_kind_for dest rotate) lv
    (Some (MkFormatter (default Formatter formatter)
                       (default (entry_format lm) fmt)
                       (handler_date_fmt lm w (default (date_format lm) date_fmt))))
    (match filter with Some f => [f] | None => [] end).

(** The number a level argument stands for: itself, or the number
    registered for the name. *)
Definition level_value (w : world) (level : pyval) : option Z :=
  match level with
  | PInt z => Some z
  | PStr s => _nameToLevel w !! s
  end.

(** [w'] has the level registry, the registry of instances, the objects
    and the surroundings of [w]. *)
Definition same_objects (w w' : world) : Prop :=
  _nameToLevel w' = _nameToLevel w ∧ _levelToName w' = _levelToName w
  ∧ _default_instance w' = _default_instance w ∧ _instances w' = _instances w
  ∧ heap w' = heap w ∧ env w' = env w.

(** [Logger.addHandler] on the logger itself. *)
Definition attach (hdlr : handler) (lg : logger) : logger :=
  if handler_in hdlr (lg_handlers lg) then lg
  else MkLogger (lg_level lg) (lg_handlers lg ++ [hdlr]).

(** The name the constructor receives from forwarded arguments, when they
    bind it once. *)
Definition bound_name (a : ctor_args) : option (option string) :=
  match pos_name a, kw_name a with
  | Some _, Some _ => None
  | Some n, None | None, Some n => Some n
  | None, None => Some None
  end.

(** A process in which the constructor has run once, for the root
    logger, and a file is where a log directory is asked for below. *)
Definition world_with_file (e : environment) : world :=
  set_fs (λ m, <["/etc/hostname" := File]> (<["/etc" := Dir]> m))
    (__init__ None None None true (initial_world e)).2.

(** A process to try things in: the local time zone is one the class has
    an alias for. *)
Definition env0 : environment :=
  MkEnv "Eastern Standard Time" "user" 1500000000
        [Some "log_handling"; Some "log_handling"; Some "main"] true.

(** [I] holds of the state [m] leaves when run from [w], whether [m]
    returns or raises. *)
Definition holds_after {A} (I : world → Prop) (m : Prog A) (w : world) : Prop :=
  I (m w).2.

(** The logger [logging.getLogger(name)] gives: the root logger for [None]
    and for the empty name. *)
Definition logger_of_name (name : option string) : logger_ref :=
  match name with
  | None => RootLogger
  | Some n => if bool_decide (n = EmptyString) then RootLogger else NamedLogger n
  end.

(** The names of the logger methods the constructor copies to the
    instance (log_handling.py:49). *)
Definition logger_methods : list string :=
  ["debug"; "info"; "warning"; "error"; "critical"; "exception"; "log"].

(** The object the constructor has built when it returns, at reference
    [self]. *)
Definition constructed (name entry_fmt date_fmt : option string) (self : nat) : LogManager :=
  add_fn "verbose" (LogClosure self 19)
    (foldl (λ lm fn, add_fn fn (BoundLoggerMethod (logger_of_name name) fn) lm)
       (MkLogManager name
          (<["Eastern Standard Time" := "EST"]> (<["Eastern Daylight Time" := "EDT"]> ∅))
          (logger_of_name name)
          (default "%(message)s" entry_fmt) (default "%Y-%m-%d %H:%M:%S %Z" date_fmt)
          ∅ INFO ∅)
       logger_methods).

(** The loggers when the constructor returns, in terms of the loggers
    before: the instance's logger at level NOTSET, without handlers when
    [replace_handlers]; the root logger at level NOTSET when the instance is
    named and no handler has been made so far; the others as they were. *)
Definition logger_after_init (name : option string) (replace_handlers : bool)
    (w : world) (r : logger_ref) : logger :=
  if decide (r = logger_of_name name)
  then MkLogger NOTSET (if replace_handlers then [] else lg_handlers (logger_at w r))
  else if decide (r = RootLogger)
       then (if bool_decide (name ≠ None) && (length (_handlerList w) <? 1)%nat
             then MkLogger NOTSET (lg_handlers (root w))
             else root w)
       else logger_at w r.

(** [w'] differs from [w] at most in the loggers. *)
Definition loggers_frame (w w' : world) : Prop :=
  w' = with_loggers (root w') (loggerDict w') w.

(** The characters that open or close markup or an attribute value. *)
Definition markup_chars : list ascii :=
  ["<"%char; ">"%char; ascii_of_nat 34; "'"%char].

(** No character of [s] is a markup character. *)
Definition markup_free (s : string) : Prop :=
  Forall (λ c, c ∉ markup_chars) (String.list_ascii_of_string s).

(** The level [init_default_stream_logger] gives the stdout handler, when
    [Handler.setLevel] accepts it: the number registered for VERBOSE when
    [verbose] (failing that, [getLevelName] answers with the text
    "Level VERBOSE", which is a level only if that is a registered name),
    else DEBUG when [debug], else INFO. *)
Definition stdout_level (debug verbose : bool) (w : world) : option Z :=
  if verbose then
    match _nameToLevel w !! "VERBOSE" with
    | Some z => Some z
    | None => _nameToLevel w !! "Level VERBOSE"
    end
  else Some (if debug then DEBUG else INFO).

(** The two handlers [init_default_stream_logger] attaches, in a state
    [w], for the stdout level [lv]. *)
Definition default_stdout_handler (lm : LogManager) (w : world) (lv : Z) : handler :=
  MkHandler (S (S (next_id w))) (StreamHandler Stdout) lv
    (Some (MkFormatter Formatter (entry_format lm)
             (handler_date_fmt lm w (date_format lm))))
    [CustomLogFilter (S (next_id w)) (λ lvl, (lvl <? WARNING)%Z)].

Definition default_stderr_handler (lm : LogManager) (w : world) : handler :=
  MkHandler (S (S (S (next_id w)))) (StreamHandler Stderr) INFO
    (Some (MkFormatter
             (create_formatter (λ rec, default false (extra rec !! "red"))
                               (colored_red (colors (env w))) None)
             "%(levelname)s %(message)s"
             (handler_date_fmt lm w (date_format lm))))
    [CustomLogFilter (next_id w) (λ lvl, (lvl >=? WARNING)%Z)].

(** The path [init_default_logger] logs to: the given one, or a file in
    [/var/tmp] named after the calling module, the user and the time. *)
Definition actual_log_path (log_path : option string) (w : world) : string :=
  match log_path with
  | Some p => p
  | None =>
      "/var/tmp/" +:+ find_calling_module (drop 1 (stack (env w))) +:+ "_"
      +:+ user (env w) +:+ "_" +:+ pretty (now (env w)) +:+ ".log"
  end.

(** [s] without its carriage returns. *)
Definition without_cr (s : string) : string :=
  String.string_of_list_ascii
    (List.filter (λ c, negb (bool_decide (c = ascii_of_nat 13)))
       (String.list_ascii_of_string s)).

End Reasoning.

(** * Properties *)

(** ** Rules for the monad *)

Section Rules.
Import Reasoning.
Context {A B : Type}.
Implicit Types (I : world → Prop).

Lemma bind_eq (m : Prog A) (k : A → Prog B) w :
  (m ≫= k) w = match m w with
               | (Ok a, w') => k a w'
               | (Err e, w') => (Err e, w')
               end.
Proof. reflexivity. Qed.

Lemma ret_eq (a : A) w : (mret a : Prog A) w = (Ok a, w).
Proof. reflexivity. Qed.

Lemma gets_eq (f : world → A) w : gets f w = (Ok (f w), w).
Proof. reflexivity. Qed.

Lemma bind_ok (m : Prog A) (k : A → Prog B) w a w' :
  m w = (Ok a, w') → (m ≫= k) w = k a w'.
Proof. intros H. by rewrite bind_eq, H. Qed.

Lemma bind_err (m : Prog A) (k : A → Prog B) w e w' :
  m w = (Err e, w') → (m ≫= k) w = (Err e, w').
Proof. intros H. by rewrite bind_eq, H. Qed.

Lemma bind_ok_inv (m : Prog A) (k : A → Prog B) w b w' :
  (m ≫= k) w = (Ok b, w') → ∃ a w1, m w = (Ok a, w1) ∧ k a w1 = (Ok b, w').
Proof.
  rewrite bind_eq. destruct (m w) as [[a|e] w1]; [eauto | discriminate].
Qed.

Lemma after_ret I (a : A) w : I w → holds_after I (mret a : Prog A) w.
Proof. done. Qed.

Lemma after_raise I e w : I w → holds_after I (raise e : Prog A) w.
Proof. done. Qed.

Lemma after_gets I (f : world → A) w : I w → holds_after I (gets f) w.
Proof. done. Qed.

Lemma after_bind I (m : Prog A) (k : A → Prog B) w :
  holds_after I m w →
  (∀ a w', m w = (Ok a, w') → I w' → holds_after I (k a) w') →
  holds_after I (m ≫= k) w.
Proof.
  unfold holds_after. intros Hm Hk. rewrite bind_eq.
  destruct (m w) as [[a|e] w'] eqn:E; cbn in *; [by eapply Hk | done].
Qed.

Lemma after_gets_bind I (f : world → A) (k : A → Prog B) w :
  holds_after I (k (f w)) w → holds_after I (gets f ≫= k) w.
Proof. done. Qed.

Lemma after_ret_bind I (a : A) (k : A → Prog B) w :
  holds_after I (k a) w → holds_after I (mret a ≫= k) w.
Proof. done. Qed.

Lemma after_try_except I (m : Prog A) classes h w :
  holds_after I m w →
  (∀ e w', I w' → holds_after I (h e) w') →
  holds_after I (try_except m classes h) w.
Proof.
  unfold holds_after, try_except. intros Hm Hh.
  destruct (m w) as [[a|e] w']; cbn in *; [done|].
  destruct (isinstance e classes); [by apply Hh | done].
Qed.

Lemma after_try_except_else I (m : Prog A) classes (h : exn → Prog B) els w :
  holds_after I m w →
  (∀ e w', I w' → holds_after I (h e) w') →
  (∀ a w', I w' → holds_after I (els a) w') →
  holds_after I (try_except_else m classes h els) w.
Proof.
  unfold holds_after, try_except_else. intros Hm Hh He.
  destruct (m w) as [[a|e] w']; cbn in *; [by apply He|].
  destruct (isinstance e classes); [by apply Hh | done].
Qed.

Lemma after_with I cm (body : Prog A) w :
  holds_after I body w → holds_after I (Utils.with_ cm body) w.
Proof.
  unfold holds_after, Utils.with_. intros Hm.
  destruct (body w) as [[a|e] w']; cbn in *; [done|].
  destruct (cm e); done.
Qed.

End Rules.

Section MoreRules.
Import Reasoning LogHandling.
Implicit Types (I : world → Prop).

Lemma after_get_bind {B} I (k : world → Prog B) w :
  holds_after I (k w) w → holds_after I (get ≫= k) w.
Proof. done. Qed.

Lemma after_get I w : I w → holds_after I (get : Prog world) w.
Proof. done. Qed.

Lemma after_modify I f w : I (f w) → holds_after I (modify f) w.
Proof. done. Qed.

Lemma after_for {A} I (l : list A) body w :
  (∀ x w', I w' → holds_after I (body x) w') → I w → holds_after I (for_ l body) w.
Proof.
  intros Hb. revert w. induction l as [|x l IH]; intros w Hw; cbn [for_].
  - by apply after_ret.
  - apply after_bind; [by apply Hb | intros _ w' _ Hw'; by apply IH].
Qed.

End MoreRules.

(** Unfolds the operations of the program one layer at a time. *)
Ltac prog_unfold :=
  unfold Os.exists_, Os.isdir, Os.makedirs, Os.chmod, Os.open_append,
    Logging.addLevelName, Logging.getLevelName, Logging._checkLevel,
    Logging.update_logger, Logging.getLogger, Logging.Logger_setLevel,
    Logging.Logger_set_handlers, Logging.Logger_addHandler, Logging.Handler_init,
    Logging.new_StreamHandler, Logging.new_FileHandler,
    Logging.new_TimedRotatingFileHandler, Logging.Handler_setLevel,
    LogHandling.deref, LogHandling.update_self, LogHandling.alloc,
    LogHandling.getattr, LogHandling.setattr, LogHandling._set_instance,
    LogHandling._add_log_function, LogHandling.add_level, LogHandling.__init__,
    LogHandling.get_log_funcs, LogHandling.set_timezone_alias,
    LogHandling.create_filter, LogHandling._prep_log_dir, LogHandling.add_handler,
    LogHandling.init_default_stream_logger, LogHandling.init_default_logger,
    LogHandling.LogManager_call, LogHandling.create_default_stream_logger,
    LogHandling.create_default_logger, LogHandling.get_instance.

(** One step through a program for a goal [holds_after I m w] with [I w]
    among the hypotheses; [leaf] is tried on calls before they are unfolded
    and closes the goals left at a [modify]. *)
Ltac after_step leaf :=
  lazymatch goal with
  | |- Reasoning.holds_after _ (mret _) _ => apply after_ret; try assumption
  | |- Reasoning.holds_after _ (raise _) _ => apply after_raise; try assumption
  | |- Reasoning.holds_after _ get _ => apply after_get; try assumption
  | |- Reasoning.holds_after _ (gets _) _ => apply after_gets; try assumption
  | |- Reasoning.holds_after _ (modify _) _ => apply after_modify; leaf
  | |- Reasoning.holds_after _ (get ≫= _) _ => apply after_get_bind
  | |- Reasoning.holds_after _ (gets _ ≫= _) _ => apply after_gets_bind
  | |- Reasoning.holds_after _ (mret _ ≫= _) _ => apply after_ret_bind
  | |- Reasoning.holds_after _ (_ ≫= _) _ => apply after_bind; [|intros ? ? ? ?]
  | |- Reasoning.holds_after _ (try_except _ _ _) _ =>
      apply after_try_except; [|intros ? ? ?]
  | |- Reasoning.holds_after _ (try_except_else _ _ _ _) _ =>
      apply after_try_except_else; [|intros ? ? ?|intros ? ? ?]
  | |- Reasoning.holds_after _ (Utils.with_ _ _) _ => apply after_with
  | |- Reasoning.holds_after _ (LogHandling.for_ _ _) _ =>
      apply after_for; [intros ? ? ?|try assumption]
  | |- Reasoning.holds_after _ (match ?x with _ => _ end) _ => destruct x
  | |- Reasoning.holds_after _ (let _ := _ in _) _ => cbv zeta
  | |- Reasoning.holds_after _ _ _ => first [leaf | progress prog_unfold]
  end.

Ltac after_auto leaf := repeat after_step leaf.

(** Splits the equations between states given as records. *)
Ltac world_inj :=
  repeat match goal with
         | H : World _ _ _ _ _ _ _ _ _ _ _ = World _ _ _ _ _ _ _ _ _ _ _ |- _ =>
             injection H; clear H; intros
         end;
  subst.

(** Reduces the field updates of states given as records. *)
Ltac unfold_setters :=
  unfold set_nameToLevel, set_levelToName, set_handlerList, set_root, set_loggerDict,
    set_next_id, set_default_instance, set_instances, set_heap, set_fs in *;
  cbn [_nameToLevel _levelToName _handlerList root loggerDict next_id
       _default_instance _instances heap fs env] in *.

(** ** The registry of instances only grows *)

Section Registry.
Import Reasoning Logging LogHandling.

Ltac registered_leaf :=
  lazymatch goal with
  | H : registered ?name ?w |- registered ?name _ =>
      unfold registered, registry in *; destruct name; cbn;
      rewrite ?lookup_insert_is_Some'; eauto
  end.

Lemma run_op_registered name o w :
  registered name w → registered name (run_op o w).
Proof.
  intros H. destruct o; cbn [run_op].
  all: match goal with
       | |- registered _ (?m ?w).2 => change (holds_after (registered name) m w)
       end.
  all: after_auto ltac:(solve [registered_leaf]).
Qed.

Lemma run_ops_registered name os w :
  registered name w → registered name (run_ops os w).
Proof.
  revert w. induction os as [|o os IH]; intros w H; [exact H|].
  apply IH, run_op_registered, H.
Qed.

End Registry.

(** ** Attributes and [add_level] *)

Section AddLevel.
Import Reasoning Logging LogHandling.

Lemma deref_ok self w lm : heap w !! self = Some lm → deref self w = (Ok lm, w).
Proof. intros H. unfold deref. rewrite bind_eq. cbn. by rewrite H. Qed.

Lemma deref_dangling self w :
  heap w !! self = None →
  deref self w = (Err (Raise ReferenceError "no such object"), w).
Proof. intros H. unfold deref. rewrite bind_eq. cbn. by rewrite H. Qed.

Lemma update_self_ok self f w lm :
  heap w !! self = Some lm →
  update_self self f w = (Ok tt, set_heap <[self := f lm]> w).
Proof. intros H. unfold update_self. by rewrite (bind_ok _ _ _ _ _ (deref_ok _ _ _ H)). Qed.

Lemma heap_set_obj self lm lm' w :
  heap w !! self = Some lm → heap (set_heap <[self := lm']> w) !! self = Some lm'.
Proof.
  intros H. cbn. apply list_lookup_insert_eq. by eapply lookup_lt_Some.
Qed.

Lemma set_obj_twice self lm lm' w :
  set_heap <[self := lm']> (set_heap <[self := lm]> w) = set_heap <[self := lm']> w.
Proof. unfold set_heap. cbn. by rewrite list_insert_insert_eq. Qed.

Lemma getattr_found self n w lm :
  heap w !! self = Some lm → hasattr lm n = true →
  ∃ v, getattr self n w = (Ok v, w).
Proof.
  intros H Ha. unfold getattr. rewrite (bind_ok _ _ _ _ _ (deref_ok _ _ _ H)).
  unfold hasattr in Ha.
  destruct (fn_attrs lm !! n) as [v|] eqn:E; [by eexists|].
  destruct (bool_decide (n ∈ data_attrs)); [by eexists|].
  destruct (bool_decide (n ∈ class_attrs ++ object_attrs)); [by eexists|].
  rewrite bool_decide_eq_false_2 in Ha by (by intros [? ?]). discriminate.
Qed.

Lemma getattr_missing self n w lm :
  heap w !! self = Some lm → hasattr lm n = false →
  getattr self n w = (Err (Raise AttributeError n), w).
Proof.
  intros H Ha. unfold getattr. rewrite (bind_ok _ _ _ _ _ (deref_ok _ _ _ H)).
  unfold hasattr in Ha.
  apply orb_false_iff in Ha as [Ha Hc]. apply orb_false_iff in Ha as [Hf Hd].
  apply bool_decide_eq_false in Hf.
  destruct (fn_attrs lm !! n) as [v|] eqn:E; [by destruct Hf|].
  by rewrite Hd, Hc.
Qed.

Lemma getattr_set self n v w lm :
  heap w !! self = Some lm → fn_attrs lm !! n = Some v →
  getattr self n w = (Ok v, w).
Proof.
  intros H Hv. unfold getattr. rewrite (bind_ok _ _ _ _ _ (deref_ok _ _ _ H)).
  by rewrite Hv.
Qed.

(** [setattr(self, fn, v); self.log_funcs[fn] = getattr(self, fn)] *)
Lemma set_fn_ok self fn v w lm :
  heap w !! self = Some lm →
  (setattr self fn v ≫= λ _,
     getattr self fn ≫= λ v', update_self self (with_log_funcs <[fn := v']>)) w
  = (Ok tt, set_heap <[self := add_fn fn v lm]> w).
Proof.
  intros H. unfold setattr.
  rewrite (bind_ok _ _ _ _ _ (update_self_ok _ _ _ _ H)).
  pose proof (heap_set_obj self lm (with_fn_attrs <[fn := v]> lm) w H) as H'.
  rewrite (bind_ok _ _ _ _ _ (getattr_set _ fn v _ _ H' (lookup_insert_eq _ _ _))).
  rewrite (update_self_ok _ _ _ _ H'). by rewrite set_obj_twice.
Qed.

Lemma _add_log_function_ok self level_number fn w lm :
  heap w !! self = Some lm →
  _add_log_function self level_number fn w
  = (Ok tt, set_heap <[self := add_fn fn (LogClosure self level_number) lm]> w).
Proof. intros H. unfold _add_log_function. cbv zeta. by apply set_fn_ok. Qed.

(** The name is taken: [add_level] raises and changes nothing. *)
Lemma add_level_taken self level_number level_name fn_name w lm :
  heap w !! self = Some lm →
  hasattr lm (default level_name fn_name) = true →
  add_level self level_number level_name fn_name w
  = (Err (Raise InputValidationException
            ("This LogManager already has a method called '"
             +:+ default level_name fn_name +:+ "'")), w).
Proof.
  intros H Ha. unfold add_level. cbv zeta. unfold try_except_else.
  destruct (getattr_found _ _ _ _ H Ha) as [v ->]. reflexivity.
Qed.

(** The name is free: the level name is registered unless it is known
    already, whatever the level number, and the log function is added. *)
Lemma add_level_free self level_number level_name fn_name w lm :
  heap w !! self = Some lm →
  hasattr lm (default level_name fn_name) = false →
  add_level self level_number level_name fn_name w
  = (Ok tt,
     set_heap <[self := add_fn (default level_name fn_name)
                               (LogClosure self level_number) lm]>
       (register_level level_number level_name w)).
Proof.
  intros H Ha. unfold add_level. cbv zeta. unfold try_except_else.
  rewrite (getattr_missing _ _ _ _ H Ha).
  change (isinstance _ [AttributeError]) with true. cbv iota.
  rewrite bind_eq. change (get w) with (Ok w, w). cbv beta iota.
  unfold register_level.
  destruct (in_nameToLevel (PStr level_name) w);
    (erewrite bind_ok; [|reflexivity]); by apply _add_log_function_ok.
Qed.

Lemma add_level_dangling self level_number level_name fn_name w :
  heap w !! self = None →
  add_level self level_number level_name fn_name w
  = (Err (Raise ReferenceError "no such object"), w).
Proof.
  intros H. unfold add_level. cbv zeta. unfold try_except_else, getattr.
  by rewrite (bind_err _ _ _ _ _ (deref_dangling _ _ H)).
Qed.

End AddLevel.

(** ** The constructor *)

Section Constructor.
Import Reasoning Logging LogHandling.

Lemma with_loggers_same w : with_loggers (root w) (loggerDict w) w = w.
Proof. by destruct w. Qed.

Lemma with_loggers_twice rt d rt' d' w :
  with_loggers rt d (with_loggers rt' d' w) = with_loggers rt d w.
Proof. reflexivity. Qed.

Lemma update_logger_loggers r f w :
  ∃ rt d, update_logger r f w = (Ok tt, with_loggers rt d w).
Proof.
  destruct r as [|n]; unfold update_logger.
  - exists (f (root w)), (loggerDict w). by destruct w.
  - exists (root w), (<[n := f (logger_at w (NamedLogger n))]> (loggerDict w)).
    by destruct w.
Qed.

Lemma update_logger_loggers_any r f w :
  ∃ rt d, update_logger r f w = (Ok tt, with_loggers rt d w).
Proof. apply update_logger_loggers. Qed.

Lemma Logger_setLevel_loggers r z w :
  ∃ rt d, Logger_setLevel r (PInt z) w = (Ok tt, with_loggers rt d w).
Proof.
  change (Logger_setLevel r (PInt z) w)
    with (update_logger r (λ lg, MkLogger z (lg_handlers lg)) w).
  apply update_logger_loggers.
Qed.

Lemma Logger_set_handlers_loggers r hs w :
  ∃ rt d, Logger_set_handlers r hs w = (Ok tt, with_loggers rt d w).
Proof. apply update_logger_loggers. Qed.

Lemma getLogger_loggers name w :
  ∃ r rt d, getLogger name w = (Ok r, with_loggers rt d w).
Proof.
  unfold getLogger. destruct name as [n|].
  - destruct (bool_decide (n = EmptyString)).
    + exists RootLogger, (root w), (loggerDict w). by rewrite with_loggers_same.
    + rewrite bind_eq. change (get w) with (Ok w, w). cbv beta iota.
      destruct (loggerDict w !! n).
      * exists (NamedLogger n), (root w), (loggerDict w). by rewrite with_loggers_same.
      * exists (NamedLogger n), (root w), (<[n := new_logger]> (loggerDict w)).
        by destruct w.
  - exists RootLogger, (root w), (loggerDict w). by rewrite with_loggers_same.
Qed.

Lemma alloc_ok lm w :
  alloc lm w = (Ok (length (heap w)), set_heap (λ h, h ++ [lm]) w).
Proof. reflexivity. Qed.

Lemma heap_alloc lm w :
  heap (set_heap (λ h, h ++ [lm]) w) !! length (heap w) = Some lm.
Proof. cbn. by rewrite lookup_app_r, Nat.sub_diag. Qed.

Lemma set_obj_same self lm w :
  heap w !! self = Some lm → set_heap <[self := lm]> w = w.
Proof. intros H. destruct w. unfold set_heap. cbn in *. by rewrite list_insert_id. Qed.

(** The loop of log_handling.py:49-51. *)
Lemma bound_methods_ok lg self names w lm :
  heap w !! self = Some lm →
  for_ names
    (λ fn, setattr self fn (BoundLoggerMethod lg fn) ≫= λ _,
           getattr self fn ≫= λ v, update_self self (with_log_funcs <[fn := v]>)) w
  = (Ok tt,
     set_heap <[self := foldl (λ lm fn, add_fn fn (BoundLoggerMethod lg fn) lm)
                              lm names]> w).
Proof.
  revert w lm. induction names as [|fn names IH]; intros w lm H.
  - cbn [for_ foldl]. by rewrite set_obj_same.
  - cbn [for_ foldl]. rewrite bind_eq, (set_fn_ok _ _ _ _ _ H). cbv beta iota.
    rewrite (IH _ _ (heap_set_obj _ _ _ _ H)). by rewrite set_obj_twice.
Qed.

(** What the constructor leaves behind: a new object at the next free
    reference, entered in the registry under its name, and the level name
    VERBOSE known to [logging]. *)
Lemma __init___ok name entry_fmt date_fmt replace_handlers w :
  ∃ w' lm,
    __init__ name entry_fmt date_fmt replace_handlers w = (Ok (length (heap w)), w')
    ∧ heap w' = heap w ++ [lm]
    ∧ lm_name lm = name
    ∧ registry w' name = Some (length (heap w))
    ∧ (∀ n, n ≠ name → registry w' n = registry w n)
    ∧ is_Some (_nameToLevel w' !! "VERBOSE")
    ∧ next_id w' = next_id w.
Proof.
  unfold __init__. cbv zeta.
  rewrite bind_eq. change (get w) with (Ok w, w). cbv beta iota.
  assert (∃ rt d, (if bool_decide (name ≠ None) && (length (_handlerList w) <? 1)%nat
                   then Logger_setLevel RootLogger (PInt NOTSET) else mret tt) w
                  = (Ok tt, with_loggers rt d w)) as (rt1 & d1 & E1).
  { destruct (_ && _); [apply Logger_setLevel_loggers|].
    exists (root w), (loggerDict w). by rewrite with_loggers_same. }
  rewrite (bind_ok _ _ _ _ _ E1).
  destruct (getLogger_loggers name (with_loggers rt1 d1 w)) as (lg & rt2 & d2 & E2).
  rewrite with_loggers_twice in E2. rewrite (bind_ok _ _ _ _ _ E2).
  assert (∃ rt d, (if replace_handlers then Logger_set_handlers lg [] else mret tt)
                    (with_loggers rt2 d2 w)
                  = (Ok tt, with_loggers rt d w)) as (rt3 & d3 & E3).
  { destruct replace_handlers.
    - destruct (Logger_set_handlers_loggers lg [] (with_loggers rt2 d2 w))
        as (rt & d & E). rewrite with_loggers_twice in E. eauto.
    - by exists rt2, d2. }
  rewrite (bind_ok _ _ _ _ _ E3).
  destruct (Logger_setLevel_loggers lg NOTSET (with_loggers rt3 d3 w))
    as (rt4 & d4 & E4).
  rewrite with_loggers_twice in E4. rewrite (bind_ok _ _ _ _ _ E4).
  set (w4 := with_loggers rt4 d4 w).
  rewrite (bind_ok _ _ _ _ _ (alloc_ok _ w4)).
  change (length (heap w4)) with (length (heap w)).
  set (self := length (heap w)).
  pose proof (heap_alloc (MkLogManager name
    (<["Eastern Standard Time" := "EST"]> (<["Eastern Daylight Time" := "EDT"]> ∅))
    lg (default "%(message)s" entry_fmt) (default "%Y-%m-%d %H:%M:%S %Z" date_fmt)
    ∅ INFO ∅) w4) as H0.
  change (length (heap w4)) with self in H0.
  rewrite (bind_ok _ _ _ _ _ (bound_methods_ok lg self _ _ _ H0)).
  match type of H0 with _ !! _ = Some ?x => set (lm0 := x) in * end.
  set (lm7 := foldl _ lm0 _).
  pose proof (heap_set_obj self lm0 lm7 _ H0) as H7.
  assert (hasattr lm7 "verbose" = false) as Hv by reflexivity.
  rewrite bind_eq. unfold Utils.with_.
  rewrite (add_level_free _ 19 "VERBOSE" (Some "verbose") _ _ H7 Hv).
  cbv beta iota.
  match goal with
  | |- context [set_heap <[self := ?x]> (register_level _ _ ?y)] =>
      set (lm8 := x); set (w8 := set_heap <[self := lm8]> (register_level 19 "VERBOSE" y))
  end.
  assert (heap w8 = heap w ++ [lm8]) as Hheap.
  { unfold w8, register_level. destruct (in_nameToLevel _ _); cbn.
    all: rewrite list_insert_insert_eq, insert_app_r_alt by reflexivity.
    all: by rewrite Nat.sub_diag. }
  assert (is_Some (_nameToLevel w8 !! "VERBOSE")) as Hverbose.
  { unfold w8, register_level. destruct (in_nameToLevel _ _) eqn:E; cbn.
    - by apply bool_decide_eq_true in E.
    - rewrite lookup_insert_eq. by eexists. }
  assert (_instances w8 = _instances w ∧ _default_instance w8 = _default_instance w
          ∧ next_id w8 = next_id w) as (Hi & Hd & Hn).
  { unfold w8, register_level. by destruct (in_nameToLevel _ _). }
  clearbody w8.
  exists (_set_instance name self w8).2, lm8. split; [by destruct name|].
  split; [by destruct name|]. split; [reflexivity|].
  split; [destruct name; cbn; [apply lookup_insert_eq | reflexivity]|].
  split.
  { intros n Hne. destruct name as [m|], n as [n|]; cbn; try done.
    - rewrite lookup_insert_ne by congruence. by rewrite Hi.
    - by rewrite Hi. }
  split; by destruct name.
Qed.

End Constructor.

(** ** [add_handler] *)

Section AddHandler.
Import Reasoning Logging LogHandling.

Ltac frame_leaf :=
  lazymatch goal with
  | H : fs_frame ?w0 ?w |- fs_frame ?w0 _ =>
      unfold fs_frame in *; destruct w0, w; unfold_setters; world_inj; reflexivity
  | H : creation_frame ?w0 ?w |- creation_frame ?w0 _ =>
      unfold creation_frame in *; destruct w0, w; unfold_setters; world_inj;
      reflexivity
  end.

Lemma fs_frame_refl w : fs_frame w w.
Proof. by destruct w. Qed.

Lemma creation_frame_refl w : creation_frame w w.
Proof. by destruct w. Qed.

Lemma fs_frame_creation w w' : fs_frame w w' → creation_frame w w'.
Proof. unfold fs_frame, creation_frame. intros ->. by destruct w. Qed.

Lemma creation_frame_trans w w1 w2 :
  creation_frame w w1 → creation_frame w1 w2 → creation_frame w w2.
Proof.
  unfold creation_frame. intros H1 H2. destruct w, w1, w2. unfold_setters.
  world_inj. reflexivity.
Qed.

Lemma _prep_log_dir_frame p m w : fs_frame w (_prep_log_dir p m w).2.
Proof.
  pose proof (fs_frame_refl w) as H. revert H. generalize w at 1 3 as w0. intros w0 H.
  change (holds_after (fs_frame w0) (_prep_log_dir p m) w).
  after_auto ltac:(solve [frame_leaf]).
Qed.

Lemma open_append_frame p w : fs_frame w (Os.open_append p w).2.
Proof.
  pose proof (fs_frame_refl w) as H. revert H. generalize w at 1 3 as w0. intros w0 H.
  change (holds_after (fs_frame w0) (Os.open_append p) w).
  after_auto ltac:(solve [frame_leaf]).
Qed.

Lemma Handler_init_ok kind w :
  Handler_init kind w
  = (Ok (MkHandler (next_id w) kind NOTSET None []),
     set_handlerList (λ l, l ++ [next_id w]) (set_next_id S w)).
Proof. reflexivity. Qed.

(** Making the handler: when it succeeds the handler is a new one of the
    kind for the destination, and nothing but the file system, the next
    identity and the list of live handlers has changed. *)
Lemma make_handler_ok (dest : destination) (rotate : bool) w h w1 :
  match dest with
  | ToStream s => new_StreamHandler s
  | ToPath p =>
      if rotate then
        _prep_log_dir p default_dir_permissions;;
        new_TimedRotatingFileHandler p "midnight" 7
      else
        _prep_log_dir p default_dir_permissions;;
        new_FileHandler p
  end w = (Ok h, w1) →
  h = MkHandler (next_id w) (handler_kind_for dest rotate) NOTSET None []
  ∧ next_id w1 = S (next_id w)
  ∧ creation_frame w w1.
Proof.
  destruct dest as [s|p]; [|destruct rotate].
  - unfold new_StreamHandler. rewrite Handler_init_ok. intros [= <- <-].
    split; [done|]. split; [done|]. by destruct w.
  - intros (? & wa & Ea & H)%bind_ok_inv.
    unfold new_TimedRotatingFileHandler in H.
    apply bind_ok_inv in H as (? & wb & Eb & H). rewrite Handler_init_ok in H.
    injection H as <- <-.
    pose proof (_prep_log_dir_frame p default_dir_permissions w) as Fa.
    pose proof (open_append_frame p wa) as Fb. rewrite Ea in Fa. rewrite Eb in Fb.
    cbn in Fa, Fb. unfold fs_frame, creation_frame in *.
    destruct w, wa, wb. unfold_setters. world_inj. done.
  - intros (? & wa & Ea & H)%bind_ok_inv.
    unfold new_FileHandler in H.
    apply bind_ok_inv in H as (? & wb & Eb & H). rewrite Handler_init_ok in H.
    injection H as <- <-.
    pose proof (_prep_log_dir_frame p default_dir_permissions w) as Fa.
    pose proof (open_append_frame p wa) as Fb. rewrite Ea in Fa. rewrite Eb in Fb.
    cbn in Fa, Fb. unfold fs_frame, creation_frame in *.
    destruct w, wa, wb. unfold_setters. world_inj. done.
Qed.

Lemma creation_frame_fields w w1 :
  creation_frame w w1 →
  _nameToLevel w1 = _nameToLevel w ∧ _levelToName w1 = _levelToName w
  ∧ root w1 = root w ∧ loggerDict w1 = loggerDict w
  ∧ _default_instance w1 = _default_instance w ∧ _instances w1 = _instances w
  ∧ heap w1 = heap w ∧ env w1 = env w.
Proof. unfold creation_frame. intros ->. by destruct w. Qed.

Lemma Handler_setLevel_ok h level w h' w' :
  Handler_setLevel h level w = (Ok h', w') →
  ∃ lv, level_value w level = Some lv ∧ w' = w
        ∧ h' = MkHandler (h_id h) (h_kind h) lv (h_formatter h) (h_filters h).
Proof.
  unfold Handler_setLevel, _checkLevel. destruct level as [z|s]; cbn [level_value].
  - intros [= <- <-]. by exists z.
  - rewrite !bind_eq. change (get w) with (Ok w, w). cbv beta iota.
    destruct (_nameToLevel w !! s) as [z|]; [|discriminate].
    intros [= <- <-]. by exists z.
Qed.

Lemma Handler_setLevel_readonly h level w : (Handler_setLevel h level w).2 = w.
Proof.
  unfold Handler_setLevel, _checkLevel. destruct level as [z|s]; [reflexivity|].
  rewrite !bind_eq. change (get w) with (Ok w, w). cbv beta iota.
  by destruct (_nameToLevel w !! s).
Qed.

(** A call of [add_handler] that returns has made one handler, the one
    [handler_for] describes, and handed it to [Logger.addHandler]; before
    that only the file system, the next identity and the list of live
    handlers have changed. *)
Lemma add_handler_returns self lm dest level fmt date_fmt filter rotate formatter w w' :
  heap w !! self = Some lm →
  add_handler self dest level fmt date_fmt filter rotate formatter w = (Ok tt, w') →
  ∃ lv w1,
    level_value w level = Some lv
    ∧ creation_frame w w1 ∧ next_id w1 = S (next_id w)
    ∧ w' = (Logger_addHandler (lm_logger lm)
              (handler_for lm w dest lv fmt date_fmt filter rotate formatter) w1).2.
Proof.
  intros Hself. unfold add_handler. rewrite (bind_ok _ _ _ _ _ (deref_ok _ _ _ Hself)).
  cbv zeta. intros (h & w1 & Ec & H)%bind_ok_inv.
  apply make_handler_ok in Ec as (-> & Hn & Fr).
  destruct (creation_frame_fields _ _ Fr) as (HnL & _ & _ & _ & _ & _ & _ & Henv).
  apply bind_ok_inv in H as (tz & w2 & Et & H). injection Et as <- <-.
  apply bind_ok_inv in H as (h' & w2 & Es & H).
  apply Handler_setLevel_ok in Es as (lv & Hlv & -> & ->).
  exists lv, w1. split.
  { destruct level; cbn [level_value] in *; [done | by rewrite <- HnL]. }
  split; [done|]. split; [done|].
  apply (f_equal snd) in H. cbn [snd] in H. subst w'.
  unfold handler_for, handler_date_fmt. rewrite Henv.
  by destruct filter.
Qed.

(** A call of [add_handler] that raises has attached nothing: only the
    file system, the next identity and the list of live handlers may have
    changed. *)
Lemma add_handler_raises self dest level fmt date_fmt filter rotate formatter w e w' :
  add_handler self dest level fmt date_fmt filter rotate formatter w = (Err e, w') →
  creation_frame w w'.
Proof.
  unfold add_handler. rewrite bind_eq.
  destruct (heap w !! self) as [lm|] eqn:Hself.
  2: { rewrite (deref_dangling _ _ Hself). intros [= _ <-]. apply creation_frame_refl. }
  rewrite (deref_ok _ _ _ Hself). cbv zeta beta iota. rewrite bind_eq.
  match goal with |- context [match ?c w with _ => _ end] => set (make := c) end.
  assert (creation_frame w (make w).2) as Fr.
  { pose proof (creation_frame_refl w) as H. revert H.
    generalize w at 1 3 as w0. intros w0 H.
    change (holds_after (creation_frame w0) make w). unfold make.
    after_auto ltac:(solve [frame_leaf]). }
  destruct (make w) as [[h|e'] w1]; cbn [snd] in Fr.
  2: { by intros [= _ <-]. }
  rewrite bind_eq. change (gets _ w1) with (Ok (tzname (env w1)), w1). cbv beta iota.
  rewrite bind_eq. pose proof (Handler_setLevel_readonly h level w1) as Hro.
  destruct (Handler_setLevel h level w1) as [[h'|e'] w2]; cbn [snd] in Hro; subst w2.
  - unfold Logger_addHandler. intros H.
    match type of H with update_logger ?r ?f ?w = _ =>
      destruct (update_logger_loggers_any r f w) as (rt & d & E) end.
    rewrite E in H. discriminate.
  - by intros [= _ <-].
Qed.

End AddHandler.

(** ** Handlers are registered once *)

Section Handlers.
Import Reasoning Logging LogHandling.

Lemma logger_at_update r f w r' :
  logger_at (update_logger r f w).2 r'
  = if decide (r' = r) then f (logger_at w r) else logger_at w r'.
Proof.
  destruct r as [|n], r' as [|n'].
  - by rewrite decide_True.
  - by rewrite decide_False.
  - by rewrite decide_False.
  - change (update_logger (NamedLogger n) f w).2
      with (set_loggerDict <[n := f (logger_at w (NamedLogger n))]> w).
    cbn [logger_at loggerDict set_loggerDict].
    destruct (decide (n' = n)) as [->|Hne].
    + by rewrite decide_True, lookup_insert_eq.
    + rewrite decide_False by congruence. by rewrite lookup_insert_ne.
Qed.

Lemma update_logger_same_objects r f w : same_objects w (update_logger r f w).2.
Proof. by destruct r. Qed.

Lemma update_logger_next_id r f w : next_id (update_logger r f w).2 = next_id w.
Proof. by destruct r. Qed.


Lemma ids_allocated_logger_at w :
  ids_allocated w ↔ ∀ r, logger_ids_below (next_id w) (logger_at w r).
Proof.
  split.
  - intros [Hr Hd] [|n]; cbn; [done|].
    destruct (loggerDict w !! n) as [lg|] eqn:E; cbn; [by eapply Hd|].
    apply Forall_nil_2.
  - intros H. split; [apply (H RootLogger)|].
    intros n lg E. specialize (H (NamedLogger n)). cbn in H. by rewrite E in H.
Qed.

Lemma handler_in_spec h hs : handler_in h hs = true ↔ h_id h ∈ h_id <$> hs.
Proof.
  unfold handler_in. rewrite existsb_exists, list_elem_of_fmap.
  split.
  - intros (h' & Hin & E). apply bool_decide_eq_true in E.
    exists h'. split; [done|]. by apply list_elem_of_In.
  - intros (h' & E & Hin). exists h'. split; [by apply list_elem_of_In|].
    by apply bool_decide_eq_true.
Qed.


(** A handler that was made after every registered one is appended. *)
Lemma attach_fresh n h lg :
  logger_ids_below n lg → (n ≤ h_id h)%nat →
  attach h lg = MkLogger (lg_level lg) (lg_handlers lg ++ [h]).
Proof.
  unfold logger_ids_below, attach. intros H Hn.
  destruct (handler_in h (lg_handlers lg)) eqn:E; [|done].
  apply handler_in_spec, list_elem_of_fmap in E as (h' & E & Hin).
  rewrite Forall_forall in H. specialize (H h' Hin). lia.
Qed.

Lemma attach_ids_below n h lg :
  logger_ids_below n lg → (h_id h < n)%nat → logger_ids_below n (attach h lg).
Proof.
  unfold logger_ids_below, attach. intros H Hn.
  destruct (handler_in h (lg_handlers lg)); [done|]. cbn.
  apply Forall_app. split; [done|]. by apply Forall_singleton.
Qed.

Lemma ids_below_mono n m lg :
  (n ≤ m)%nat → logger_ids_below n lg → logger_ids_below m lg.
Proof.
  unfold logger_ids_below. intros Hnm H. eapply Forall_impl; [exact H|].
  cbn. intros h ?. lia.
Qed.





Lemma logger_at_frame w w1 r :
  root w1 = root w → loggerDict w1 = loggerDict w → logger_at w1 r = logger_at w r.
Proof. intros Hr Hd. destruct r; cbn; by rewrite ?Hr, ?Hd. Qed.

Lemma add_handler_dangling self dest level fmt date_fmt filter rotate formatter w :
  heap w !! self = None →
  add_handler self dest level fmt date_fmt filter rotate formatter w
  = (Err (Raise ReferenceError "no such object"), w).
Proof.
  intros H. unfold add_handler. by rewrite (bind_err _ _ _ _ _ (deref_dangling _ _ H)).
Qed.


(** What a call of [add_handler] that returns has done, in a state where
    every registered handler has been created: the handler [handler_for]
    describes is appended to the handlers of the manager's logger; the
    other loggers, the objects and the registries are as before. *)
Lemma add_handler_appends self lm dest level fmt date_fmt filter rotate formatter w w' :
  heap w !! self = Some lm → ids_allocated w →
  add_handler self dest level fmt date_fmt filter rotate formatter w = (Ok tt, w') →
  ∃ lv,
    level_value w level = Some lv
    ∧ (∀ r, logger_at w' r =
            if decide (r = lm_logger lm)
            then MkLogger (lg_level (logger_at w r))
                   (lg_handlers (logger_at w r)
                    ++ [handler_for lm w dest lv fmt date_fmt filter rotate formatter])
            else logger_at w r)
    ∧ same_objects w w'
    ∧ next_id w' = S (next_id w).
Proof.
  intros Hself Hids E.
  destruct (add_handler_returns _ _ _ _ _ _ _ _ _ _ _ Hself E)
    as (lv & w1 & Hlv & Fr & Hn & ->).
  destruct (creation_frame_fields _ _ Fr) as (? & ? & Hr & Hd & ? & ? & ? & ?).
  exists lv. split; [done|]. unfold Logger_addHandler. split; [|split].
  - intros r. rewrite logger_at_update. fold (attach
      (handler_for lm w dest lv fmt date_fmt filter rotate formatter)
      (logger_at w1 (lm_logger lm))).
    rewrite !(logger_at_frame w w1) by done.
    case_decide as Er; [subst r|done].
    apply (attach_fresh (next_id w)); [|done].
    by apply ids_allocated_logger_at.
  - destruct (update_logger_same_objects (lm_logger lm)
      (attach (handler_for lm w dest lv fmt date_fmt filter rotate formatter)) w1)
      as (? & ? & ? & ? & ? & ?).
    unfold same_objects, attach in *. repeat split; congruence.
  - by rewrite update_logger_next_id.
Qed.







Lemma initial_world_handlers e :
  no_double_registration (initial_world e) ∧ ids_allocated (initial_world e).
Proof.
  split; (split; [constructor | apply map_Forall_empty]).
Qed.

End Handlers.

(** ** The default stream logger *)

Section DefaultStreamLogger.
Import Reasoning Logging LogHandling.

Lemma same_objects_refl w : same_objects w w.
Proof. by repeat split. Qed.

Lemma same_objects_trans w w1 w2 :
  same_objects w w1 → same_objects w1 w2 → same_objects w w2.
Proof. unfold same_objects. intros ? ?. intuition congruence. Qed.

Lemma add_handler_same_objects self dest level fmt date_fmt filter rotate formatter w :
  same_objects w (add_handler self dest level fmt date_fmt filter rotate formatter w).2.
Proof.
  pose proof (same_objects_refl w) as H. revert H.
  generalize w at 1 3 as w0. intros w0 H.
  change (holds_after (same_objects w0)
            (add_handler self dest level fmt date_fmt filter rotate formatter) w).
  after_auto ltac:(assumption).
Qed.

Lemma init_default_stream_logger_same_objects self debug verbose w :
  same_objects w (init_default_stream_logger self debug verbose w).2.
Proof.
  pose proof (same_objects_refl w) as H. revert H.
  generalize w at 1 3 as w0. intros w0 H.
  change (holds_after (same_objects w0) (init_default_stream_logger self debug verbose) w).
  after_auto ltac:(assumption).
Qed.

Lemma create_filter_ok filter_fn w :
  create_filter filter_fn w
  = (Ok (CustomLogFilter (next_id w) filter_fn), set_next_id S w).
Proof. reflexivity. Qed.

(** On a stream, with a level that is a number or a registered name,
    [add_handler] returns. *)
Lemma add_handler_stream_ok self lm s level lv fmt date_fmt filter rotate formatter w :
  heap w !! self = Some lm → level_value w level = Some lv →
  ∃ w', add_handler self (ToStream s) level fmt date_fmt filter rotate formatter w
        = (Ok tt, w').
Proof.
  intros Hself Hlv. unfold add_handler.
  rewrite (bind_ok _ _ _ _ _ (deref_ok _ _ _ Hself)). cbv zeta.
  unfold new_StreamHandler. rewrite (bind_ok _ _ _ _ _ (Handler_init_ok _ w)).
  rewrite bind_eq.
  match goal with |- context [gets ?f ?w1] => change (gets f w1) with (Ok (f w1), w1) end.
  cbv beta iota.
  match goal with |- context [(Handler_setLevel ?h level ≫= _) ?w1] =>
    assert (Handler_setLevel h level w1
            = (Ok (MkHandler (h_id h) (h_kind h) lv (h_formatter h) (h_filters h)), w1))
      as Es
  end.
  { unfold Handler_setLevel, _checkLevel. destruct level as [z|n]; cbn in Hlv.
    - by injection Hlv as ->.
    - rewrite !bind_eq.
      match goal with |- context [get ?w1] => change (get w1) with (Ok w1, w1) end.
      cbv beta iota. unfold_setters. by rewrite Hlv. }
  rewrite (bind_ok _ _ _ _ _ Es). unfold Logger_addHandler.
  match goal with |- ∃ w', update_logger ?r ?f ?w1 = _ =>
    destruct (update_logger_loggers_any r f w1) as (rt & d & E) end.
  eauto.
Qed.

(** [init_default_stream_logger] returns when the level name VERBOSE is
    registered or not asked for. *)
Lemma init_default_stream_logger_ok self lm debug verbose w :
  heap w !! self = Some lm →
  (verbose = true → is_Some (_nameToLevel w !! "VERBOSE")) →
  ∃ w', init_default_stream_logger self debug verbose w = (Ok tt, w').
Proof.
  intros Hself Hv. unfold init_default_stream_logger.
  rewrite (bind_ok _ _ _ _ _ (create_filter_ok _ w)).
  rewrite (bind_ok _ _ _ _ _ (create_filter_ok _ _)).
  cbv zeta. set (w2 := set_next_id S (set_next_id S w)).
  assert (∃ lvl lv, (if verbose then getLevelName (PStr "VERBOSE")
                     else mret (if debug then PInt DEBUG else PInt INFO)) w2
                    = (Ok lvl, w2) ∧ level_value w2 lvl = Some lv) as (lvl & lv & El & Hlv).
  { destruct verbose.
    - destruct (Hv eq_refl) as [z Hz]. exists (PInt z), z. split; [|done].
      unfold getLevelName. rewrite bind_eq. change (get w2) with (Ok w2, w2).
      cbv beta iota. change (_nameToLevel w2) with (_nameToLevel w). by rewrite Hz.
    - destruct debug; by eexists _, _. }
  rewrite (bind_ok _ _ _ _ _ El).
  rewrite (bind_ok _ _ _ _ _ (gets_eq _ w2)). cbv beta zeta.
  destruct (add_handler_stream_ok self lm Stdout lvl lv None None
              (Some (CustomLogFilter (next_id (set_next_id S w)) (λ lvl, (lvl <? WARNING)%Z)))
              true None w2 Hself Hlv) as (w3 & E3).
  rewrite (bind_ok _ _ _ _ _ E3).
  pose proof (add_handler_same_objects self (ToStream Stdout) lvl None None
              (Some (CustomLogFilter (next_id (set_next_id S w)) (λ lvl, (lvl <? WARNING)%Z)))
              true None w2) as Hso.
  rewrite E3 in Hso. destruct Hso as (_ & _ & _ & _ & Hh & _). cbn [snd] in Hh.
  eapply add_handler_stream_ok; [by rewrite Hh | reflexivity].
Qed.

End DefaultStreamLogger.

(** ** [get_instance] *)

Section GetInstance.
Import Reasoning Logging LogHandling.

Lemma LogManager_call_bound a name w :
  bound_name a = Some name →
  LogManager_call a w
  = __init__ name (arg_entry_fmt a) (arg_date_fmt a) (arg_replace_handlers a) w.
Proof.
  unfold bound_name, LogManager_call.
  destruct (pos_name a), (kw_name a); intros [= <-]; reflexivity.
Qed.

(** [create_default_stream_logger] returns the new instance, which the
    registry then holds under its name. *)
Lemma create_default_stream_logger_ok debug verbose a name w :
  bound_name a = Some name →
  ∃ w', create_default_stream_logger debug verbose a w = (Ok (length (heap w)), w')
        ∧ registry w' name = Some (length (heap w)).
Proof.
  intros Ha. unfold create_default_stream_logger.
  rewrite bind_eq, (LogManager_call_bound _ _ _ Ha).
  destruct (__init___ok name (arg_entry_fmt a) (arg_date_fmt a)
              (arg_replace_handlers a) w)
    as (w1 & lm & -> & Hheap & _ & Hreg & _ & Hverb & _).
  cbv beta iota.
  assert (heap w1 !! length (heap w) = Some lm) as Hself.
  { rewrite Hheap. by rewrite lookup_app_r, Nat.sub_diag. }
  destruct (init_default_stream_logger_ok (length (heap w)) lm debug verbose w1 Hself
              (λ _, Hverb)) as (w2 & E2).
  rewrite (bind_ok _ _ _ _ _ E2).
  exists w2. split; [reflexivity|].
  pose proof (init_default_stream_logger_same_objects (length (heap w)) debug verbose w1)
    as Hso.
  rewrite E2 in Hso. destruct Hso as (_ & _ & Hd & Hi & _). cbn [snd] in Hd, Hi.
  destruct name; cbn in *; by rewrite ?Hd, ?Hi.
Qed.

(** An instance that is registered under the name is returned as it is. *)
Lemma get_instance_registered name x w r :
  registry w name = Some r → get_instance name x w = (Ok (Some r), w).
Proof.
  intros H. unfold get_instance. destruct name as [n|]; cbn [registry] in H.
  - rewrite bind_eq. change (get w) with (Ok w, w). cbv beta iota. rewrite H.
    erewrite bind_ok by reflexivity.
    rewrite bind_eq. change (get w) with (Ok w, w). cbv beta iota. by rewrite H.
  - rewrite bind_eq. change (get w) with (Ok w, w). cbv beta iota. rewrite H.
    erewrite bind_ok by reflexivity.
    change (gets _default_instance w) with (Ok (_default_instance w), w).
    by rewrite H.
Qed.

(** Without a name passed on by position, [get_instance] returns an
    instance that is registered under the name afterwards. *)
Lemma get_instance_returns name x w :
  x_pos_name x = None →
  ∃ r w1, get_instance name x w = (Ok (Some r), w1) ∧ registry w1 name = Some r.
Proof.
  intros Hx. destruct (registry w name) as [r|] eqn:Hreg.
  { exists r, w. split; [by apply get_instance_registered | done]. }
  unfold get_instance. destruct name as [n|]; cbn [registry] in Hreg.
  - rewrite bind_eq. change (get w) with (Ok w, w). cbv beta iota. rewrite Hreg, Hx.
    destruct (create_default_stream_logger_ok (x_debug x) (x_verbose x)
                (CtorArgs None (Some (Some n)) (x_entry_fmt x) (x_date_fmt x)
                          (x_replace_handlers x)) (Some n) w eq_refl)
      as (w1 & E & Hr).
    rewrite bind_eq, bind_eq, E. cbv beta iota.
    rewrite ret_eq.
    rewrite bind_eq. change (get w1) with (Ok w1, w1). cbv beta iota.
    cbn [registry] in Hr. rewrite Hr. by exists (length (heap w)), w1.
  - rewrite bind_eq. change (get w) with (Ok w, w). cbv beta iota. rewrite Hreg, Hx.
    destruct (create_default_stream_logger_ok (x_debug x) (x_verbose x)
                (CtorArgs None None (x_entry_fmt x) (x_date_fmt x)
                          (x_replace_handlers x)) None w eq_refl)
      as (w1 & E & Hr).
    rewrite bind_eq, bind_eq, E. cbv beta iota.
    rewrite ret_eq.
    change (gets _default_instance w1) with (Ok (_default_instance w1), w1).
    cbn [registry] in Hr. rewrite Hr. by exists (length (heap w)), w1.
Qed.

(** C2. [get_instance] is idempotent per name.  When the registry holds an
    instance for the name (the default slot for [None]), [get_instance]
    returns that instance and leaves the whole state as it was: nothing is
    constructed or configured.  A call [get_instance(name)], with or without
    [debug], [verbose] and keyword arguments for the constructor, returns an
    instance, and every later call with that name returns the same one. *)
Theorem get_instance_idempotent name x w :
  (∀ r, registry w name = Some r → get_instance name x w = (Ok (Some r), w))
  ∧ (x_pos_name x = None →
     ∃ r w1, get_instance name x w = (Ok (Some r), w1)
             ∧ ∀ x', get_instance name x' w1 = (Ok (Some r), w1)).
Proof.
  split.
  - intros r. apply get_instance_registered.
  - intros Hx. destruct (get_instance_returns name x w Hx) as (r & w1 & E & Hr).
    exists r, w1. split; [exact E|]. intros x'. by apply get_instance_registered.
Qed.

Lemma get_instance_idempotent_witness :
  let w1 := (get_instance (Some "app") no_extra (initial_world env0)).2 in
  registry w1 (Some "app") = Some 0%nat
  ∧ get_instance (Some "app") no_extra w1 = (Ok (Some 0%nat), w1)
  ∧ ∃ r w2, get_instance None no_extra w1 = (Ok (Some r), w2)
            ∧ ∀ x', get_instance None x' w2 = (Ok (Some r), w2).
Proof.
  intros w1.
  assert (registry w1 (Some "app") = Some 0%nat) as H by (vm_compute; reflexivity).
  split; [exact H|]. split.
  - exact (proj1 (get_instance_idempotent (Some "app") no_extra w1) 0%nat H).
  - exact (proj2 (get_instance_idempotent None no_extra w1) eq_refl).
Defined.

End GetInstance.

(** ** The claims about handlers *)

Section HandlerClaims.
Import Reasoning Logging LogHandling.

(** C4, as stated, fails: a call of [add_handler] can raise before any
    handler is attached.  Here the directory of the path exists and is a
    file, [_prep_log_dir] raises [InputValidationException], and the
    handlers of the logger are what they were: none. *)
Lemma add_handler_can_raise :
  let w := world_with_file env0 in
  let r := add_handler 0 (ToPath "/etc/hostname/app.log") (PInt INFO) None None None
                       true None w in
  (lm_logger <$> heap w !! 0%nat) = Some RootLogger
  ∧ r.1 = Err (Raise InputValidationException
                 "Invalid log file dir - not a directory: /etc/hostname")
  ∧ lg_handlers (logger_at w RootLogger) = []
  ∧ lg_handlers (logger_at r.2 RootLogger) = [].
Proof. vm_compute. repeat split. Qed.

(** C4, amended.  In a state where every registered handler is an object
    that has been created, a call of [add_handler] on an instance either
    returns or raises.  When it returns, exactly one new handler has been
    appended to the handlers of the instance's logger and every other
    logger is as before; the handler is a stream handler on the destination
    when the destination has a [write] attribute, a timed rotating file
    handler (midnight, 7 backups) when [rotate] is true, a plain file
    handler otherwise; its level is the given level (the number itself, or
    the number registered for a level name); its formatter is made by the
    given formatter class (default [logging.Formatter]) from the given or
    default entry format and the given or default date format, in which
    [%Z] is replaced by the instance's alias for the local time zone when
    there is one.  The handlers attached before are untouched.  When the
    call raises, no handler has been attached to any logger. *)
Theorem add_handler_appends_one_handler
    self lm dest level fmt date_fmt filter rotate formatter w :
  heap w !! self = Some lm → ids_allocated w →
  match add_handler self dest level fmt date_fmt filter rotate formatter w with
  | (Ok _, w') =>
      ∃ h,
        lg_handlers (logger_at w' (lm_logger lm))
        = lg_handlers (logger_at w (lm_logger lm)) ++ [h]
        ∧ (∀ r, r ≠ lm_logger lm → logger_at w' r = logger_at w r)
        ∧ match dest with
          | ToStream s => has_write dest = true ∧ h_kind h = StreamHandler s
          | ToPath p =>
              has_write dest = false
              ∧ h_kind h = if rotate then TimedRotatingFileHandler p "midnight" 7
                           else FileHandler p
          end
        ∧ level_value w level = Some (h_level h)
        ∧ h_formatter h
          = Some (MkFormatter (default Formatter formatter)
                    (default (entry_format lm) fmt)
                    (match tz_aliases lm !! tzname (env w) with
                     | Some alias => replace "%Z" alias (default (date_format lm) date_fmt)
                     | None => default (date_format lm) date_fmt
                     end))
  | (Err _, w') => ∀ r, logger_at w' r = logger_at w r
  end.
Proof.
  intros Hself Hids.
  destruct (add_handler self dest level fmt date_fmt filter rotate formatter w)
    as [[[]|e] w'] eqn:E.
  - destruct (add_handler_appends _ _ _ _ _ _ _ _ _ _ _ Hself Hids E)
      as (lv & Hlv & Hat & _ & _).
    exists (handler_for lm w dest lv fmt date_fmt filter rotate formatter).
    split; [|split; [|split; [|split]]].
    + rewrite Hat. by rewrite decide_True.
    + intros r Hr. rewrite Hat. by rewrite decide_False.
    + by destruct dest.
    + exact Hlv.
    + reflexivity.
  - apply add_handler_raises in E.
    destruct (creation_frame_fields _ _ E) as (_ & _ & Hr & Hd & _).
    intros r. by apply logger_at_frame.
Qed.

Lemma add_handler_appends_one_handler_witness :
  let w := world_with_file env0 in
  ∃ lm h,
    heap w !! 0%nat = Some lm
    ∧ lg_handlers
        (logger_at (add_handler 0 (ToPath "/var/tmp/app.log") (PStr "DEBUG") None None
                      None true None w).2 (lm_logger lm))
      = lg_handlers (logger_at w (lm_logger lm)) ++ [h]
    ∧ h_level h = DEBUG
    ∧ (fmt_date <$> h_formatter h) = Some "%Y-%m-%d %H:%M:%S EST".
Proof.
  intros w.
  destruct (heap w !! 0%nat) as [lm|] eqn:Hself; [|by vm_compute in Hself].
  assert (ids_allocated w) as Hids
    by (apply (bool_decide_unpack (ids_allocated w)); vm_compute; exact I).
  pose proof (add_handler_appends_one_handler 0 lm (ToPath "/var/tmp/app.log")
                (PStr "DEBUG") None None None true None w Hself Hids) as H.
  destruct (add_handler 0 (ToPath "/var/tmp/app.log") (PStr "DEBUG") None None None
              true None w) as [[[]|e] w'] eqn:E; [|by vm_compute in E].
  destruct H as (h & Hh & _ & _ & Hlv & Hf).
  exists lm, h. split; [reflexivity|]. split; [exact Hh|]. split.
  - vm_compute in Hlv. injection Hlv as Hlv. symmetry. exact Hlv.
  - rewrite Hf. vm_compute in Hself. injection Hself as <-. vm_compute. reflexivity.
Defined.

End HandlerClaims.

Section StreamFilters.
Import Reasoning Logging LogHandling.

Lemma level_choice_readonly (debug verbose : bool) w :
  ((if verbose then getLevelName (PStr "VERBOSE")
    else mret (if debug then PInt DEBUG else PInt INFO)) w).2 = w.
Proof.
  destruct verbose; [|reflexivity].
  unfold getLevelName. rewrite bind_eq. change (get w) with (Ok w, w). cbv beta iota.
  by destruct (_nameToLevel w !! "VERBOSE").
Qed.



End StreamFilters.

Section RegistryClaims.
Import Reasoning Logging LogHandling.

(** C3. The constructor always returns; the object it returns is a new
    one, and when the constructor has returned the registry holds it under
    its name: in the default slot for [None], in the named mapping
    otherwise.  No call on the class or on an instance removes an entry:
    a name that is registered stays registered through every sequence of
    calls, returned or raised. *)
Theorem constructor_registers_instance name entry_fmt date_fmt replace_handlers w os n :
  (∃ self w',
     __init__ name entry_fmt date_fmt replace_handlers w = (Ok self, w')
     ∧ heap w !! self = None
     ∧ is_Some (heap w' !! self)
     ∧ registry w' name = Some self
     ∧ match name with
       | None => _default_instance w' = Some self
       | Some s => _instances w' !! s = Some self
       end)
  ∧ (registered n w → registered n (run_ops os w)).
Proof.
  split; [|apply run_ops_registered].
  destruct (__init___ok name entry_fmt date_fmt replace_handlers w)
    as (w' & lm & E & Hheap & _ & Hreg & _).
  exists (length (heap w)), w'. split; [exact E|]. split.
  { by apply lookup_ge_None_2. }
  split.
  { rewrite Hheap. exists lm. by rewrite lookup_app_r, Nat.sub_diag. }
  split; [exact Hreg|]. by destruct name.
Qed.

Lemma constructor_registers_instance_witness :
  let w := (__init__ (Some "db") None None true (initial_world env0)).2 in
  let os := [Construct None None None true;
             Construct (Some "db") (Some "%(message)s") None false;
             AddLevel 1%nat 25 "NOTICE" None;
             InitDefaultLogger 2%nat true false None;
             GetInstance (Some "web") no_extra] in
  registered (Some "db") w ∧ registered (Some "db") (run_ops os w).
Proof.
  intros w os.
  assert (registered (Some "db") w) as H by (vm_compute; by eexists).
  split; [exact H|].
  exact (proj2 (constructor_registers_instance None None None true w os (Some "db")) H).
Defined.

End RegistryClaims.

Section LevelClaims.
Import Reasoning Logging LogHandling.

(** C1, on the code.  [add_level(20, "NOTICE", "notice")] on a fresh
    instance: 20 is the registered number of INFO and NOTICE is no
    registered name.  The call returns and has registered NOTICE for 20,
    in both directions, so that 20 is no longer named INFO: the test of
    log_handling.py:161 looks for the number among the level names, where
    it never is. *)
Theorem add_level_registers_name_for_taken_number :
  let w := (__init__ None None None true (initial_world env0)).2 in
  let r := add_level 0 20 "NOTICE" (Some "notice") w in
  _levelToName w !! 20 = Some "INFO"
  ∧ _nameToLevel w !! "NOTICE" = None
  ∧ in_nameToLevel (PInt 20) w = false
  ∧ r.1 = Ok tt
  ∧ _nameToLevel r.2 !! "NOTICE" = Some 20
  ∧ _levelToName r.2 !! 20 = Some "NOTICE".
Proof. vm_compute. repeat split. Qed.

(** C10. [add_level] is atomic on failure: a call that raises
    [InputValidationException] does so because the instance has an
    attribute of the function name, and leaves the whole state as it was,
    in particular the [log_funcs] mapping and the attributes of the
    instance and the level registry of [logging]. *)
Theorem add_level_atomic_on_failure self level_number level_name fn_name w e w' :
  add_level self level_number level_name fn_name w = (Err e, w') →
  exc_type e = InputValidationException →
  w' = w
  ∧ ∃ lm, heap w !! self = Some lm
          ∧ hasattr lm (default level_name fn_name) = true.
Proof.
  intros E He. destruct (heap w !! self) as [lm|] eqn:Hself.
  - destruct (hasattr lm (default level_name fn_name)) eqn:Ha.
    + rewrite (add_level_taken _ _ _ _ _ _ Hself Ha) in E. injection E as _ <-.
      split; [reflexivity|]. by exists lm.
    + rewrite (add_level_free _ _ _ _ _ _ Hself Ha) in E. discriminate.
  - rewrite (add_level_dangling _ _ _ _ _ Hself) in E. injection E as <- _.
    discriminate.
Qed.

Lemma add_level_atomic_on_failure_witness :
  let w := (__init__ None None None true (initial_world env0)).2 in
  let e := Raise InputValidationException
             "This LogManager already has a method called 'verbose'" in
  add_level 0 19 "VERBOSE" (Some "verbose") w = (Err e, w)
  ∧ ∃ lm, heap w !! 0%nat = Some lm ∧ hasattr lm "verbose" = true.
Proof.
  intros w e.
  assert (add_level 0 19 "VERBOSE" (Some "verbose") w = (Err e, w)) as H
    by (vm_compute; reflexivity).
  split; [exact H|].
  exact (proj2 (add_level_atomic_on_failure 0 19 "VERBOSE" (Some "verbose") w e w
                  H eq_refl)).
Defined.

End LevelClaims.

Section UtilsClaims.
Import Utils Reasoning LogHandling.

(** C6. [ignore_exceptions] swallows exactly the exceptions that are
    instances of a listed class: a body that returns, or that raises such
    an exception, leaves the [with] statement normally; any other exception
    leaves it unchanged.  The state the body reached is kept in each case.
    In particular the block of the constructor that runs [add_level] under
    [ignore_exceptions(InputValidationException)] never lets an
    [InputValidationException] out, whatever the instance and the
    arguments, and the constructor of [LogManager] always returns. *)
Theorem ignore_exceptions_exact :
  (∀ (S A : Type) (classes : list exc_class) (body : M S A) (s : S),
     with_ (ignore_exceptions classes) body s =
     match body s with
     | (Ok _, s') => (Ok tt, s')
     | (Err e, s') => if isinstance e classes then (Ok tt, s') else (Err e, s')
     end)
  ∧ (∀ self level_number level_name fn_name w,
       match (with_ (ignore_exceptions [InputValidationException])
                (add_level self level_number level_name fn_name) w).1 with
       | Ok _ => True
       | Err e => exc_type e ≠ InputValidationException
       end)
  ∧ (∀ name entry_fmt date_fmt replace_handlers w,
       ∃ self w', __init__ name entry_fmt date_fmt replace_handlers w = (Ok self, w')).
Proof.
  split; [|split].
  - intros S A classes body s. unfold with_, ignore_exceptions.
    destruct (body s) as [[a|e] s']; [reflexivity|].
    destruct (isinstance e classes); reflexivity.
  - intros self level_number level_name fn_name w. unfold with_, ignore_exceptions.
    destruct (add_level _ _ _ _ w) as [[a|e] w']; [exact I|].
    destruct (isinstance e [InputValidationException]) eqn:He; [exact I|].
    cbn. intros Hc. destruct e as [c msg]. cbn in *. subst c.
    vm_compute in He. discriminate.
  - intros name entry_fmt date_fmt replace_handlers w.
    destruct (__init___ok name entry_fmt date_fmt replace_handlers w)
      as (w' & lm & E & _).
    eauto.
Qed.

(** C9, as stated, fails: [ignore_exceptions_except()] lists no class,
    [KeyboardInterrupt] is therefore an instance of none of the listed
    classes, and yet it is not suppressed: [except Exception] does not
    catch it. *)
Lemma ignore_exceptions_except_lets_interrupt_through :
  let e := Raise KeyboardInterrupt "interrupted" in
  isinstance e [] = false
  ∧ with_ (ignore_exceptions_except []) (raise e : M unit unit) tt = (Err e, tt).
Proof. split; reflexivity. Qed.

(** C9, amended.  [ignore_exceptions_except] suppresses every exception
    that is an instance of [Exception] and of none of the listed classes;
    it re-raises, unchanged, the instances of a listed class, and it lets
    through, unchanged, every exception that is not an instance of
    [Exception] (such as [KeyboardInterrupt]).  With no class listed,
    [ignore_exceptions_except()] suppresses every instance of [Exception],
    while [ignore_exceptions()] suppresses nothing. *)
Theorem ignore_exceptions_except_exact :
  (∀ (S A : Type) (classes : list exc_class) (body : M S A) (s : S),
     with_ (ignore_exceptions_except classes) body s =
     match body s with
     | (Ok _, s') => (Ok tt, s')
     | (Err e, s') =>
         if isinstance e [Exception] && negb (isinstance e classes)
         then (Ok tt, s') else (Err e, s')
     end)
  ∧ (∀ (S A : Type) (body : M S A) (s : S),
       with_ (ignore_exceptions_except []) body s =
       match body s with
       | (Ok _, s') => (Ok tt, s')
       | (Err e, s') => if isinstance e [Exception] then (Ok tt, s') else (Err e, s')
       end)
  ∧ (∀ (S A : Type) (body : M S A) (s : S),
       with_ (ignore_exceptions []) body s =
       match body s with
       | (Ok _, s') => (Ok tt, s')
       | (Err e, s') => (Err e, s')
       end).
Proof.
  split; [|split].
  - intros S A classes body s. unfold with_, ignore_exceptions_except.
    destruct (body s) as [[a|e] s']; [reflexivity|].
    destruct (isinstance e [Exception]), (isinstance e classes); reflexivity.
  - intros S A body s. unfold with_, ignore_exceptions_except.
    destruct (body s) as [[a|e] s']; [reflexivity|].
    change (isinstance e []) with false.
    destruct (isinstance e [Exception]); reflexivity.
  - intros S A body s. unfold with_, ignore_exceptions.
    destruct (body s) as [[a|e] s']; reflexivity.
Qed.

End UtilsClaims.

(** ** The demo server *)

Section ServerClaims.
Import Server.

Lemma append_cons c s t : String c s +:+ t = String c (s +:+ t).
Proof. reflexivity. Qed.

Lemma append_nil t : EmptyString +:+ t = t.
Proof. reflexivity. Qed.

Lemma escape_char_cases c :
  (c = "&"%char ∧ escape_char c = "&amp;")
  ∨ (c = "<"%char ∧ escape_char c = "&lt;")
  ∨ (c = ">"%char ∧ escape_char c = "&gt;")
  ∨ (c = ascii_of_nat 34 ∧ escape_char c = "&quot;")
  ∨ (c = "'"%char ∧ escape_char c = "&#x27;")
  ∨ (c ≠ "&"%char ∧ escape_char c = String c EmptyString).
Proof.
  unfold escape_char.
  repeat (case_bool_decide; [subst; tauto|]).
  right; right; right; right; right. done.
Qed.

(** [html.escape] loses nothing: different strings have different
    escaped forms. *)
Lemma html_escape_inj s1 s2 : html_escape s1 = html_escape s2 → s1 = s2.
Proof.
  revert s2. induction s1 as [|c1 s1 IH]; intros [|c2 s2]; cbn [html_escape].
  - done.
  - intros H.
    destruct (escape_char_cases c2) as [[_ E]|[[_ E]|[[_ E]|[[_ E]|[[_ E]|[_ E]]]]]];
      rewrite E in H; rewrite ?append_cons in H; discriminate.
  - intros H.
    destruct (escape_char_cases c1) as [[_ E]|[[_ E]|[[_ E]|[[_ E]|[[_ E]|[_ E]]]]]];
      rewrite E in H; rewrite ?append_cons in H; discriminate.
  - intros H.
    destruct (escape_char_cases c1)
      as [[-> E1]|[[-> E1]|[[-> E1]|[[-> E1]|[[-> E1]|[N1 E1]]]]]];
    destruct (escape_char_cases c2)
      as [[-> E2]|[[-> E2]|[[-> E2]|[[-> E2]|[[-> E2]|[N2 E2]]]]]];
    rewrite ?E1, ?E2 in H; rewrite ?append_cons, ?append_nil in H;
    try discriminate;
    try (injection H as H; f_equal; by apply IH);
    try (injection H as H' _; congruence).
    injection H as -> H. f_equal. by apply IH.
Qed.

#[local] Instance html_escape_Inj : Inj (=) (=) html_escape.
Proof. intros s1 s2. apply html_escape_inj. Qed.

Lemma od_set_fresh {V} k (v : V) d : k ∉ d.*1 → od_set k v d = d ++ [(k, v)].
Proof.
  induction d as [|[k' v'] d IH]; cbn; [done|].
  intros [Hne Hd]%not_elem_of_cons.
  rewrite bool_decide_eq_false_2 by congruence. by rewrite IH.
Qed.

Lemma foldl_od_set {V} (g : string → string) (h : string → V) keys acc :
  NoDup (acc.*1 ++ (g <$> keys)) →
  foldl (λ rc k, od_set (g k) (h k) rc) acc keys = acc ++ ((λ k, (g k, h k)) <$> keys).
Proof.
  revert acc. induction keys as [|k keys IH]; intros acc Hnd; cbn.
  - by rewrite app_nil_r.
  - cbn in Hnd. apply NoDup_app in Hnd as (Ha & Hak & Hk).
    apply NoDup_cons in Hk as [Hk1 Hk2].
    rewrite od_set_fresh.
    2: { intros Hin. apply (Hak _ Hin). by left. }
    rewrite IH.
    + by rewrite <- app_assoc.
    + rewrite fmap_app. cbn. rewrite <- app_assoc. cbn.
      apply NoDup_app. split; [done|]. split.
      * intros x Hx Hin. by apply (Hak x Hx).
      * by apply NoDup_cons.
Qed.

Lemma sorted_spec keys :
  sorted keys ≡ₚ keys ∧ StronglySorted String.le (sorted keys).
Proof.
  unfold sorted. split.
  - apply merge_sort_Permutation.
  - apply (StronglySorted_merge_sort String.le).
Qed.

Lemma row_content_eq (req : request) :
  row_content req
  = (λ k, (html_escape k, html_escape (req !!! k))) <$> sorted (map_to_list req).*1.
Proof.
  unfold row_content. rewrite foldl_od_set; [done|]. cbn.
  apply (NoDup_fmap_2 html_escape).
  rewrite (proj1 (sorted_spec _)).
  apply NoDup_fst_map_to_list.
Qed.

Lemma string_app_assoc (a b c : string) : (a +:+ b) +:+ c = a +:+ (b +:+ c).
Proof.
  induction a as [|x a IH]; [reflexivity|].
  change (String x ((a +:+ b) +:+ c) = String x (a +:+ (b +:+ c))). by rewrite IH.
Qed.

(** The page [get_root] makes of the template, around the text [t] of the
    table. *)
Lemma format_page (t : string) :
  let content : gmap string string :=
    <["title" := "Request Info"]>
      (<["body" := "Information about your request:<br/>"]> ∅) in
  format html_template
    (<["body" := (content !!! "body") +:+ "<table>" +:+ t +:+ "</table>"]> content)
  = nl +:+ "<!DOCTYPE html>" +:+ nl
    +:+ "<html lang=" +:+ dq +:+ "en" +:+ dq +:+ ">" +:+ nl
    +:+ "<head>" +:+ nl
    +:+ "    <meta charset=" +:+ dq +:+ "utf-8" +:+ dq +:+ ">" +:+ nl
    +:+ "    <title>Request Info</title>" +:+ nl
    +:+ "    <style type=" +:+ dq +:+ "text/css" +:+ dq +:+ ">" +:+ nl
    +:+ "    table, tr, td {" +:+ nl
    +:+ "        border: 1px solid black;" +:+ nl
    +:+ "    }" +:+ nl
    +:+ "    </style>" +:+ nl
    +:+ "</head>" +:+ nl
    +:+ "<body>" +:+ nl
    +:+ "Information about your request:<br/><table>"
    +:+ t +:+ "</table>" +:+ nl
    +:+ "</body>" +:+ nl
    +:+ "</html>" +:+ nl.
Proof.
  intros content. unfold format, html_template.
  cbn [fmap list_fmap String.concat].
  assert ((<["body" := (content !!! "body") +:+ "<table>" +:+ t +:+ "</table>"]> content)
            !!! "title" = "Request Info") as ->.
  { rewrite lookup_total_insert_ne by done. unfold content.
    by rewrite lookup_total_insert_eq. }
  rewrite lookup_total_insert_eq.
  assert (content !!! "body" = "Information about your request:<br/>") as ->.
  { unfold content. rewrite lookup_total_insert_ne by done.
    by rewrite lookup_total_insert_eq. }
  cbv [nl dq]. rewrite !string_app_assoc. reflexivity.
Qed.

(** C7. The demo server registers exactly one route, GET on "/", served
    by [get_root].  For every request, [get_root] answers with content type
    text/html, and the page it sends is the template with the title
    "Request Info" and, in its body, a table that holds exactly one row per
    attribute of the request object, the rows joined by newlines: the rows
    follow the attribute names in sorted order, each name once, and a row
    shows the name and the value of the attribute, both HTML-escaped. *)
Theorem get_root_echoes_request address port (self : TestServer) (req : request) :
  web_routes = [("/", [("GET", "get_root")])]
  ∧ router (TestServer_init address port) = [Route "GET" "/" "get_root"]
  ∧ content_type (get_root self req).2 = "text/html"
  ∧ (∃ names,
       names ≡ₚ (map_to_list req).*1
       ∧ NoDup names
       ∧ (∀ k, k ∈ names ↔ is_Some (req !! k))
       ∧ StronglySorted String.le names
       ∧ length names = size req
       ∧ rows req
         = (λ k, "<tr><td>" +:+ html_escape k +:+ "</td><td>"
                 +:+ html_escape (req !!! k) +:+ "</td></tr>") <$> names)
  ∧ text (get_root self req).2
    = nl +:+ "<!DOCTYPE html>" +:+ nl
      +:+ "<html lang=" +:+ dq +:+ "en" +:+ dq +:+ ">" +:+ nl
      +:+ "<head>" +:+ nl
      +:+ "    <meta charset=" +:+ dq +:+ "utf-8" +:+ dq +:+ ">" +:+ nl
      +:+ "    <title>Request Info</title>" +:+ nl
      +:+ "    <style type=" +:+ dq +:+ "text/css" +:+ dq +:+ ">" +:+ nl
      +:+ "    table, tr, td {" +:+ nl
      +:+ "        border: 1px solid black;" +:+ nl
      +:+ "    }" +:+ nl
      +:+ "    </style>" +:+ nl
      +:+ "</head>" +:+ nl
      +:+ "<body>" +:+ nl
      +:+ "Information about your request:<br/><table>"
      +:+ String.concat nl (rows req) +:+ "</table>" +:+ nl
      +:+ "</body>" +:+ nl
      +:+ "</html>" +:+ nl.
Proof.
  split; [reflexivity|]. split; [reflexivity|]. split; [reflexivity|]. split.
  - destruct (sorted_spec (map_to_list req).*1) as [Hp Hs].
    exists (sorted (map_to_list req).*1). split; [exact Hp|]. split.
    { rewrite Hp. apply NoDup_fst_map_to_list. }
    split.
    { intros k. rewrite Hp. rewrite list_elem_of_fmap. split.
      - intros ([k' v] & -> & Hin). apply elem_of_map_to_list in Hin. by exists v.
      - intros [v Hv]. exists (k, v). split; [done|]. by apply elem_of_map_to_list. }
    split; [exact Hs|]. split.
    { rewrite Hp, length_fmap. apply length_map_to_list. }
    unfold rows. rewrite row_content_eq, <- list_fmap_compose. reflexivity.
  - unfold get_root. cbn [snd text]. apply format_page.
Qed.

(** On a sample, the character-wise [html_escape] is the chain of
    replacements [html.escape] is written as, and [get_root] escapes names
    and values and orders the rows by name. *)
Example html_escape_as_replacements :
  let s := "<a href='x'>Tom & Jerry &amp; co</a>" +:+ dq in
  html_escape s
  = replace "'" "&#x27;"
      (replace dq "&quot;"
         (replace ">" "&gt;" (replace "<" "&lt;" (replace "&" "&amp;" s)))).
Proof. reflexivity. Qed.

Example get_root_rows_sample :
  rows (<["_method" := "GET"]> (<["_b<" := "a&b"]> (<["Z" := "'q'"]> ∅)))
  = ["<tr><td>Z</td><td>&#x27;q&#x27;</td></tr>";
     "<tr><td>_b&lt;</td><td>a&amp;b</td></tr>";
     "<tr><td>_method</td><td>GET</td></tr>"].
Proof. vm_compute. reflexivity. Qed.

End ServerClaims.

(** ** More on the exception helpers *)

Section UtilsExtras.
Import Utils.

Lemma isinstance_app e cs1 cs2 :
  isinstance e (cs1 ++ cs2) = isinstance e cs1 || isinstance e cs2.
Proof. unfold isinstance. apply existsb_app. Qed.

(** Nested [ignore_exceptions] blocks ignore the union of their lists:
    [with ignore_exceptions(cs1): with ignore_exceptions(cs2): body] behaves
    as [with ignore_exceptions(cs2 + cs1): body], result and state. *)
Theorem ignore_exceptions_nested {S A} (cs1 cs2 : list exc_class) (body : M S A) s :
  with_ (ignore_exceptions cs1) (with_ (ignore_exceptions cs2) body) s
  = with_ (ignore_exceptions (cs2 ++ cs1)) body s.
Proof.
  unfold with_, ignore_exceptions. destruct (body s) as [[a|e] s']; [reflexivity|].
  rewrite isinstance_app.
  destruct (isinstance e cs2); [reflexivity|]. cbn.
  destruct (isinstance e cs1); reflexivity.
Qed.

(** The two helpers are complementary on instances of [Exception]: such an
    exception leaves [ignore_exceptions_except(cs)] exactly when
    [ignore_exceptions(cs)] would swallow it, and is swallowed by the former
    exactly when the latter would let it through; an exception that is not
    an instance of [Exception] always leaves [ignore_exceptions_except]. *)
Theorem ignore_exceptions_except_complement (cs : list exc_class) (e : exn) :
  ignore_exceptions_except cs e
  = if isinstance e [Exception]
    then match ignore_exceptions cs e with
         | None => Some e
         | Some _ => None
         end
    else Some e.
Proof.
  unfold ignore_exceptions_except, ignore_exceptions.
  destruct (isinstance e [Exception]); [|reflexivity].
  destruct (isinstance e cs); reflexivity.
Qed.

(** Every exception is an instance of [BaseException], so a block under
    [ignore_exceptions(BaseException)] never raises; and a block under
    [ignore_exceptions_except(BaseException)] suppresses nothing: it raises
    whatever its body raises. *)
Theorem ignore_exceptions_catch_all {S A} (body : M S A) s :
  (with_ (ignore_exceptions [BaseException]) body s).1 = Ok tt
  ∧ with_ (ignore_exceptions_except [BaseException]) body s
    = match body s with
      | (Ok _, s') => (Ok tt, s')
      | (Err e, s') => (Err e, s')
      end.
Proof.
  assert (∀ e, isinstance e [BaseException] = true) as Hall.
  { intros [c msg]. by destruct c. }
  unfold with_, ignore_exceptions, ignore_exceptions_except.
  destruct (body s) as [[a|e] s']; [done|]. rewrite Hall.
  split; [done|]. by destruct (isinstance e [Exception]).
Qed.

End UtilsExtras.

(** ** More on the demo server *)

Section ServerExtras.
Import Server Reasoning.

Lemma od_get_set {V} k (v : V) d : od_get k (od_set k v d) = Some v.
Proof.
  induction d as [|[k' v'] d IH]; cbn.
  - by rewrite bool_decide_eq_true_2.
  - destruct (decide (k' = k)) as [->|Hne].
    + rewrite bool_decide_eq_true_2 by done. cbn. by rewrite bool_decide_eq_true_2.
    + rewrite bool_decide_eq_false_2 by done. cbn. by rewrite bool_decide_eq_false_2.
Qed.

Lemma od_get_set_ne {V} k k' (v : V) d : k' ≠ k → od_get k' (od_set k v d) = od_get k' d.
Proof.
  intros Hne. induction d as [|[k0 v0] d IH]; cbn.
  - by rewrite bool_decide_eq_false_2.
  - destruct (decide (k0 = k)) as [->|Hk].
    + rewrite bool_decide_eq_true_2 by done. cbn.
      by rewrite !bool_decide_eq_false_2 by congruence.
    + rewrite (bool_decide_eq_false_2 (k0 = k)) by done. cbn. by rewrite IH.
Qed.

Lemma od_set_keys {V} k (v : V) d :
  (od_set k v d).*1 = if bool_decide (k ∈ d.*1) then d.*1 else d.*1 ++ [k].
Proof.
  induction d as [|[k0 v0] d IH]; cbn; [done|].
  destruct (decide (k0 = k)) as [->|Hk].
  - rewrite bool_decide_eq_true_2 by done. cbn.
    rewrite bool_decide_eq_true_2 by left. done.
  - rewrite (bool_decide_eq_false_2 (k0 = k)) by done. cbn. rewrite IH.
    destruct (decide (k ∈ d.*1)) as [Hin|Hin].
    + rewrite !bool_decide_eq_true_2; [done| by right | done].
    + rewrite !bool_decide_eq_false_2; [done| |done].
      intros [?|?]%elem_of_cons; congruence.
Qed.

(** The route registry is a two-level dictionary with insert-then-lookup
    behaviour: after [register(method, uri)] on a function, that function is
    what the registry holds for the method on the URI, replacing an earlier
    registration of the same pair; every other pair is as before; and the
    URIs keep their order, a new URI going to the end. *)
Theorem register_lookup (method uri func_name : string) (registry : Registry) :
  (od_get uri (register method uri func_name registry) ≫= od_get method) = Some func_name
  ∧ (∀ method' uri', (uri', method') ≠ (uri, method) →
       (od_get uri' (register method uri func_name registry) ≫= od_get method')
       = (od_get uri' registry ≫= od_get method'))
  ∧ (register method uri func_name registry).*1
    = if bool_decide (uri ∈ registry.*1) then registry.*1 else registry.*1 ++ [uri].
Proof.
  unfold register. split; [|split].
  - rewrite od_get_set. cbn. apply od_get_set.
  - intros method' uri' Hne. destruct (decide (uri' = uri)) as [->|Hu].
    + rewrite od_get_set. cbn. rewrite od_get_set_ne by congruence.
      by destruct (od_get uri registry).
    + by rewrite od_get_set_ne.
  - apply od_set_keys.
Qed.

Lemma list_ascii_app s t :
  String.list_ascii_of_string (s +:+ t)
  = String.list_ascii_of_string s ++ String.list_ascii_of_string t.
Proof.
  induction s as [|c s IH]; [done|].
  rewrite append_cons. cbn [String.list_ascii_of_string]. by rewrite IH.
Qed.

Lemma html_escape_markup_free s : markup_free (html_escape s).
Proof.
  unfold markup_free. induction s as [|c s IH]; cbn [html_escape]; [constructor|].
  rewrite list_ascii_app. apply Forall_app. split; [|exact IH].
  destruct (escape_char_cases c) as [[_ E]|[[_ E]|[[_ E]|[[_ E]|[[_ E]|[_ E]]]]]].
  1-5: rewrite E; cbn; repeat constructor; unfold markup_chars;
       intros Hin; repeat (apply elem_of_cons in Hin as [Hin|Hin]; [discriminate|]);
       by apply elem_of_nil in Hin.
  rewrite E. cbn. constructor; [|constructor].
  unfold escape_char in E. unfold markup_chars.
  intros Hin.
  repeat (apply elem_of_cons in Hin as [->|Hin];
          [vm_compute in E; discriminate|]).
  by apply elem_of_nil in Hin.
Qed.

(** What [get_root] puts in the table cannot break out of it: every row is
    [<tr><td>name</td><td>value</td></tr>] for an attribute of the request,
    with the escaped name and value, and neither of these contains a
    [<], a [>] or a quote character. *)
Theorem get_root_rows_escaped (req : request) :
  Forall (λ row, ∃ k v,
            req !! k = Some v
            ∧ row = "<tr><td>" +:+ html_escape k +:+ "</td><td>" +:+ html_escape v
                    +:+ "</td></tr>"
            ∧ markup_free (html_escape k) ∧ markup_free (html_escape v))
         (rows req).
Proof.
  unfold rows. rewrite row_content_eq, <- list_fmap_compose.
  apply Forall_fmap, Forall_forall. intros k Hk.
  rewrite (proj1 (sorted_spec _)) in Hk.
  apply list_elem_of_fmap in Hk as ([k' v] & -> & Hin).
  apply elem_of_map_to_list in Hin. cbn in *.
  exists k', v. split; [done|]. split.
  - by rewrite (lookup_total_correct _ _ _ Hin).
  - split; apply html_escape_markup_free.
Qed.

End ServerExtras.

(** ** The constructor, in full *)

Section ConstructorState.
Import Reasoning Logging LogHandling.

Lemma loggers_frame_refl w : loggers_frame w w.
Proof. unfold loggers_frame. by rewrite with_loggers_same. Qed.

Lemma loggers_frame_trans w w1 w2 :
  loggers_frame w w1 → loggers_frame w1 w2 → loggers_frame w w2.
Proof. unfold loggers_frame. intros H1 H2. rewrite H2, H1 at 1. reflexivity. Qed.

Lemma update_logger_run r f w :
  update_logger r f w = (Ok tt, (update_logger r f w).2)
  ∧ loggers_frame w (update_logger r f w).2.
Proof.
  destruct (update_logger_loggers r f w) as (rt & d & E). rewrite E. cbn [snd].
  split; [done|]. reflexivity.
Qed.

Lemma getLogger_run name w :
  getLogger name w = (Ok (logger_of_name name), (getLogger name w).2)
  ∧ loggers_frame w (getLogger name w).2
  ∧ ∀ r, logger_at (getLogger name w).2 r = logger_at w r.
Proof.
  unfold getLogger, logger_of_name. destruct name as [n|].
  2: { split; [done|]. split; [apply loggers_frame_refl | done]. }
  destruct (bool_decide (n = EmptyString)).
  { split; [done|]. split; [apply loggers_frame_refl | done]. }
  rewrite bind_eq. change (get w) with (Ok w, w). cbv beta iota.
  destruct (loggerDict w !! n) as [lg|] eqn:E.
  { split; [done|]. split; [apply loggers_frame_refl | done]. }
  split; [done|]. split; [by destruct w|].
  intros [|n']; [done|].
  change (logger_at (set_loggerDict <[n := new_logger]> w) (NamedLogger n')
          = logger_at w (NamedLogger n')).
  cbn [logger_at loggerDict set_loggerDict].
  destruct (decide (n' = n)) as [->|Hne].
  - by rewrite lookup_insert_eq, E.
  - by rewrite lookup_insert_ne.
Qed.

(** The constructor, step by step: its result, the object it builds, and
    every part of the state it leaves. *)
Lemma __init___state name entry_fmt date_fmt replace_handlers w :
  ∃ w',
    __init__ name entry_fmt date_fmt replace_handlers w = (Ok (length (heap w)), w')
    ∧ heap w' = heap w ++ [constructed name entry_fmt date_fmt (length (heap w))]
    ∧ (∀ r, logger_at w' r = logger_after_init name replace_handlers w r)
    ∧ _nameToLevel w' = _nameToLevel (register_level 19 "VERBOSE" w)
    ∧ _levelToName w' = _levelToName (register_level 19 "VERBOSE" w)
    ∧ next_id w' = next_id w ∧ _handlerList w' = _handlerList w
    ∧ fs w' = fs w ∧ env w' = env w
    ∧ registry w' name = Some (length (heap w))
    ∧ (∀ n, n ≠ name → registry w' n = registry w n).
Proof.
  unfold __init__. cbv zeta.
  rewrite bind_eq. change (get w) with (Ok w, w). cbv beta iota.
  set (cond := bool_decide (name ≠ None) && (length (_handlerList w) <? 1)%nat).
  set (w1 := if cond
             then (update_logger RootLogger (λ lg, MkLogger NOTSET (lg_handlers lg)) w).2
             else w).
  assert ((if cond then Logger_setLevel RootLogger (PInt NOTSET) else mret tt) w
          = (Ok tt, w1)) as E1 by (unfold w1; by destruct cond).
  assert (loggers_frame w w1) as F1.
  { unfold w1. destruct cond; [apply update_logger_run | apply loggers_frame_refl]. }
  assert (∀ r, logger_at w1 r
               = if cond then (if decide (r = RootLogger)
                               then MkLogger NOTSET (lg_handlers (root w))
                               else logger_at w r)
                 else logger_at w r) as L1.
  { intros r. unfold w1. destruct cond; [|done]. by rewrite logger_at_update. }
  rewrite (bind_ok _ _ _ _ _ E1).
  destruct (getLogger_run name w1) as (E2 & F2 & L2).
  set (lg := logger_of_name name) in *. set (w2 := (getLogger name w1).2) in *.
  rewrite (bind_ok _ _ _ _ _ E2).
  set (w3 := if replace_handlers
             then (update_logger lg (λ l, MkLogger (lg_level l) []) w2).2 else w2).
  assert ((if replace_handlers then Logger_set_handlers lg [] else mret tt) w2
          = (Ok tt, w3)) as E3.
  { unfold w3. destruct replace_handlers; [apply update_logger_run | done]. }
  assert (loggers_frame w2 w3) as F3.
  { unfold w3. destruct replace_handlers;
      [apply update_logger_run | apply loggers_frame_refl]. }
  assert (∀ r, logger_at w3 r
               = if replace_handlers
                 then (if decide (r = lg) then MkLogger (lg_level (logger_at w2 lg)) []
                       else logger_at w2 r)
                 else logger_at w2 r) as L3.
  { intros r. unfold w3. destruct replace_handlers; [|done]. by rewrite logger_at_update. }
  rewrite (bind_ok _ _ _ _ _ E3).
  set (w4 := (update_logger lg (λ l, MkLogger NOTSET (lg_handlers l)) w3).2).
  assert (Logger_setLevel lg (PInt NOTSET) w3 = (Ok tt, w4)) as E4
    by apply update_logger_run.
  assert (loggers_frame w3 w4) as F4 by apply update_logger_run.
  assert (∀ r, logger_at w4 r
               = if decide (r = lg) then MkLogger NOTSET (lg_handlers (logger_at w3 lg))
                 else logger_at w3 r) as L4.
  { intros r. unfold w4. by rewrite logger_at_update. }
  rewrite (bind_ok _ _ _ _ _ E4).
  assert (loggers_frame w w4) as F
    by (eapply loggers_frame_trans; [|exact F4];
        eapply loggers_frame_trans; [|exact F3];
        eapply loggers_frame_trans; [exact F1 | exact F2]).
  assert (∀ r, logger_at w4 r = logger_after_init name replace_handlers w r) as L.
  { intros r. rewrite L4. unfold logger_after_init. fold lg. fold cond.
    destruct (decide (r = lg)) as [->|Hr].
    - f_equal. rewrite L3.
      destruct replace_handlers; [by rewrite decide_True|].
      rewrite L2, L1. destruct cond; [|done].
      by destruct (decide (lg = RootLogger)) as [->|?].
    - rewrite L3.
      assert (logger_at w2 r
              = if decide (r = RootLogger)
                then (if cond then MkLogger NOTSET (lg_handlers (root w)) else root w)
                else logger_at w r) as ->.
      { rewrite L2, L1. destruct cond, (decide (r = RootLogger)) as [->|?]; done. }
      destruct replace_handlers; [by rewrite decide_False|done]. }
  clearbody w4. clear E1 E2 E3 E4 F1 F2 F3 F4 L1 L2 L3 L4 w1 w2 w3.
  assert (heap w4 = heap w ∧ _nameToLevel w4 = _nameToLevel w
          ∧ _levelToName w4 = _levelToName w ∧ next_id w4 = next_id w
          ∧ _handlerList w4 = _handlerList w ∧ fs w4 = fs w ∧ env w4 = env w
          ∧ _instances w4 = _instances w ∧ _default_instance w4 = _default_instance w)
    as (Hh & HnL & HlN & Hn & HhL & Hfs & Henv & Hi & Hd).
  { unfold loggers_frame in F. rewrite F. by destruct w. }
  rewrite (bind_ok _ _ _ _ _ (alloc_ok _ w4)). rewrite Hh.
  set (self := length (heap w)).
  match goal with |- context [set_heap (λ h, h ++ [?x]) w4] => set (lm0 := x) end.
  assert (heap (set_heap (λ h, h ++ [lm0]) w4) !! self = Some lm0) as H0.
  { unfold self. rewrite <- Hh. apply heap_alloc. }
  rewrite (bind_ok _ _ _ _ _ (bound_methods_ok lg self _ _ _ H0)).
  set (lm7 := foldl _ lm0 _).
  pose proof (heap_set_obj self lm0 lm7 _ H0) as H7.
  assert (hasattr lm7 "verbose" = false) as Hv by reflexivity.
  rewrite bind_eq. unfold Utils.with_.
  rewrite (add_level_free _ 19 "VERBOSE" (Some "verbose") _ _ H7 Hv).
  cbv beta iota.
  change (add_fn (default "VERBOSE" (Some "verbose")) (LogClosure self 19) lm7)
    with (constructed name entry_fmt date_fmt self).
  set (lm8 := constructed name entry_fmt date_fmt self).
  match goal with
  | |- context [set_heap <[self := lm8]> (register_level _ _ ?y)] =>
      set (w8 := set_heap <[self := lm8]> (register_level 19 "VERBOSE" y))
  end.
  assert (heap w8 = heap w ++ [lm8]) as Hheap.
  { unfold w8, register_level. destruct (in_nameToLevel _ _); cbn.
    all: rewrite list_insert_insert_eq, insert_app_r_alt by (rewrite Hh; reflexivity).
    all: by rewrite Hh, Nat.sub_diag. }
  assert (_nameToLevel w8 = _nameToLevel (register_level 19 "VERBOSE" w)
          ∧ _levelToName w8 = _levelToName (register_level 19 "VERBOSE" w)) as [HnL8 HlN8].
  { unfold w8, register_level.
    match goal with |- context [in_nameToLevel ?k ?y] =>
      assert (in_nameToLevel k y = in_nameToLevel k w) as ->
        by (unfold in_nameToLevel; unfold_setters; by rewrite HnL)
    end.
    destruct (in_nameToLevel _ w); unfold_setters; by rewrite ?HnL, ?HlN. }
  assert (root w8 = root w4 ∧ loggerDict w8 = loggerDict w4 ∧ next_id w8 = next_id w
          ∧ _handlerList w8 = _handlerList w ∧ fs w8 = fs w ∧ env w8 = env w
          ∧ _instances w8 = _instances w ∧ _default_instance w8 = _default_instance w)
    as (Hr8 & Hd8 & Hn8 & HhL8 & Hfs8 & Henv8 & Hi8 & Hdi8).
  { unfold w8, register_level. by destruct (in_nameToLevel _ _). }
  clearbody w8.
  exists (_set_instance name self w8).2. split; [by destruct name|].
  split; [by destruct name|]. split.
  { intros r. rewrite <- L. apply logger_at_frame; by destruct name. }
  split; [by destruct name|]. split; [by destruct name|].
  split; [by destruct name|]. split; [by destruct name|].
  split; [by destruct name|]. split; [by destruct name|].
  split; [destruct name; cbn; [apply lookup_insert_eq | reflexivity]|].
  intros n Hne. destruct name as [m|], n as [n|]; cbn; try done.
  - rewrite lookup_insert_ne by congruence. by rewrite Hi8.
  - by rewrite Hi8.
Qed.

End ConstructorState.

(** ** Log files and their directories *)

Section LogFiles.
Import Reasoning Logging LogHandling.

Lemma stat_empty w : Os.stat w EmptyString = None.
Proof. reflexivity. Qed.

Lemma stat_None w p :
  p ≠ EmptyString → Os.stat w p = None → Os.is_root p = false ∧ fs w !! p = None.
Proof.
  intros Hp. unfold Os.stat. rewrite bool_decide_eq_false_2 by done.
  by destruct (Os.is_root p).
Qed.

Lemma stat_lookup w p :
  p ≠ EmptyString → Os.is_root p = false → Os.stat w p = fs w !! p.
Proof.
  intros Hp Hr. unfold Os.stat. by rewrite bool_decide_eq_false_2, Hr.
Qed.

Lemma ancestors_from_nonempty n p a :
  a ∈ Os.ancestors_from n p → a ≠ EmptyString.
Proof.
  revert p. induction n as [|n IH]; intros p; cbn [Os.ancestors_from].
  { by intros ?%elem_of_nil. }
  cbv zeta. destruct (bool_decide (Os.dirname p = EmptyString)) eqn:E; cbn [orb].
  { by intros ?%elem_of_nil. }
  destruct (bool_decide (Os.dirname p = p)); [by intros ?%elem_of_nil|].
  intros [->|Hin]%elem_of_cons; [|by eapply IH].
  by apply bool_decide_eq_false in E.
Qed.

Lemma length_list_ascii s : length (String.list_ascii_of_string s) = String.length s.
Proof. induction s as [|c s IH]; [reflexivity|]. cbn. by rewrite IH. Qed.

Lemma drop_until_slash_suffix l : Os.drop_until_slash l `suffix_of` l.
Proof.
  induction l as [|c l IH]; [done|]. cbn [Os.drop_until_slash].
  destruct (bool_decide (c = Os.slash)); [done | by apply suffix_cons_r].
Qed.

Lemma strip_slashes_suffix l : Os.strip_slashes l `suffix_of` l.
Proof.
  induction l as [|c l IH]; [done|]. cbn [Os.strip_slashes].
  destruct (bool_decide (c = Os.slash)); [by apply suffix_cons_r | done].
Qed.

(** The directory of a path is the path or shorter. *)
Lemma dirname_shorter p :
  Os.dirname p ≠ p → (String.length (Os.dirname p) < String.length p)%nat.
Proof.
  intros Hne.
  assert (∃ h, h `suffix_of` reverse (String.list_ascii_of_string p)
               ∧ Os.dirname p = String.string_of_list_ascii (reverse h))
    as (h & Hsuf & Hd).
  { unfold Os.dirname. cbv zeta.
    set (head := Os.drop_until_slash (reverse (String.list_ascii_of_string p))).
    assert (head `suffix_of` reverse (String.list_ascii_of_string p)) as Hh
      by apply drop_until_slash_suffix.
    destruct (forallb _ head).
    - by exists head.
    - exists (Os.strip_slashes head). split; [|done].
      etrans; [apply strip_slashes_suffix | exact Hh]. }
  rewrite <- !length_list_ascii, Hd, String.list_ascii_of_string_of_list_ascii.
  rewrite length_reverse.
  pose proof (suffix_length _ _ Hsuf) as Hle. rewrite length_reverse in Hle.
  destruct (decide (length h = length (String.list_ascii_of_string p))) as [Heq|]; [|lia].
  exfalso. apply Hne. rewrite Hd.
  rewrite (suffix_length_eq _ _ Hsuf) by (rewrite length_reverse; lia).
  by rewrite reverse_involutive, String.string_of_list_ascii_of_string.
Qed.

(** A directory [os.makedirs] makes has its parent: one it makes as well,
    or a directory that was there. *)
Lemma dirs_to_make_parent w n child ds q :
  (String.length child ≤ n)%nat →
  Os.dirs_to_make w child (Os.ancestors_from n child) = inl ds →
  q ∈ child :: ds →
  Os.dirname q = EmptyString ∨ Os.dirname q ∈ child :: ds
  ∨ Os.stat w (Os.dirname q) = Some Dir.
Proof.
  revert child ds. induction n as [|n IH]; intros child ds Hlen.
  { cbn. intros [= <-] ->%list_elem_of_singleton. left.
    destruct child; [reflexivity | cbn in Hlen; lia]. }
  cbn [Os.ancestors_from]. cbv zeta.
  destruct (bool_decide (Os.dirname child = EmptyString)) eqn:E1; cbn [orb].
  { cbn. intros [= <-] ->%list_elem_of_singleton. left.
    by apply bool_decide_eq_true in E1. }
  destruct (bool_decide (Os.dirname child = child)) eqn:E2.
  { cbn. intros [= <-] ->%list_elem_of_singleton. right. left.
    apply bool_decide_eq_true in E2. rewrite E2. by left. }
  apply bool_decide_eq_false in E2.
  cbn [Os.dirs_to_make].
  destruct (Os.stat w (Os.dirname child)) as [[|]|] eqn:Es.
  - done.
  - intros [= <-] ->%list_elem_of_singleton. by right; right.
  - destruct (Os.dirs_to_make w (Os.dirname child) (Os.ancestors_from n (Os.dirname child)))
      as [ds'|] eqn:Eds; [|done].
    intros [= <-] [->|Hin]%elem_of_cons.
    + right. left. right. by left.
    + pose proof (dirname_shorter child E2) as Hsh.
      destruct (IH (Os.dirname child) ds' ltac:(lia) Eds Hin) as [H|[H|H]].
      * by left.
      * right. left. by right.
      * by right; right.
Qed.

(** What [os.makedirs] makes is missing and lies above the directory. *)
Lemma dirs_to_make_inl w child l ds :
  Os.dirs_to_make w child l = inl ds →
  Forall (λ a, Os.stat w a = None ∧ a ∈ l) ds.
Proof.
  revert child ds. induction l as [|a l IH]; intros child ds; cbn [Os.dirs_to_make].
  { intros [= <-]. constructor. }
  destruct (Os.stat w a) as [[|]|] eqn:E; [done | by intros [= <-]; constructor |].
  destruct (Os.dirs_to_make w a l) as [ds'|q] eqn:E'; [|done].
  intros [= <-]. constructor.
  - split; [exact E | by left].
  - eapply Forall_impl; [by eapply IH|]. cbn. intros b [? ?]. split; [done | by right].
Qed.

Lemma lookup_made (ds : list string) (m : gmap string fskind) q :
  foldr (λ a m, <[a := Dir]> m) m ds !! q
  = if bool_decide (q ∈ ds) then Some Dir else m !! q.
Proof.
  induction ds as [|a ds IH]; cbn [foldr].
  { by rewrite bool_decide_eq_false_2 by apply not_elem_of_nil. }
  destruct (decide (a = q)) as [->|Hne].
  - rewrite lookup_insert_eq. by rewrite bool_decide_eq_true_2 by (by left).
  - rewrite lookup_insert_ne by done. rewrite IH.
    destruct (decide (q ∈ ds)) as [Hin|Hin].
    + by rewrite !bool_decide_eq_true_2 by (by try right).
    + rewrite !bool_decide_eq_false_2; [done| |done].
      rewrite elem_of_cons. by intros [->|?].
Qed.

(** [os.makedirs], when it returns: the directory was missing, and it and
    missing directories above it have been made. *)
Lemma makedirs_ok d w w' :
  Os.makedirs d w = (Ok tt, w') →
  d ≠ EmptyString ∧ Os.stat w d = None
  ∧ ∃ ds, Os.dirs_to_make w d (Os.ancestors d) = inl ds
          ∧ Forall (λ a, Os.stat w a = None ∧ a ∈ Os.ancestors d) ds
          ∧ w' = set_fs (λ m, foldr (λ a m, <[a := Dir]> m) m (d :: ds)) w.
Proof.
  unfold Os.makedirs. case_bool_decide as Hd; [done|].
  rewrite bind_eq. change (get w) with (Ok w, w). cbv beta iota.
  destruct (Os.stat w d) as [k|] eqn:E; [done|].
  destruct (Os.dirs_to_make w d (Os.ancestors d)) as [ds|q] eqn:Eds; [|done].
  intros [= <-]. split; [done|]. split; [done|]. exists ds.
  split; [done|]. split; [by eapply dirs_to_make_inl | done].
Qed.

(** The file system after a returning [os.makedirs]. *)
Lemma makedirs_fs d w w' :
  Os.makedirs d w = (Ok tt, w') →
  Os.stat w' d = Some Dir
  ∧ fs_frame w w'
  ∧ fs w ⊆ fs w'
  ∧ ∀ q, fs w !! q = None → is_Some (fs w' !! q) →
         fs w' !! q = Some Dir ∧ q ∈ d :: Os.ancestors d
         ∧ (Os.dirname q = EmptyString ∨ Os.stat w' (Os.dirname q) = Some Dir).
Proof.
  intros (Hd & Hs & ds & Eds & Hds & ->)%makedirs_ok.
  destruct (stat_None _ _ Hd Hs) as [Hr Hl].
  assert (∀ q, q ∈ d :: ds → fs w !! q = None ∧ q ∈ d :: Os.ancestors d) as Hnew.
  { intros q [->|Hin]%elem_of_cons; [split; [done | by left]|].
    rewrite Forall_forall in Hds. destruct (Hds q Hin) as [Hq Ha].
    split; [|by right].
    apply stat_None; [|done]. by eapply ancestors_from_nonempty. }
  split; [|split; [|split]].
  - rewrite stat_lookup by done. cbn [fs set_fs]. rewrite lookup_made.
    by rewrite bool_decide_eq_true_2 by (by left).
  - by destruct w.
  - apply map_subseteq_spec. intros q k Hq. cbn [fs set_fs]. rewrite lookup_made.
    case_bool_decide as Hin; [|done].
    destruct (Hnew q Hin) as [Hq' _]. congruence.
  - intros q Hq. cbn [fs set_fs]. rewrite lookup_made.
    case_bool_decide as Hin; [|by rewrite Hq; intros [? ?]].
    intros _. split; [done|]. split; [by apply Hnew|].
    destruct (dirs_to_make_parent w (String.length d) d ds q (le_n _) Eds Hin)
      as [H|[H|H]]; [by left| |]; right.
    + destruct (Hnew _ H) as [Hl' _].
      assert (Os.dirname q ≠ EmptyString ∧ Os.is_root (Os.dirname q) = false)
        as [Hne Hr'].
      { apply elem_of_cons in H as [->|H]; [done|].
        rewrite Forall_forall in Hds. destruct (Hds _ H) as [Hs' Ha].
        split; [by eapply ancestors_from_nonempty|].
        eapply stat_None; [by eapply ancestors_from_nonempty | done]. }
      rewrite stat_lookup by done. cbn [fs set_fs]. rewrite lookup_made.
      by rewrite bool_decide_eq_true_2.
    + revert H. unfold Os.stat. case_bool_decide; [done|].
      destruct (Os.is_root (Os.dirname q)); [done|]. cbn [fs set_fs].
      rewrite lookup_made. intros Hl'.
      case_bool_decide; [done | exact Hl'].
Qed.

(** [_prep_log_dir], case by case on what is at the directory of the path. *)
Lemma _prep_log_dir_cases p m w :
  _prep_log_dir p m w =
  match Os.stat w (Os.dirname p) with
  | Some Dir => (Ok tt, w)
  | Some File =>
      (Err (Raise InputValidationException
              ("Invalid log file dir - not a directory: " +:+ Os.dirname p)), w)
  | None => Os.makedirs (Os.dirname p) w
  end.
Proof.
  unfold _prep_log_dir. cbv zeta. set (d := Os.dirname p).
  rewrite bind_eq. unfold Os.exists_ at 1.
  change (gets ?f w) with (Ok (f w), w). cbv beta iota.
  destruct (Os.stat w d) as [[|]|] eqn:E.
  - rewrite bind_eq. unfold Os.isdir.
    change (gets ?f w) with (Ok (f w), w). cbv beta iota. by rewrite E.
  - rewrite bind_eq. unfold Os.isdir.
    change (gets ?f w) with (Ok (f w), w). cbv beta iota. by rewrite E.
  - rewrite bind_eq. destruct (Os.makedirs d w) as [[[]|e] w1]; [|reflexivity].
    by destruct (String.prefix "/var/tmp/" d).
Qed.

(** [_prep_log_dir], when it returns. *)
Lemma _prep_log_dir_postcondition_ok p m w w' :
  _prep_log_dir p m w = (Ok tt, w') →
  Os.stat w' (Os.dirname p) = Some Dir
  ∧ fs_frame w w'
  ∧ fs w ⊆ fs w'
  ∧ ∀ q, fs w !! q = None → is_Some (fs w' !! q) →
         fs w' !! q = Some Dir ∧ q ∈ Os.dirname p :: Os.ancestors (Os.dirname p)
         ∧ (Os.dirname q = EmptyString ∨ Os.stat w' (Os.dirname q) = Some Dir).
Proof.
  rewrite _prep_log_dir_cases.
  destruct (Os.stat w (Os.dirname p)) as [[|]|] eqn:E.
  - done.
  - intros [= <-]. split; [exact E|]. split; [apply fs_frame_refl|].
    split; [done|]. intros q Hq [k Hk]. congruence.
  - apply makedirs_fs.
Qed.

(** [_prep_log_dir] looks before it makes anything.  When a directory is
    at the directory of the log path, it returns and nothing has changed;
    when something else is there it raises [InputValidationException] and
    nothing has changed, and that is the only way it raises this exception.
    Whenever it returns, the directory of the log path is a directory,
    everything that was in the file system is still there as it was, and
    what has been added is a directory: that of the log path or one above
    it, and its own parent directory is there as well ([os.makedirs] makes
    the missing directories on the way). *)
Theorem _prep_log_dir_postcondition p m w :
  (Os.stat w (Os.dirname p) = Some Dir → _prep_log_dir p m w = (Ok tt, w))
  ∧ (Os.stat w (Os.dirname p) = Some File →
     _prep_log_dir p m w
     = (Err (Raise InputValidationException
               ("Invalid log file dir - not a directory: " +:+ Os.dirname p)), w))
  ∧ match _prep_log_dir p m w with
    | (Ok _, w') =>
        Os.stat w' (Os.dirname p) = Some Dir
        ∧ fs_frame w w'
        ∧ fs w ⊆ fs w'
        ∧ ∀ q, fs w !! q = None → is_Some (fs w' !! q) →
               fs w' !! q = Some Dir ∧ q ∈ Os.dirname p :: Os.ancestors (Os.dirname p)
               ∧ (Os.dirname q = EmptyString ∨ Os.stat w' (Os.dirname q) = Some Dir)
    | (Err e, w') =>
        fs_frame w w'
        ∧ (exc_type e = InputValidationException →
           w' = w ∧ Os.stat w (Os.dirname p) = Some File)
    end.
Proof.
  rewrite _prep_log_dir_cases.
  destruct (Os.stat w (Os.dirname p)) as [[|]|] eqn:E.
  - split; [done|]. split; [done|]. split; [apply fs_frame_refl | done].
  - split; [done|]. split; [done|]. split; [exact E|]. split; [apply fs_frame_refl|].
    split; [done|]. intros q Hq [k Hk]. congruence.
  - split; [done|]. split; [done|].
    destruct (Os.makedirs (Os.dirname p) w) as [[[]|e] w'] eqn:Em.
    + by apply makedirs_fs.
    + pose proof (_prep_log_dir_frame p m w) as F.
      rewrite _prep_log_dir_cases, E, Em in F. split; [exact F|].
      intros He. exfalso. revert Em He. unfold Os.makedirs.
      case_bool_decide; [by intros [= <- <-]|].
      rewrite bind_eq. change (get w) with (Ok w, w). cbv beta iota. rewrite E.
      destruct (Os.dirs_to_make w (Os.dirname p) (Os.ancestors (Os.dirname p)));
        [done | by intros [= <- <-]].
Qed.

(** [open(path, 'a')], when it returns: a file is at the path, and it is
    the one thing that may have been added. *)
Lemma open_append_ok p w w' :
  Os.open_append p w = (Ok tt, w') →
  Os.stat w' p = Some File
  ∧ (w' = w ∨ fs w !! p = None ∧ w' = set_fs <[p := File]> w).
Proof.
  unfold Os.open_append. rewrite bind_eq. change (get w) with (Ok w, w). cbv beta iota.
  case_bool_decide as Hp; [done|].
  destruct (Os.ends_with_slash p) eqn:Hs; [done|].
  assert (Os.is_root p = false) as Hr.
  { destruct (Os.is_root p) eqn:Hr; [|done]. exfalso.
    unfold Os.is_root in Hr. apply andb_true_iff in Hr as [_ Hall].
    unfold Os.ends_with_slash in Hs.
    destruct (reverse (String.list_ascii_of_string p)) as [|c l] eqn:El.
    - apply (f_equal reverse) in El. rewrite reverse_involutive in El.
      destruct p; [done | discriminate].
    - rewrite forallb_forall in Hall. specialize (Hall c).
      rewrite Hs in Hall. enough (false = true) by done. apply Hall.
      apply list_elem_of_In, elem_of_reverse. rewrite El. by left. }
  destruct (Os.stat w p) as [[|]|] eqn:E.
  - intros [= <-]. split; [exact E | by left].
  - done.
  - rewrite stat_lookup in E by done.
    assert (Os.stat (set_fs <[p := File]> w) p = Some File) as Hnew.
    { rewrite stat_lookup by done. apply lookup_insert_eq. }
    case_bool_decide.
    { intros [= <-]. split; [exact Hnew | by right]. }
    destruct (Os.stat w (Os.dirname p)) as [[|]|]; [done| |done].
    intros [= <-]. split; [exact Hnew | by right].
Qed.

Lemma drop_until_slash_none l :
  Os.slash ∉ l → Os.drop_until_slash l = [].
Proof.
  induction l as [|c l IH]; [done|]. intros [Hc Hl]%not_elem_of_cons. cbn.
  rewrite bool_decide_eq_false_2 by congruence. by apply IH.
Qed.

(** A path without a slash has no directory part. *)
Lemma dirname_no_slash p :
  Os.slash ∉ String.list_ascii_of_string p → Os.dirname p = EmptyString.
Proof.
  intros H. unfold Os.dirname. rewrite drop_until_slash_none; [done|].
  by rewrite elem_of_reverse.
Qed.

(** Without a directory part in the path, [add_handler] fails where it
    prepares the directory. *)
Lemma add_handler_no_dir_part self lm p level fmt date_fmt filter rotate formatter w :
  heap w !! self = Some lm →
  Os.dirname p = EmptyString →
  add_handler self (ToPath p) level fmt date_fmt filter rotate formatter w
  = (Err (Raise FileNotFoundError "[Errno 2] No such file or directory"), w).
Proof.
  intros Hself Hp.
  unfold add_handler. rewrite (bind_ok _ _ _ _ _ (deref_ok _ _ _ Hself)). cbv zeta.
  assert (_prep_log_dir p default_dir_permissions w
          = (Err (Raise FileNotFoundError "[Errno 2] No such file or directory"), w)) as E.
  { rewrite _prep_log_dir_cases, Hp. reflexivity. }
  destruct rotate; rewrite bind_eq, bind_eq, E; reflexivity.
Qed.

(** A log path without a directory part is refused: for a file name with
    no slash in it, [add_handler] raises [FileNotFoundError] and changes
    nothing, whatever the other arguments. *)
Theorem add_handler_bare_file_name
    self lm p level fmt date_fmt filter rotate formatter w :
  heap w !! self = Some lm →
  Os.slash ∉ String.list_ascii_of_string p →
  add_handler self (ToPath p) level fmt date_fmt filter rotate formatter w
  = (Err (Raise FileNotFoundError "[Errno 2] No such file or directory"), w).
Proof.
  intros Hself Hp. apply dirname_no_slash in Hp. by eapply add_handler_no_dir_part.
Qed.

Lemma add_handler_bare_file_name_witness :
  let w := world_with_file env0 in
  (add_handler 0 (ToPath "app.log") (PInt DEBUG) None None None true None w).1
  = Err (Raise FileNotFoundError "[Errno 2] No such file or directory").
Proof.
  intros w.
  destruct (heap w !! 0%nat) as [lm|] eqn:Hself; [|by vm_compute in Hself].
  assert (Os.slash ∉ String.list_ascii_of_string "app.log") as Hp.
  { apply (bool_decide_unpack _). vm_compute. exact I. }
  by rewrite (add_handler_bare_file_name 0 lm "app.log" (PInt DEBUG) None None None
                true None w Hself Hp).
Defined.

End LogFiles.

(** ** The default loggers, handler by handler *)

Section DefaultLoggers.
Import Reasoning Logging LogHandling.

(** [add_handler_appends], asking only that the handlers of the
    instance's own logger have been created. *)
Lemma add_handler_appends_at self lm dest level fmt date_fmt filter rotate formatter w w' :
  heap w !! self = Some lm →
  logger_ids_below (next_id w) (logger_at w (lm_logger lm)) →
  add_handler self dest level fmt date_fmt filter rotate formatter w = (Ok tt, w') →
  ∃ lv,
    level_value w level = Some lv
    ∧ (∀ r, logger_at w' r =
            if decide (r = lm_logger lm)
            then MkLogger (lg_level (logger_at w r))
                   (lg_handlers (logger_at w r)
                    ++ [handler_for lm w dest lv fmt date_fmt filter rotate formatter])
            else logger_at w r)
    ∧ same_objects w w'
    ∧ next_id w' = S (next_id w).
Proof.
  intros Hself Hids E.
  destruct (add_handler_returns _ _ _ _ _ _ _ _ _ _ _ Hself E)
    as (lv & w1 & Hlv & Fr & Hn & ->).
  destruct (creation_frame_fields _ _ Fr) as (? & ? & Hr & Hd & ? & ? & ? & ?).
  exists lv. split; [done|]. unfold Logger_addHandler. split; [|split].
  - intros r. rewrite logger_at_update. fold (attach
      (handler_for lm w dest lv fmt date_fmt filter rotate formatter)
      (logger_at w1 (lm_logger lm))).
    rewrite !(logger_at_frame w w1) by done.
    case_decide as Er; [subst r|done].
    by apply (attach_fresh (next_id w)).
  - destruct (update_logger_same_objects (lm_logger lm)
      (attach (handler_for lm w dest lv fmt date_fmt filter rotate formatter)) w1)
      as (? & ? & ? & ? & ? & ?).
    unfold same_objects, attach in *. repeat split; congruence.
  - by rewrite update_logger_next_id.
Qed.

Lemma level_choice_run (debug verbose : bool) w lvl w' lv :
  (if verbose then getLevelName (PStr "VERBOSE")
   else mret (if debug then PInt DEBUG else PInt INFO)) w = (Ok lvl, w') →
  level_value w lvl = Some lv →
  w' = w ∧ stdout_level debug verbose w = Some lv.
Proof.
  unfold stdout_level. destruct verbose.
  - unfold getLevelName. rewrite bind_eq. change (get w) with (Ok w, w). cbv beta iota.
    destruct (_nameToLevel w !! "VERBOSE") as [z|] eqn:E.
    + intros [= <- <-]. cbn. by intros [= <-].
    + intros [= <- <-]. cbn. done.
  - intros [= <- <-]. destruct debug; cbn; by intros [= <-].
Qed.

(** What [init_default_stream_logger] has done when it returns. *)
Lemma init_default_stream_logger_handlers self lm debug verbose w w' :
  heap w !! self = Some lm →
  logger_ids_below (next_id w) (logger_at w (lm_logger lm)) →
  init_default_stream_logger self debug verbose w = (Ok tt, w') →
  ∃ lv,
    stdout_level debug verbose w = Some lv
    ∧ (∀ r, logger_at w' r =
            if decide (r = lm_logger lm)
            then MkLogger (lg_level (logger_at w r))
                   (lg_handlers (logger_at w r)
                    ++ [default_stdout_handler lm w lv; default_stderr_handler lm w])
            else logger_at w r)
    ∧ same_objects w w'
    ∧ next_id w' = S (S (S (S (next_id w)))).
Proof.
  intros Hself Hids E. unfold init_default_stream_logger in E.
  rewrite (bind_ok _ _ _ _ _ (create_filter_ok _ w)) in E.
  rewrite (bind_ok _ _ _ _ _ (create_filter_ok _ _)) in E.
  cbv zeta in E. set (w2 := set_next_id S (set_next_id S w)) in E.
  apply bind_ok_inv in E as (lvl & w2' & El & E).
  assert (w2' = w2) as ->.
  { pose proof (level_choice_readonly debug verbose w2) as Hro.
    by rewrite El in Hro. }
  rewrite (bind_ok _ _ _ _ _ (gets_eq _ w2)) in E. cbv beta zeta in E.
  apply bind_ok_inv in E as ([] & w3 & E3 & E4).
  assert (logger_ids_below (next_id w2) (logger_at w2 (lm_logger lm))) as Hids2.
  { eapply ids_below_mono; [|exact Hids]. cbn. lia. }
  destruct (add_handler_appends_at _ _ _ _ _ _ _ _ _ _ _
              (Hself : heap w2 !! self = Some lm) Hids2 E3)
    as (lv & Hlv & Hat3 & Hso3 & Hn3).
  destruct (level_choice_run debug verbose w2 lvl w2 lv El Hlv) as [_ Hsl].
  assert (heap w3 !! self = Some lm) as Hself3.
  { destruct Hso3 as (_ & _ & _ & _ & -> & _). exact Hself. }
  assert (logger_ids_below (next_id w3) (logger_at w3 (lm_logger lm))) as Hids3.
  { rewrite Hat3, decide_True, Hn3 by done. unfold logger_ids_below. cbn [lg_handlers].
    apply Forall_app. split.
    - eapply Forall_impl; [exact Hids2|]. cbn. intros ? ?. lia.
    - apply Forall_singleton. cbn. lia. }
  destruct (add_handler_appends_at _ _ _ _ _ _ _ _ _ _ _ Hself3 Hids3 E4)
    as (lv4 & Hlv4 & Hat4 & Hso4 & Hn4).
  cbn in Hlv4. injection Hlv4 as <-.
  exists lv. split; [exact Hsl|]. split; [|split].
  - intros r. rewrite Hat4, Hat3.
    destruct (decide (r = lm_logger lm)) as [->|Hr]; [|done].
    cbn [lg_level lg_handlers].
    rewrite <- app_assoc. f_equal. f_equal.
    unfold handler_for, default_stdout_handler, default_stderr_handler,
      handler_date_fmt, handler_kind_for.
    destruct Hso3 as (_ & _ & _ & _ & _ & ->). rewrite Hn3. reflexivity.
  - eapply same_objects_trans; [|exact Hso4].
    eapply same_objects_trans; [|exact Hso3]. by repeat split.
  - rewrite Hn4, Hn3. reflexivity.
Qed.

End DefaultLoggers.

Section DefaultLoggerTheorems.
Import Reasoning Logging LogHandling.

(** The thresholds and formats of the default stream logger.  When
    [init_default_stream_logger] returns, it has appended two handlers, the
    first on [sys.stdout] and the second on [sys.stderr].  The stdout
    handler's threshold is the number registered for VERBOSE when [verbose]
    is set (whatever [debug] says), else DEBUG when [debug] is set, else
    INFO; the stderr handler's threshold is INFO.  The stdout handler
    formats with the instance's default entry format and leaves the text as
    [logging.Formatter] made it; the stderr handler formats with
    ["%(levelname)s %(message)s"], leaves the text of a record without a
    true [red] extra as it is and passes that of a record with one through
    [termcolor.colored], which wraps it in the red escape codes when the
    environment has colours on and leaves it as it is otherwise. *)
Theorem default_stream_handlers self lm debug verbose w w' :
  heap w !! self = Some lm → ids_allocated w →
  init_default_stream_logger self debug verbose w = (Ok tt, w') →
  ∃ h_out h_err lv,
    lg_handlers (logger_at w' (lm_logger lm))
    = lg_handlers (logger_at w (lm_logger lm)) ++ [h_out; h_err]
    ∧ h_kind h_out = StreamHandler Stdout
    ∧ h_kind h_err = StreamHandler Stderr
    ∧ stdout_level debug verbose w = Some lv
    ∧ h_level h_out = lv ∧ h_level h_err = INFO
    ∧ (∃ f, h_formatter h_out = Some f ∧ fmt_entry f = entry_format lm
            ∧ ∀ text record, format (fmt_class f) text record = text)
    ∧ (∃ f, h_formatter h_err = Some f ∧ fmt_entry f = "%(levelname)s %(message)s"
            ∧ ∀ text record,
                format (fmt_class f) text record
                = if default false (extra record !! "red")
                  then (if colors (env w)
                        then String (ascii_of_nat 27) "[31m" +:+ text
                             +:+ String (ascii_of_nat 27) "[0m"
                        else text)
                  else text).
Proof.
  intros Hself Hids E.
  apply ids_allocated_logger_at with (r := lm_logger lm) in Hids.
  destruct (init_default_stream_logger_handlers _ _ _ _ _ _ Hself Hids E)
    as (lv & Hlv & Hat & _ & _).
  exists (default_stdout_handler lm w lv), (default_stderr_handler lm w), lv.
  split; [by rewrite Hat, decide_True|].
  split; [reflexivity|]. split; [reflexivity|]. split; [exact Hlv|].
  split; [reflexivity|]. split; [reflexivity|]. split.
  - eexists. split; [reflexivity|]. split; reflexivity.
  - eexists. split; [reflexivity|]. split; reflexivity.
Qed.

Lemma default_stream_handlers_witness :
  let w := (__init__ (Some "app") None None true (initial_world env0)).2 in
  ∃ lm h_out h_err,
    heap w !! 0%nat = Some lm
    ∧ lg_handlers (logger_at (init_default_stream_logger 0 true true w).2 (lm_logger lm))
      = lg_handlers (logger_at w (lm_logger lm)) ++ [h_out; h_err]
    ∧ h_level h_out = 19 ∧ h_level h_err = INFO.
Proof.
  intros w.
  destruct (heap w !! 0%nat) as [lm|] eqn:Hself; [|by vm_compute in Hself].
  assert (ids_allocated w) as Hids
    by (apply (bool_decide_unpack (ids_allocated w)); vm_compute; exact I).
  destruct (init_default_stream_logger 0 true true w) as [[[]|e] w'] eqn:E;
    [|by vm_compute in E].
  destruct (default_stream_handlers 0 lm true true w w' Hself Hids E)
    as (h_out & h_err & lv & Hh & _ & _ & Hlv & Ho & He & _).
  exists lm, h_out, h_err. split; [reflexivity|]. split; [exact Hh|].
  split; [|exact He]. rewrite Ho. vm_compute in Hlv. by injection Hlv as <-.
Defined.



End DefaultLoggerTheorems.

Section FileLoggerTheorems.
Import Reasoning Logging LogHandling.

(** Replacing the carriage return by nothing removes the carriage returns
    and keeps every other character in place. *)
Lemma replace_cr s : replace cr EmptyString s = without_cr s.
Proof.
  unfold replace, without_cr, cr. induction s as [|a s IH]; [reflexivity|].
  cbn [replace_from String.prefix String.length Nat.sub
       String.list_ascii_of_string List.filter].
  destruct (ascii_dec (ascii_of_nat 13) a) as [<-|Hne].
  - rewrite bool_decide_eq_true_2 by done. cbn [negb]. rewrite append_nil.
    replace (String.prefix EmptyString s) with true by (by destruct s). exact IH.
  - rewrite bool_decide_eq_false_2 by congruence. cbn [negb String.string_of_list_ascii].
    by rewrite IH.
Qed.

Lemma without_cr_free s :
  ascii_of_nat 13 ∉ String.list_ascii_of_string (without_cr s).
Proof.
  unfold without_cr. rewrite String.list_ascii_of_string_of_list_ascii.
  rewrite list_elem_of_In, filter_In. intros [_ H].
  by rewrite bool_decide_eq_true_2 in H.
Qed.

Lemma init_default_logger_inv self debug verbose log_path w p w' :
  init_default_logger self debug verbose log_path w = (Ok p, w') →
  ∃ w1, init_default_stream_logger self debug verbose w = (Ok tt, w1)
        ∧ p = actual_log_path log_path w1
        ∧ add_handler self (ToPath p) (PInt DEBUG)
            (Some "%(asctime)s %(levelname)s %(funcName)s:%(lineno)d %(message)s")
            None None true
            (Some (create_formatter (λ _, true) (replace cr EmptyString) None)) w1
          = (Ok tt, w').
Proof.
  unfold init_default_logger.
  intros ([] & w1 & E1 & E)%bind_ok_inv. exists w1. split; [exact E1|].
  apply bind_ok_inv in E as (q & w1' & Eq & E).
  assert (w1' = w1 ∧ q = actual_log_path log_path w1) as [-> ->].
  { destruct log_path; by injection Eq as <- <-. }
  cbv zeta in E. apply bind_ok_inv in E as ([] & w2 & E2 & E).
  by injection E as <- <-.
Qed.

(** The default logger with a file.  When [init_default_logger] returns,
    it returns the path it logs to: the given path, or for [None] the file
    [/var/tmp/<module>_<user>_<time>.log] named after the first caller
    outside [log_handling].  It has appended three handlers: stdout, stderr,
    and a timed rotating file handler on that path (midnight, 7 backups) at
    threshold DEBUG, whose formatter removes every carriage return from the
    formatted text and changes nothing else. *)
Theorem init_default_logger_handlers self lm debug verbose log_path w p w' :
  heap w !! self = Some lm → ids_allocated w →
  init_default_logger self debug verbose log_path w = (Ok p, w') →
  p = actual_log_path log_path w
  ∧ ∃ h_out h_err h_file,
      lg_handlers (logger_at w' (lm_logger lm))
      = lg_handlers (logger_at w (lm_logger lm)) ++ [h_out; h_err; h_file]
      ∧ h_kind h_out = StreamHandler Stdout
      ∧ h_kind h_err = StreamHandler Stderr
      ∧ h_kind h_file = TimedRotatingFileHandler p "midnight" 7
      ∧ h_level h_file = DEBUG
      ∧ ∃ f, h_formatter h_file = Some f
             ∧ fmt_entry f
               = "%(asctime)s %(levelname)s %(funcName)s:%(lineno)d %(message)s"
             ∧ ∀ text record,
                 format (fmt_class f) text record = without_cr text
                 ∧ ascii_of_nat 13
                   ∉ String.list_ascii_of_string (format (fmt_class f) text record).
Proof.
  intros Hself Hids E.
  apply ids_allocated_logger_at with (r := lm_logger lm) in Hids.
  apply init_default_logger_inv in E as (w1 & E1 & -> & E2).
  destruct (init_default_stream_logger_handlers _ _ _ _ _ _ Hself Hids E1)
    as (lv & Hlv & Hat1 & Hso1 & Hn1).
  assert (heap w1 !! self = Some lm) as Hself1.
  { destruct Hso1 as (_ & _ & _ & _ & -> & _). exact Hself. }
  assert (logger_ids_below (next_id w1) (logger_at w1 (lm_logger lm))) as Hids1.
  { rewrite Hat1, decide_True, Hn1 by done. unfold logger_ids_below. cbn [lg_handlers].
    apply Forall_app. split.
    - eapply Forall_impl; [exact Hids|]. cbn. intros ? ?. lia.
    - repeat constructor; cbn; lia. }
  destruct (add_handler_appends_at _ _ _ _ _ _ _ _ _ _ _ Hself1 Hids1 E2)
    as (lv2 & Hlv2 & Hat2 & _ & _).
  cbn in Hlv2. injection Hlv2 as <-.
  split.
  { unfold actual_log_path. destruct Hso1 as (_ & _ & _ & _ & _ & ->). done. }
  eexists _, _, _. split.
  { rewrite Hat2, decide_True by done. cbn [lg_handlers].
    rewrite Hat1, decide_True by done. cbn [lg_handlers].
    rewrite <- app_assoc. reflexivity. }
  split; [reflexivity|]. split; [reflexivity|]. split; [reflexivity|].
  split; [reflexivity|]. eexists. split; [reflexivity|]. split; [reflexivity|].
  intros text record.
  change (replace cr EmptyString text = without_cr text
          ∧ ascii_of_nat 13
            ∉ String.list_ascii_of_string (replace cr EmptyString text)).
  rewrite replace_cr. split; [reflexivity|].
  apply without_cr_free.
Qed.

Lemma init_default_logger_handlers_witness :
  let w := world_with_file env0 in
  ∃ lm h_out h_err h_file,
    heap w !! 0%nat = Some lm
    ∧ (init_default_logger 0 false false None w).1
      = Ok "/var/tmp/main_user_1500000000.log"
    ∧ lg_handlers (logger_at (init_default_logger 0 false false None w).2 (lm_logger lm))
      = lg_handlers (logger_at w (lm_logger lm)) ++ [h_out; h_err; h_file]
    ∧ h_level h_file = DEBUG.
Proof.
  intros w.
  destruct (heap w !! 0%nat) as [lm|] eqn:Hself; [|by vm_compute in Hself].
  assert (ids_allocated w) as Hids
    by (apply (bool_decide_unpack (ids_allocated w)); vm_compute; exact I).
  destruct (init_default_logger 0 false false None w) as [[p|e] w'] eqn:E;
    [|by vm_compute in E].
  destruct (init_default_logger_handlers 0 lm false false None w p w' Hself Hids E)
    as (-> & h_out & h_err & h_file & Hh & _ & _ & _ & Hl & _).
  exists lm, h_out, h_err, h_file.
  split; [reflexivity|]. split; [by vm_compute|]. split; [exact Hh | exact Hl].
Defined.




(** What [add_handler] on a path has run through when it returns. *)
Lemma add_handler_path_inv self p level fmt date_fmt filter rotate formatter w w' :
  add_handler self (ToPath p) level fmt date_fmt filter rotate formatter w = (Ok tt, w') →
  ∃ w1 w2,
    _prep_log_dir p default_dir_permissions w = (Ok tt, w1)
    ∧ Os.open_append p w1 = (Ok tt, w2)
    ∧ fs w' = fs w2.
Proof.
  destruct (heap w !! self) as [lm|] eqn:Hself.
  2: { by rewrite (add_handler_dangling _ _ _ _ _ _ _ _ _ Hself). }
  unfold add_handler. rewrite (bind_ok _ _ _ _ _ (deref_ok _ _ _ Hself)). cbv zeta.
  intros (h & w3 & Emake & E)%bind_ok_inv.
  assert (∃ w1 w2, _prep_log_dir p default_dir_permissions w = (Ok tt, w1)
                   ∧ Os.open_append p w1 = (Ok tt, w2) ∧ fs w3 = fs w2)
    as (w1 & w2 & E1 & E2 & Hfs).
  { destruct rotate.
    - apply bind_ok_inv in Emake as ([] & w1 & E1 & Emake).
      unfold new_TimedRotatingFileHandler in Emake.
      apply bind_ok_inv in Emake as ([] & w2 & E2 & Emake).
      rewrite Handler_init_ok in Emake. injection Emake as _ <-. by exists w1, w2.
    - apply bind_ok_inv in Emake as ([] & w1 & E1 & Emake).
      unfold new_FileHandler in Emake.
      apply bind_ok_inv in Emake as ([] & w2 & E2 & Emake).
      rewrite Handler_init_ok in Emake. injection Emake as _ <-. by exists w1, w2. }
  exists w1, w2. split; [exact E1|]. split; [exact E2|]. rewrite <- Hfs.
  rewrite bind_eq in E. change (gets ?f w3) with (Ok (f w3), w3) in E. cbv beta iota in E.
  apply bind_ok_inv in E as (h' & w4 & Es & E).
  apply Handler_setLevel_ok in Es as (lv & _ & -> & _).
  unfold Logger_addHandler in E.
  match type of E with update_logger ?r ?f w3 = _ =>
    destruct (update_logger_run r f w3) as [E' F]
  end.
  rewrite E in F. cbn [snd] in F. unfold loggers_frame in F. by rewrite F.
Qed.

(** The file system after the directory has been prepared and the file
    opened. *)
Lemma log_file_opened p m w w1 w2 :
  _prep_log_dir p m w = (Ok tt, w1) →
  Os.open_append p w1 = (Ok tt, w2) →
  Os.stat w2 (Os.dirname p) = Some Dir
  ∧ Os.stat w2 p = Some File
  ∧ fs w ⊆ fs w2
  ∧ ∀ q, fs w !! q = None → is_Some (fs w2 !! q) →
         (q = p ∧ fs w2 !! q = Some File)
         ∨ (fs w2 !! q = Some Dir ∧ q ∈ Os.dirname p :: Os.ancestors (Os.dirname p)
            ∧ (Os.dirname q = EmptyString ∨ Os.stat w2 (Os.dirname q) = Some Dir)).
Proof.
  intros E1 E2.
  pose proof (_prep_log_dir_postcondition_ok p m w w1 E1) as (Hd1 & _ & Hsub1 & Hnew1).
  apply open_append_ok in E2 as (Hp2 & Hw2).
  destruct Hw2 as [->|[Hp1 ->]].
  { split; [exact Hd1|]. split; [exact Hp2|]. split; [exact Hsub1|].
    intros q Hq Hs. right. by apply Hnew1. }
  assert (∀ a, Os.stat w1 a = Some Dir →
               Os.stat (set_fs <[p := File]> w1) a = Some Dir) as Hkeep.
  { intros a. unfold Os.stat. case_bool_decide; [done|].
    destruct (Os.is_root a); [done|]. cbn [fs set_fs]. intros Ha.
    rewrite lookup_insert_ne; [done|]. intros <-. congruence. }
  split; [|split; [exact Hp2|split]].
  - by apply Hkeep.
  - etrans; [exact Hsub1|]. cbn [fs set_fs]. by apply insert_subseteq.
  - intros q Hq. cbn [fs set_fs]. destruct (decide (q = p)) as [->|Hqp].
    + rewrite lookup_insert_eq. by left.
    + rewrite lookup_insert_ne by done. intros Hs. right.
      destruct (Hnew1 q Hq Hs) as (Hdq & Hin & Hpar).
      split; [done|]. split; [done|].
      destruct Hpar as [?|Hpar]; [by left|]. right. by apply Hkeep.
Qed.

(** What [add_handler] on a path leaves in the file system.  When it
    returns, the directory of the path is a directory and a file is at the
    path; everything that was in the file system is still there as it was;
    and what has been added is the log file, or a directory that is the
    directory of the path or lies above it and has its own parent directory
    in place. *)
Theorem add_handler_opens_log_file
    self p level fmt date_fmt filter rotate formatter w w' :
  add_handler self (ToPath p) level fmt date_fmt filter rotate formatter w = (Ok tt, w') →
  Os.stat w' (Os.dirname p) = Some Dir
  ∧ Os.stat w' p = Some File
  ∧ fs w ⊆ fs w'
  ∧ ∀ q, fs w !! q = None → is_Some (fs w' !! q) →
         (q = p ∧ fs w' !! q = Some File)
         ∨ (fs w' !! q = Some Dir ∧ q ∈ Os.dirname p :: Os.ancestors (Os.dirname p)
            ∧ (Os.dirname q = EmptyString ∨ Os.stat w' (Os.dirname q) = Some Dir)).
Proof.
  intros (w1 & w2 & E1 & E2 & Hfs)%add_handler_path_inv.
  destruct (log_file_opened _ _ _ _ _ E1 E2) as (Hd & Hp & Hsub & Hnew).
  assert (∀ a, Os.stat w' a = Os.stat w2 a) as Hst.
  { intros a. unfold Os.stat. by rewrite Hfs. }
  rewrite !Hst, Hfs. split; [exact Hd|]. split; [exact Hp|]. split; [exact Hsub|].
  intros q Hq Hs. rewrite Hst. by apply Hnew.
Qed.

Lemma add_handler_opens_log_file_witness :
  let w := world_with_file env0 in
  let w' := (add_handler 0 (ToPath "/var/log/app/out.log") (PStr "WARNING") None None
               None false None w).2 in
  Os.stat w' "/var/log/app" = Some Dir
  ∧ Os.stat w' "/var/log/app/out.log" = Some File
  ∧ fs w ⊆ fs w'
  ∧ fs w' !! "/var/log" = Some Dir.
Proof.
  intros w w'.
  destruct (add_handler 0 (ToPath "/var/log/app/out.log") (PStr "WARNING") None None
              None false None w) as [[[]|e] w''] eqn:E; [|by vm_compute in E].
  destruct (add_handler_opens_log_file 0 "/var/log/app/out.log" (PStr "WARNING") None
              None None false None w w'' E) as (Hd & Hp & Hsub & _).
  subst w'. cbn [snd].
  split; [exact Hd|]. split; [exact Hp|]. split; [exact Hsub|].
  apply (f_equal snd) in E. cbn [snd] in E. rewrite <- E. by vm_compute.
Defined.

End FileLoggerTheorems.

(** ** [create_default_logger] *)

Section CreateDefaultLogger.
Import Reasoning Logging LogHandling.




End CreateDefaultLogger.

(** ** Attributes, levels and the registry *)

Section InstanceTheorems.
Import Reasoning Logging LogHandling.

Lemma heap_set_obj_other self r lm' w :
  r ≠ self → heap (set_heap <[self := lm']> w) !! r = heap w !! r.
Proof. intros H. cbn. by rewrite list_lookup_insert_ne. Qed.

Lemma getattr_result self n w lm :
  heap w !! self = Some lm →
  getattr self n w
  = (match fn_attrs lm !! n with
     | Some v => Ok v
     | None =>
         if bool_decide (n ∈ data_attrs) then Ok (DataAttr n)
         else if bool_decide (n ∈ class_attrs ++ object_attrs) then Ok (ClassAttr n)
         else Err (Raise AttributeError n)
     end, w).
Proof.
  intros H. unfold getattr. rewrite (bind_ok _ _ _ _ _ (deref_ok _ _ _ H)).
  destruct (fn_attrs lm !! n); [done|].
  destruct (bool_decide (n ∈ data_attrs)); [done|].
  by destruct (bool_decide (n ∈ class_attrs ++ object_attrs)).
Qed.

(** For a name that is no data attribute of the instance and no attribute
    of the class, [_add_log_function] installs the function, also over a
    log function installed under this name before: afterwards [getattr]
    gives the closure that logs at the level, [get_log_funcs] holds the same
    object under the name, every other attribute and entry of the instance
    reads as before, and no other instance is touched. *)
Theorem _add_log_function_installs self lm level_number fn_name w :
  heap w !! self = Some lm →
  fn_name ∉ data_attrs ++ class_attrs ++ object_attrs →
  ∃ w',
    _add_log_function self level_number fn_name w = (Ok tt, w')
    ∧ getattr self fn_name w' = (Ok (LogClosure self level_number), w')
    ∧ (∃ m, get_log_funcs self w' = (Ok m, w')
            ∧ m !! fn_name = Some (LogClosure self level_number)
            ∧ ∀ n, n ≠ fn_name → m !! n = log_funcs lm !! n)
    ∧ (∀ n, n ≠ fn_name → (getattr self n w').1 = (getattr self n w).1)
    ∧ (∀ r, r ≠ self → heap w' !! r = heap w !! r).
Proof.
  intros Hself _. eexists. split; [by apply _add_log_function_ok|].
  pose proof (heap_set_obj self lm (add_fn fn_name (LogClosure self level_number) lm)
                w Hself) as H'.
  split; [|split; [|split]].
  - apply (getattr_set _ _ _ _ _ H'). cbn. apply lookup_insert_eq.
  - eexists. split; [|split].
    + unfold get_log_funcs. by rewrite (bind_ok _ _ _ _ _ (deref_ok _ _ _ H')).
    + cbn. apply lookup_insert_eq.
    + intros n Hn. cbn. by rewrite lookup_insert_ne.
  - intros n Hn. rewrite (getattr_result _ _ _ _ H'), (getattr_result _ _ _ _ Hself).
    cbn. by rewrite lookup_insert_ne.
  - intros r Hr. by apply heap_set_obj_other.
Qed.

Lemma _add_log_function_installs_witness :
  let w := world_with_file env0 in
  ∃ w', _add_log_function 0 5 "verbose" w = (Ok tt, w')
        ∧ getattr 0 "verbose" w' = (Ok (LogClosure 0 5), w').
Proof.
  intros w.
  destruct (heap w !! 0%nat) as [lm|] eqn:Hself; [|by vm_compute in Hself].
  assert ("verbose" ∉ data_attrs ++ class_attrs ++ object_attrs) as Hn.
  { apply (bool_decide_unpack _). vm_compute. exact I. }
  destruct (_add_log_function_installs 0 lm 5 "verbose" w Hself Hn) as (w' & E & Hg & _).
  by exists w'.
Defined.

Lemma hasattr_add_fn fn v lm : hasattr (add_fn fn v lm) fn = true.
Proof.
  unfold hasattr. cbn. rewrite lookup_insert_eq.
  rewrite bool_decide_eq_true_2 by (by eexists). reflexivity.
Qed.

(** A function name can be added once.  After a call of [add_level] has
    returned, every further [add_level] on that instance under the same
    function name raises [InputValidationException] and changes nothing,
    whatever level number and level name it is given. *)
Theorem add_level_only_once
    self lm level_number level_name fn_name w w1 level_number' level_name' fn_name' :
  heap w !! self = Some lm →
  add_level self level_number level_name fn_name w = (Ok tt, w1) →
  default level_name' fn_name' = default level_name fn_name →
  add_level self level_number' level_name' fn_name' w1
  = (Err (Raise InputValidationException
            ("This LogManager already has a method called '"
             +:+ default level_name fn_name +:+ "'")), w1).
Proof.
  intros Hself E Hfn.
  destruct (hasattr lm (default level_name fn_name)) eqn:Ha.
  { rewrite (add_level_taken _ _ _ _ _ _ Hself Ha) in E. discriminate. }
  rewrite (add_level_free _ _ _ _ _ _ Hself Ha) in E. injection E as <-.
  rewrite <- Hfn. eapply add_level_taken.
  - apply (heap_set_obj self lm). unfold register_level.
    destruct (in_nameToLevel _ w); exact Hself.
  - rewrite Hfn. apply hasattr_add_fn.
Qed.

Lemma add_level_only_once_witness :
  let w := world_with_file env0 in
  ∃ w1, add_level 0 25 "NOTICE" None w = (Ok tt, w1)
        ∧ (add_level 0 35 "ALERT" (Some "NOTICE") w1).1
          = Err (Raise InputValidationException
                   "This LogManager already has a method called 'NOTICE'").
Proof.
  intros w.
  destruct (heap w !! 0%nat) as [lm|] eqn:Hself; [|by vm_compute in Hself].
  destruct (add_level 0 25 "NOTICE" None w) as [[[]|e] w1] eqn:E;
    [|by vm_compute in E].
  exists w1. split; [reflexivity|].
  by rewrite (add_level_only_once 0 lm 25 "NOTICE" None w w1 35 "ALERT" (Some "NOTICE")
                Hself E eq_refl).
Defined.

(** [add_level] on an instance keeps every registered level name at its
    number. *)
Lemma add_level_keeps_name self level_number level_name fn_name n z w :
  _nameToLevel w !! n = Some z →
  holds_after (λ w', _nameToLevel w' !! n = Some z)
    (add_level self level_number level_name fn_name) w.
Proof.
  intros H. unfold holds_after.
  destruct (heap w !! self) as [lm|] eqn:Hself.
  2: { by rewrite (add_level_dangling _ _ _ _ _ Hself). }
  destruct (hasattr lm (default level_name fn_name)) eqn:Ha.
  { by rewrite (add_level_taken _ _ _ _ _ _ Hself Ha). }
  rewrite (add_level_free _ _ _ _ _ _ Hself Ha). cbn [snd].
  unfold register_level. destruct (in_nameToLevel (PStr level_name) w) eqn:Ein; [done|].
  cbn. rewrite lookup_insert_ne; [done|].
  intros ->. apply bool_decide_eq_false in Ein. apply Ein. by eexists.
Qed.

Ltac level_leaf :=
  lazymatch goal with
  | |- holds_after _ (add_level _ _ _ _) _ =>
      apply add_level_keeps_name; assumption
  | H : _nameToLevel ?w !! _ = Some _ |- _ => exact H
  end.

(** A level name, once registered, keeps its number: through every
    sequence of calls on [LogManager] and its instances, returned or raised,
    each name of the level registry stands for the number it stood for.
    (The names of the numbers are not so kept: see C1.) *)
Theorem level_names_keep_numbers os w n z :
  _nameToLevel w !! n = Some z → _nameToLevel (run_ops os w) !! n = Some z.
Proof.
  revert w. induction os as [|o os IH]; intros w H; [exact H|].
  apply IH. clear IH. destruct o; cbn [run_op].
  all: match goal with
       | |- _nameToLevel (?m ?w).2 !! _ = _ =>
           change (holds_after (λ w', _nameToLevel w' !! n = Some z) m w)
       end.
  all: after_auto ltac:(solve [level_leaf]).
Qed.

Lemma level_names_keep_numbers_witness :
  let os := [Construct None None None true;
             AddLevel 0%nat 20 "NOTICE" None;
             AddLevel 0%nat 5 "INFO" (Some "trace");
             InitDefaultStreamLogger 0%nat true true] in
  _nameToLevel (run_ops os (initial_world env0)) !! "INFO" = Some 20.
Proof.
  intros os. apply (level_names_keep_numbers os (initial_world env0) "INFO" 20).
  by vm_compute.
Defined.

(** The constructor and the registry agree: right after [LogManager(name,
    ...)] has returned an instance, [get_instance(name)], with any further
    arguments, returns that instance and changes nothing. *)
Theorem constructed_instance_is_returned name entry_fmt date_fmt replace_handlers x w :
  ∃ self w',
    __init__ name entry_fmt date_fmt replace_handlers w = (Ok self, w')
    ∧ get_instance name x w' = (Ok (Some self), w').
Proof.
  destruct (__init___state name entry_fmt date_fmt replace_handlers w)
    as (w' & E & _ & _ & _ & _ & _ & _ & _ & _ & Hreg & _).
  exists (length (heap w)), w'. split; [exact E|].
  by apply get_instance_registered.
Qed.

(** A constructor name passed by position collides with the name
    [get_instance] passes by keyword: for a name that is not registered,
    [get_instance(name, debug, verbose, other)] raises [TypeError], and
    nothing has been constructed, registered or attached. *)
Theorem get_instance_name_twice n x m w :
  _instances w !! n = None → x_pos_name x = Some m →
  get_instance (Some n) x w
  = (Err (Raise TypeError "__init__() got multiple values for argument 'name'"), w).
Proof.
  intros Hn Hx. unfold get_instance.
  rewrite bind_eq. change (get w) with (Ok w, w). cbv beta iota. rewrite Hn.
  unfold create_default_stream_logger, LogManager_call. cbn [pos_name kw_name].
  rewrite Hx. reflexivity.
Qed.

Lemma get_instance_name_twice_witness :
  (get_instance (Some "app") (ExtraArgs false false (Some (Some "web")) None None true)
     (initial_world env0)).1
  = Err (Raise TypeError "__init__() got multiple values for argument 'name'").
Proof.
  by rewrite (get_instance_name_twice "app"
                (ExtraArgs false false (Some (Some "web")) None None true)
                (Some "web") (initial_world env0) eq_refl eq_refl).
Defined.

(** With no default instance, [get_instance(None, debug, verbose, other)]
    constructs an instance under the other name and returns [None], not an
    instance: the default slot stays empty, so that every such call
    constructs again. *)
Theorem get_instance_default_with_name x s w :
  _default_instance w = None → x_pos_name x = Some (Some s) →
  ∃ w',
    get_instance None x w = (Ok None, w')
    ∧ _default_instance w' = None
    ∧ _instances w' !! s = Some (length (heap w))
    ∧ length (heap w') = S (length (heap w)).
Proof.
  intros Hd Hx. unfold get_instance.
  rewrite bind_eq. change (get w) with (Ok w, w). cbv beta iota. rewrite Hd.
  destruct (create_default_stream_logger_ok (x_debug x) (x_verbose x)
              (CtorArgs (x_pos_name x) None (x_entry_fmt x) (x_date_fmt x)
                        (x_replace_handlers x)) (Some s) w)
    as (w1 & E & Hr).
  { unfold bound_name. cbn. by rewrite Hx. }
  rewrite bind_eq, bind_eq, E. cbv beta iota. rewrite ret_eq. cbv beta iota.
  change (gets _default_instance w1) with (Ok (_default_instance w1), w1).
  (* what the call left of the default slot and of the heap *)
  unfold create_default_stream_logger in E.
  rewrite bind_eq, (LogManager_call_bound _ (Some s)) in E
    by (unfold bound_name; cbn; by rewrite Hx).
  destruct (__init___state (Some s) (x_entry_fmt x) (x_date_fmt x)
              (x_replace_handlers x) w)
    as (w0 & E0 & Hheap & _ & _ & _ & _ & _ & _ & _ & _ & Hother).
  cbn [arg_entry_fmt arg_date_fmt arg_replace_handlers] in E.
  rewrite E0 in E. cbv beta iota in E.
  apply bind_ok_inv in E as ([] & w1' & E1 & E). injection E as <-.
  pose proof (init_default_stream_logger_same_objects (length (heap w))
                (x_debug x) (x_verbose x) w0) as Hso.
  rewrite E1 in Hso. destruct Hso as (_ & _ & Hdi & _ & Hh & _). cbn [snd] in Hdi, Hh.
  specialize (Hother None). cbn in Hother.
  assert (_default_instance w1' = None) as Hnone.
  { rewrite Hdi, Hother by done. exact Hd. }
  exists w1'. rewrite Hnone. split; [reflexivity|]. split; [reflexivity|].
  split; [exact Hr|]. rewrite Hh, Hheap, length_app. cbn. lia.
Qed.

Lemma get_instance_default_with_name_witness :
  ∃ w', get_instance None (ExtraArgs false false (Some (Some "web")) None None true)
          (initial_world env0) = (Ok None, w')
        ∧ _instances w' !! "web" = Some 0%nat.
Proof.
  destruct (get_instance_default_with_name
              (ExtraArgs false false (Some (Some "web")) None None true) "web"
              (initial_world env0) eq_refl eq_refl) as (w' & E & _ & Hi & _).
  by exists w'.
Defined.

End InstanceTheorems.

(** ** What the constructor leaves, time zone aliases, the default log path *)

Section ConstructorTheorems.
Import Reasoning Logging LogHandling.

Lemma constructed_log_funcs name entry_fmt date_fmt self :
  log_funcs (constructed name entry_fmt date_fmt self)
  = <["verbose" := LogClosure self 19]>
      (foldr (λ fn m, <[fn := BoundLoggerMethod (logger_of_name name) fn]> m) ∅
         (rev logger_methods)).
Proof. reflexivity. Qed.

Lemma constructed_fn_attrs name entry_fmt date_fmt self :
  fn_attrs (constructed name entry_fmt date_fmt self)
  = log_funcs (constructed name entry_fmt date_fmt self).
Proof. reflexivity. Qed.

Lemma lookup_methods (f : string → pyobj) (l : list string) fn :
  foldr (λ fn m, <[fn := f fn]> m) (∅ : gmap string pyobj) l !! fn
  = if bool_decide (fn ∈ l) then Some (f fn) else None.
Proof.
  induction l as [|a l IH]; cbn [foldr].
  - rewrite lookup_empty. by rewrite bool_decide_eq_false_2 by apply not_elem_of_nil.
  - destruct (decide (a = fn)) as [->|Hne].
    + rewrite lookup_insert_eq.
      by rewrite bool_decide_eq_true_2 by (apply elem_of_cons; by left).
    + rewrite lookup_insert_ne by done. rewrite IH.
      destruct (decide (fn ∈ l)) as [Hin|Hin].
      * by rewrite !bool_decide_eq_true_2 by (try apply elem_of_cons; by try right).
      * rewrite !bool_decide_eq_false_2; [done| |done].
        rewrite elem_of_cons. by intros [->|?].
Qed.

(** The log functions of a new instance.  The constructor always returns,
    and the instance it returns has exactly eight log functions: the seven
    logger methods, bound to the logger of the instance's name, and
    [verbose], which logs at level 19; [add_level(19, ...)] in the
    constructor never fails, whatever the level registry holds.  Each is an
    attribute of the instance as well, and [get_log_funcs] returns them. *)
Theorem constructor_log_functions name entry_fmt date_fmt replace_handlers w :
  ∃ self w' lm,
    __init__ name entry_fmt date_fmt replace_handlers w = (Ok self, w')
    ∧ heap w' !! self = Some lm
    ∧ get_log_funcs self w' = (Ok (log_funcs lm), w')
    ∧ (∀ fn, log_funcs lm !! fn
             = if bool_decide (fn = "verbose") then Some (LogClosure self 19)
               else if bool_decide (fn ∈ logger_methods)
                    then Some (BoundLoggerMethod (logger_of_name name) fn)
                    else None)
    ∧ (∀ fn v, log_funcs lm !! fn = Some v → getattr self fn w' = (Ok v, w'))
    ∧ size (log_funcs lm) = 8%nat.
Proof.
  destruct (__init___state name entry_fmt date_fmt replace_handlers w)
    as (w' & E & Hheap & _).
  exists (length (heap w)), w', (constructed name entry_fmt date_fmt (length (heap w))).
  assert (heap w' !! length (heap w)
          = Some (constructed name entry_fmt date_fmt (length (heap w)))) as Hself.
  { rewrite Hheap. by apply list_lookup_middle. }
  split; [exact E|]. split; [exact Hself|]. split; [|split; [|split]].
  - unfold get_log_funcs. by rewrite (bind_ok _ _ _ _ _ (deref_ok _ _ _ Hself)).
  - intros fn. rewrite constructed_log_funcs.
    destruct (decide (fn = "verbose")) as [->|Hne].
    + rewrite lookup_insert_eq. by rewrite bool_decide_eq_true_2.
    + rewrite lookup_insert_ne by done. rewrite bool_decide_eq_false_2 by done.
      rewrite lookup_methods.
      destruct (decide (fn ∈ logger_methods)) as [Hin|Hin].
      * rewrite !bool_decide_eq_true_2; [done..|].
        by rewrite list_elem_of_In, <- in_rev, <- list_elem_of_In.
      * rewrite !bool_decide_eq_false_2; [done..|].
        by rewrite list_elem_of_In, <- in_rev, <- list_elem_of_In.
  - intros fn v Hv. apply (getattr_set _ _ _ _ _ Hself).
    by rewrite constructed_fn_attrs.
  - rewrite constructed_log_funcs. by vm_compute.
Qed.

Ltac handler_list_leaf :=
  lazymatch goal with
  | H : _handlerList ?w ≠ [] |- _ =>
      unfold_setters; first [exact H | by intros [? ?]%app_eq_nil]
  end.

(** The list of handlers made is never empty once it is not: [logging]
    puts its [lastResort] handler on it when it is imported. *)
Lemma run_ops_handler_list os w :
  _handlerList w ≠ [] → _handlerList (run_ops os w) ≠ [].
Proof.
  revert w. induction os as [|o os IH]; intros w H; [exact H|].
  apply IH. clear IH. destruct o; cbn [run_op].
  all: match goal with
       | |- _handlerList (?m ?w).2 ≠ [] =>
           change (holds_after (λ w', _handlerList w' ≠ []) m w)
       end.
  all: after_auto ltac:(solve [handler_list_leaf]).
Qed.

(** The loggers after the constructor, in a process: the list of handlers
    made is not empty there, and stays so through every sequence of calls,
    so that the constructor's test for an empty list never succeeds.  The
    logger of the instance's name is at level NOTSET, and without handlers
    when [replace_handlers] (the default): handlers that an earlier instance
    attached to that logger are dropped.  Every other logger is as it was,
    the root logger too: its level is left alone.  No handler is made and no
    file is touched. *)
Theorem constructor_resets_logger name entry_fmt date_fmt replace_handlers os w :
  _handlerList w ≠ [] →
  _handlerList (run_ops os w) ≠ []
  ∧ ∃ self w',
      __init__ name entry_fmt date_fmt replace_handlers w = (Ok self, w')
      ∧ logger_at w' (logger_of_name name)
        = MkLogger NOTSET
            (if replace_handlers then []
             else lg_handlers (logger_at w (logger_of_name name)))
      ∧ (∀ r, r ≠ logger_of_name name → logger_at w' r = logger_at w r)
      ∧ next_id w' = next_id w ∧ fs w' = fs w.
Proof.
  intros Hl. split; [by apply run_ops_handler_list|].
  destruct (__init___state name entry_fmt date_fmt replace_handlers w)
    as (w' & E & _ & Hat & _ & _ & Hn & _ & Hfs & _).
  exists (length (heap w)), w'. split; [exact E|].
  split; [|split; [|done]].
  - rewrite Hat. unfold logger_after_init. by rewrite decide_True.
  - intros r Hr. rewrite Hat. unfold logger_after_init.
    rewrite decide_False by done.
    destruct (decide (r = RootLogger)) as [->|Hrt]; [|done].
    destruct (_handlerList w) as [|i l]; [done|].
    cbn [length]. by rewrite andb_false_r.
Qed.

Lemma constructor_resets_logger_witness :
  let w := initial_world env0 in
  _handlerList w ≠ []
  ∧ ∃ self w',
      __init__ (Some "app") None None true w = (Ok self, w')
      ∧ root w' = MkLogger WARNING []
      ∧ logger_at w' (NamedLogger "app") = MkLogger NOTSET [].
Proof.
  intros w.
  assert (_handlerList w ≠ []) as Hl by (by intros [=]).
  split; [exact Hl|].
  destruct (constructor_resets_logger (Some "app") None None true [] w Hl)
    as (_ & self & w' & E & Hlg & Hother & _).
  exists self, w'. split; [exact E|]. split; [|exact Hlg].
  change (root w') with (logger_at w' RootLogger). by rewrite Hother.
Defined.

(** [set_timezone_alias] takes effect in the handlers added after it: the
    date format of such a handler has [%Z] replaced by the alias when the
    alias is for the local time zone name, and is what it would have been
    without the call when the alias is for another name. *)
Theorem timezone_alias_in_date_format
    self lm original alias dest level fmt date_fmt filter rotate formatter w w' :
  heap w !! self = Some lm → ids_allocated w →
  (set_timezone_alias self original alias;;
   add_handler self dest level fmt date_fmt filter rotate formatter) w = (Ok tt, w') →
  ∃ h f,
    lg_handlers (logger_at w' (lm_logger lm))
    = lg_handlers (logger_at w (lm_logger lm)) ++ [h]
    ∧ h_formatter h = Some f
    ∧ fmt_date f
      = if decide (original = tzname (env w))
        then replace "%Z" alias (default (date_format lm) date_fmt)
        else handler_date_fmt lm w (default (date_format lm) date_fmt).
Proof.
  intros Hself Hids E.
  unfold set_timezone_alias in E.
  rewrite (bind_ok _ _ _ _ _ (update_self_ok _ _ _ _ Hself)) in E.
  set (lm1 := with_tz_aliases <[original := alias]> lm) in E.
  set (w1 := set_heap <[self := lm1]> w) in E.
  assert (heap w1 !! self = Some lm1) as Hself1 by by apply (heap_set_obj self lm).
  apply ids_allocated_logger_at with (r := lm_logger lm) in Hids.
  destruct (add_handler_appends_at _ _ _ _ _ _ _ _ _ _ _ Hself1 Hids E)
    as (lv & _ & Hat & _).
  eexists _, _. split; [|split].
  - rewrite Hat. change (lm_logger lm1) with (lm_logger lm).
    rewrite decide_True by done. reflexivity.
  - reflexivity.
  - cbn [fmt_date]. unfold handler_date_fmt.
    change (tz_aliases lm1) with (<[original := alias]> (tz_aliases lm)).
    change (env w1) with (env w). change (date_format lm1) with (date_format lm).
    case_decide as Ho.
    + subst original. by rewrite lookup_insert_eq.
    + by rewrite lookup_insert_ne.
Qed.

Lemma timezone_alias_in_date_format_witness :
  let w := world_with_file env0 in
  ∃ lm h f,
    heap w !! 0%nat = Some lm
    ∧ lg_handlers
        (logger_at ((set_timezone_alias 0 "Eastern Standard Time" "ET";;
                     add_handler 0 (ToStream Stdout) (PInt 20) None None None true None)
                      w).2 (lm_logger lm))
      = lg_handlers (logger_at w (lm_logger lm)) ++ [h]
    ∧ h_formatter h = Some f
    ∧ fmt_date f = "%Y-%m-%d %H:%M:%S ET".
Proof.
  intros w.
  destruct (heap w !! 0%nat) as [lm|] eqn:Hself; [|by vm_compute in Hself].
  assert (ids_allocated w) as Hids
    by (apply (bool_decide_unpack (ids_allocated w)); vm_compute; exact I).
  destruct ((set_timezone_alias 0 "Eastern Standard Time" "ET";;
             add_handler 0 (ToStream Stdout) (PInt 20) None None None true None) w)
    as [[[]|e] w'] eqn:E; [|by vm_compute in E].
  destruct (timezone_alias_in_date_format 0 lm "Eastern Standard Time" "ET"
              (ToStream Stdout) (PInt 20) None None None true None w w' Hself Hids E)
    as (h & f & Hh & Hf & Hd).
  exists lm, h, f. split; [reflexivity|]. split; [exact Hh|]. split; [exact Hf|].
  rewrite Hd. vm_compute in Hself. injection Hself as <-. by vm_compute.
Defined.

Lemma find_calling_module_skips k frames :
  find_calling_module (replicate k (Some this_file) ++ frames)
  = find_calling_module frames.
Proof.
  induction k as [|k IH]; [reflexivity|].
  cbn [replicate app find_calling_module]. by rewrite bool_decide_eq_true_2.
Qed.

(** The default log file is named for the caller.  Without a log path,
    [init_default_logger], when it returns, returns
    [/var/tmp/<module>_<user>_<time>.log], where the module is that of the
    first frame above any run of frames of [log_handling] itself. *)
Theorem default_log_path_names_caller self debug verbose top k m rest p w w' :
  stack (env w) = top :: replicate k (Some this_file) ++ Some m :: rest →
  m ≠ this_file →
  init_default_logger self debug verbose None w = (Ok p, w') →
  p = "/var/tmp/" +:+ m +:+ "_" +:+ user (env w) +:+ "_" +:+ pretty (now (env w))
      +:+ ".log".
Proof.
  intros Hst Hm E.
  apply init_default_logger_inv in E as (w1 & E1 & -> & _).
  pose proof (init_default_stream_logger_same_objects self debug verbose w) as Hso.
  rewrite E1 in Hso. destruct Hso as (_ & _ & _ & _ & _ & Henv). cbn [snd] in Henv.
  unfold actual_log_path. rewrite Henv, Hst. cbn [drop]. rewrite drop_0.
  rewrite find_calling_module_skips. cbn [find_calling_module].
  by rewrite bool_decide_eq_false_2.
Qed.

Lemma default_log_path_names_caller_witness :
  (init_default_logger 0 false false None (world_with_file env0)).1
  = Ok "/var/tmp/main_user_1500000000.log".
Proof.
  destruct (init_default_logger 0 false false None (world_with_file env0))
    as [[p|e] w'] eqn:E; [|by vm_compute in E].
  by rewrite (default_log_path_names_caller 0 false false (Some "log_handling") 1 "main" []
                p (world_with_file env0) w' eq_refl ltac:(done) E).
Defined.

End ConstructorTheorems.

(** ** Handlers piling up on a logger *)

Section HandlerLists.
Import Reasoning Logging LogHandling.





End HandlerLists.
